(** * A virtual bistro kitchen: dishes, dietary accommodations and the
      kitchen's cached aggregates

    Shallow embedding of [Appetizer.cpp], [MainCourse.cpp], [Dessert.cpp] and
    [Kitchen.cpp].  C++ values are modelled as the code has them:

    - [int] is a 32-bit signed integer, carried as a [Z]; arithmetic that
      leaves the representable range is undefined behaviour in C++ and yields
      [Undefined];
    - [size_t] is a 64-bit unsigned integer, carried as a [Z] with its
      wrap-around written out ([i--] at [0] gives [2^64 - 1]);
    - [std::vector<T>] is a [list T]; [v[i]] outside the vector is undefined
      behaviour;
    - [double] is an IEEE-754 binary64 number, carried as the standard
      library's [spec_float] with the binary64 operations;
    - [Dish*] is an address into a store of dishes (a [gmap]), so that a dish
      held by the kitchen and mutated in place is one shared object. *)

From Stdlib Require Import ZArith Lia List String Floats.
From Stdlib Require DecimalString DecimalZ DecimalPos.
From stdpp Require Import base option list gmap strings.

Open Scope string_scope.
Open Scope Z_scope.

(** ** Outcomes of a C++ computation *)

Module Cxx.

(** A computation returns a value, runs into undefined behaviour, or (for the
    loops of the model that carry a bound) exhausts its bound.  The bounds are
    chosen so that the third case never occurs; the [*_fuel] lemmas say so. *)
Inductive res (A : Type) : Type :=
| Ok (a : A)
| Undefined
| OutOfFuel.

Arguments Ok {A} a.
Arguments Undefined {A}.
Arguments OutOfFuel {A}.

Definition bind {A B : Type} (m : res A) (k : A -> res B) : res B :=
  match m with
  | Ok a => k a
  | Undefined => Undefined
  | OutOfFuel => OutOfFuel
  end.

Definition INT_MIN : Z := - 2 ^ 31.
Definition INT_MAX : Z := 2 ^ 31 - 1.

Definition in_int (z : Z) : bool := (INT_MIN <=? z) && (z <=? INT_MAX).

(** The result of a signed [int] operation whose mathematical value is [z]. *)
Definition int_result (z : Z) : res Z :=
  if in_int z then Ok z else Undefined.

Definition int_add (x y : Z) : res Z := int_result (x + y).
Definition int_sub (x y : Z) : res Z := int_result (x - y).

Definition SIZE_MODULUS : Z := 2 ^ 64.

(** [size_t] arithmetic wraps around. *)
Definition size_wrap (z : Z) : Z := z mod SIZE_MODULUS.
Definition size_incr (i : Z) : Z := size_wrap (i + 1).
Definition size_decr (i : Z) : Z := size_wrap (i - 1).

(** [v.size()] *)
Definition vec_size {A : Type} (v : list A) : Z := Z.of_nat (length v).

(** [v[i]]: reading outside the vector is undefined behaviour. *)
Definition vec_at {A : Type} (v : list A) (i : Z) : res A :=
  if (0 <=? i) && (i <? vec_size v) then
    match v !! Z.to_nat i with
    | Some x => Ok x
    | None => Undefined
    end
  else Undefined.

(** [v[i] = x] for an index already known to be inside the vector. *)
Definition vec_set {A : Type} (v : list A) (i : Z) (x : A) : list A :=
  <[Z.to_nat i := x]> v.

(** [v.erase(v.begin() + i)] *)
Definition vec_erase {A : Type} (v : list A) (i : Z) : list A :=
  delete (Z.to_nat i) v.

End Cxx.

Import Cxx.

Notation "'let*' x ':=' m 'in' k" := (Cxx.bind m (fun x => k))
  (at level 10, x name, m at level 100, k at level 200).
Notation "'let*' ' pat ':=' m 'in' k" :=
  (Cxx.bind m (fun x => match x with pat => k end))
  (at level 10, pat pattern, m at level 100, k at level 200).

(** ** The dish base class *)

Module Dish.

(** Modelled from the spec: [Dish.hpp] and [Dish.cpp] are not part of the
    sources at hand.  Section 3 of the specification gives the common fields
    (name, ordered ingredient list, preparation time, price, cuisine) and the
    cuisine tokens, in this order; the constructor calls of [Kitchen.cpp] give
    their C++ types. *)
Inductive CuisineType : Type :=
| ITALIAN | MEXICAN | CHINESE | INDIAN | AMERICAN | FRENCH | OTHER.

(** Modelled from the spec: the fields of the [Dish] base class (see above). *)
Record t : Type := mk
  { name_ : string;
    ingredients_ : list string;
    prep_time_ : Z;
    price_ : spec_float;
    cuisine_type_ : CuisineType }.

(** Modelled from the spec: the six independent flags of a dietary request
    (section 3); [main.cpp] sets each of them by name. *)
Record DietaryRequest : Type := mkRequest
  { vegetarian : bool;
    vegan : bool;
    gluten_free : bool;
    nut_free : bool;
    low_sodium : bool;
    low_sugar : bool }.

(** The same request with the vegetarian flag cleared. *)
Definition without_vegetarian (request : DietaryRequest) : DietaryRequest :=
  mkRequest false (vegan request) (gluten_free request) (nut_free request)
    (low_sodium request) (low_sugar request).

(** Modelled from the spec: the accessors of [Dish] the sources call. *)
Definition getIngredients (d : t) : list string := ingredients_ d.
Definition getPrepTime (d : t) : Z := prep_time_ d.

Definition setIngredients (d : t) (ingredients : list string) : t :=
  {| name_ := name_ d;
     ingredients_ := ingredients;
     prep_time_ := prep_time_ d;
     price_ := price_ d;
     cuisine_type_ := cuisine_type_ d |}.

(** Modelled from the spec: [getCuisineType] returns the cuisine token as a
    string ([Kitchen::tallyCuisineTypes] compares it with a [std::string]). *)
Definition getCuisineType (d : t) : string :=
  match cuisine_type_ d with
  | ITALIAN => "ITALIAN" | MEXICAN => "MEXICAN" | CHINESE => "CHINESE"
  | INDIAN => "INDIAN" | AMERICAN => "AMERICAN" | FRENCH => "FRENCH"
  | OTHER => "OTHER"
  end.

End Dish.

(** ** The ingredient scans shared by the dish classes

    The three classes repeat two loops verbatim: the vegetarian substitution
    scan ([Appetizer.cpp] 170-197, [MainCourse.cpp] 249-276) and the removal
    scan (gluten, dairy and egg, nuts, side-dish categories).  Each is an index
    loop over the vector with an inner loop over a constant table, and each
    erases while it iterates. *)

Module Scan.

(** The loop variables of the substitution scan: the local copy of the
    ingredients, the [size_t] index [i] and the [int] counter. *)
Record state : Type := mkState
  { ingredients : list string;
    i : Z;
    substitution_count : Z }.

Definition nonVegIngredients : list string :=
  ["Meat"; "Chicken"; "Fish"; "Beef"; "Pork"; "Lamb"; "Shrimp"; "Bacon"].

(** The body of [if (ingredients[i] == nonVegIngredients[j])]. *)
Definition substitute (st : state) : res state :=
  let st1 :=
    if substitution_count st =? 0 then
      mkState (vec_set (ingredients st) (i st) "Beans") (i st)
              (substitution_count st)
    else if substitution_count st =? 1 then
      mkState (vec_set (ingredients st) (i st) "Mushrooms") (i st)
              (substitution_count st)
    else
      mkState (vec_erase (ingredients st) (i st)) (size_decr (i st))
              (substitution_count st) in
  let* c := int_add (substitution_count st1) 1 in
  Ok (mkState (ingredients st1) (i st1) c).

(** The inner loop [for (j = 0; j < nonVegIngredients.size(); j++)], by
    recursion on the table entries still to be compared. *)
Fixpoint substitution_inner (table : list string) (st : state) : res state :=
  match table with
  | [] => Ok st
  | entry :: rest =>
      let* x := vec_at (ingredients st) (i st) in
      if String.eqb x entry then
        let* st' := substitute st in substitution_inner rest st'
      else substitution_inner rest st
  end.

(** The outer loop [for (i = 0; i < ingredients.size(); i++)].  Every round
    consumes one element of the vector, so its length bounds the rounds. *)
Fixpoint substitution_outer (fuel : nat) (table : list string) (st : state)
  : res state :=
  if i st <? vec_size (ingredients st) then
    match fuel with
    | O => OutOfFuel
    | S fuel' =>
        let* st' := substitution_inner table st in
        substitution_outer fuel' table
          (mkState (ingredients st') (size_incr (i st'))
                   (substitution_count st'))
    end
  else Ok st.

(** The vegetarian block from the copy of the ingredients to the vector handed
    to [Dish::setIngredients]. *)
Definition vegetarian_scan (ingredients0 : list string) : res (list string) :=
  let* st := substitution_outer (length ingredients0) nonVegIngredients
               (mkState ingredients0 0 0) in
  Ok (ingredients st).

(** The removal scan, over any type of elements and of table entries, with
    the comparison written in the inner [if]: the loop variables are the local
    copy of the vector and the index. *)
Section Removal.
Context {A B : Type} (eqb : A -> B -> bool).

Fixpoint removal_inner (table : list B) (v : list A) (i : Z)
  : res (list A * Z) :=
  match table with
  | [] => Ok (v, i)
  | entry :: rest =>
      let* x := vec_at v i in
      if eqb x entry then removal_inner rest (vec_erase v i) (size_decr i)
      else removal_inner rest v i
  end.

Fixpoint removal_outer (fuel : nat) (table : list B) (v : list A) (i : Z)
  : res (list A) :=
  if i <? vec_size v then
    match fuel with
    | O => OutOfFuel
    | S fuel' =>
        let* '(v', i') := removal_inner table v i in
        removal_outer fuel' table v' (size_incr i')
    end
  else Ok v.

Definition removal_scan (table : list B) (v0 : list A) : res (list A) :=
  removal_outer (length v0) table v0 0.
End Removal.

Definition gluten_ingredients : list string :=
  ["Wheat"; "Flour"; "Bread"; "Pasta"; "Barley"; "Rye"; "Oats"; "Crust"].
Definition dairy_egg_ingredients : list string :=
  ["Milk"; "Eggs"; "Cheese"; "Butter"; "Cream"; "Yogurt"].
Definition nuts_ingredients : list string :=
  ["Almonds"; "Walnuts"; "Pecans"; "Hazelnuts"; "Peanuts"; "Cashews";
   "Pistachios"].

End Scan.

(** The newline written by [std::endl]. *)
Definition endl : string := String (Ascii.ascii_of_nat 10) EmptyString.

(** ** Appetizer.cpp *)

Module Appetizer.

(** Modelled from the spec: the enumeration of [Appetizer.hpp] (section 3), in
    declaration order; [display] compares it with 0, 1 and 2. *)
Inductive ServingStyle : Type := PLATED | FAMILY_STYLE | BUFFET.

Definition ServingStyle_value (s : ServingStyle) : Z :=
  match s with PLATED => 0 | FAMILY_STYLE => 1 | BUFFET => 2 end.

Record t : Type := mk
  { dish : Dish.t;
    serving_style_ : ServingStyle;
    spiciness_level_ : Z;
    vegetarian_ : bool }.

Definition getSpicinessLevel (a : t) : Z := spiciness_level_ a.
Definition isVegetarian (a : t) : bool := vegetarian_ a.

(** [if (request.vegetarian == true) { ... }], lines 167-198. *)
Definition accommodate_vegetarian (a : t) : res t :=
  let* ingredients := Scan.vegetarian_scan (Dish.getIngredients (dish a)) in
  Ok (mk (Dish.setIngredients (dish a) ingredients) (serving_style_ a)
         (spiciness_level_ a) true).

(** [if (request.low_sodium == true) { ... }], lines 202-209. *)
Definition accommodate_low_sodium (a : t) : res t :=
  let* level := int_sub (spiciness_level_ a) 2 in
  Ok (mk (dish a) (serving_style_ a) (if level <? 0 then 0 else level)
         (vegetarian_ a)).

(** [if (request.gluten_free == true) { ... }], lines 215-231. *)
Definition accommodate_gluten_free (a : t) : res t :=
  let* ingredients :=
    Scan.removal_scan String.eqb Scan.gluten_ingredients
      (Dish.getIngredients (dish a)) in
  Ok (mk (Dish.setIngredients (dish a) ingredients) (serving_style_ a)
         (spiciness_level_ a) (vegetarian_ a)).

Definition dietaryAccommodations (request : Dish.DietaryRequest) (a : t)
  : res t :=
  let* a1 := if Dish.vegetarian request then accommodate_vegetarian a
             else Ok a in
  let* a2 := if Dish.low_sodium request then accommodate_low_sodium a1
             else Ok a1 in
  if Dish.gluten_free request then accommodate_gluten_free a2 else Ok a2.

Section Display.
(** Modelled from the spec: what [Dish::display] writes and how
    [operator<<] writes an [int] are outside the sources at hand; both are
    taken as given. *)
Variable Dish_display : Dish.t -> string.
Variable show_int : Z -> string.

(** One [if (serving_style_ == n) std::cout << ... << std::endl;]. *)
Definition serving_style_line (a : t) (n : Z) (text : string) : string :=
  if ServingStyle_value (serving_style_ a) =? n then text ++ endl
  else EmptyString.

(** [Appetizer::display], lines 101-128, as the text written to
    [std::cout]. *)
Definition display (a : t) : string :=
  Dish_display (dish a)
  ++ serving_style_line a 0 "Serving Style: Plated"
  ++ serving_style_line a 1 "Serving Style: Family Style"
  ++ serving_style_line a 2 "Serving Style: Buffet"
  ++ "Spiciness Level: " ++ show_int (getSpicinessLevel a) ++ endl
  ++ (if isVegetarian a then "Vegetarian: Yes" ++ endl
      else "Vegetarian: No" ++ endl).
End Display.

End Appetizer.

(** ** MainCourse.cpp *)

Module MainCourse.

(** Modelled from the spec: the enumerations and the side-dish structure of
    [MainCourse.hpp] (section 3), in declaration order. *)
Inductive CookingMethod : Type :=
| GRILLED | BAKED | BOILED | FRIED | STEAMED | RAW.

Inductive Category : Type :=
| GRAIN | PASTA | LEGUME | BREAD | SALAD | SOUP | STARCHES | VEGETABLE.

Definition Category_value (c : Category) : Z :=
  match c with
  | GRAIN => 0 | PASTA => 1 | LEGUME => 2 | BREAD => 3
  | SALAD => 4 | SOUP => 5 | STARCHES => 6 | VEGETABLE => 7
  end.

(** [==] on two enumerators. *)
Definition Category_eqb (c1 c2 : Category) : bool :=
  Category_value c1 =? Category_value c2.

Record SideDish : Type := mkSideDish
  { name : string;
    category : Category }.

Record t : Type := mk
  { dish : Dish.t;
    cooking_method_ : CookingMethod;
    protein_type_ : string;
    side_dishes_ : list SideDish;
    gluten_free_ : bool }.

Definition getSideDishes (m : t) : list SideDish := side_dishes_ m.

(** [if (request.vegetarian == true) { ... }], lines 246-277. *)
Definition accommodate_vegetarian (m : t) : res t :=
  let* ingredients := Scan.vegetarian_scan (Dish.getIngredients (dish m)) in
  Ok (mk (Dish.setIngredients (dish m) ingredients) (cooking_method_ m)
         "Tofu" (side_dishes_ m) (gluten_free_ m)).

(** [if (request.vegan == true) { ... }], lines 284-301. *)
Definition accommodate_vegan (m : t) : res t :=
  let* ingredients :=
    Scan.removal_scan String.eqb Scan.dairy_egg_ingredients
      (Dish.getIngredients (dish m)) in
  Ok (mk (Dish.setIngredients (dish m) ingredients) (cooking_method_ m)
         "Tofu" (side_dishes_ m) (gluten_free_ m)).

Definition gluten_side_dishes_category : list Category :=
  [GRAIN; PASTA; BREAD; STARCHES].

(** [side_dishes[i].category == gluten_side_dishes_category[j]] *)
Definition side_dish_is (s : SideDish) (entry : Category) : bool :=
  Category_eqb (category s) entry.

(** [if (request.gluten_free == true) { ... }], lines 309-326. *)
Definition accommodate_gluten_free (m : t) : res t :=
  let* side_dishes :=
    Scan.removal_scan side_dish_is gluten_side_dishes_category
      (getSideDishes m) in
  Ok (mk (dish m) (cooking_method_ m) (protein_type_ m) side_dishes true).

Definition dietaryAccommodations (request : Dish.DietaryRequest) (m : t)
  : res t :=
  let* m1 := if Dish.vegetarian request then accommodate_vegetarian m
             else Ok m in
  let* m2 := if Dish.vegan request then accommodate_vegan m1 else Ok m1 in
  if Dish.gluten_free request then accommodate_gluten_free m2 else Ok m2.

Definition CookingMethod_value (c : CookingMethod) : Z :=
  match c with
  | GRILLED => 0 | BAKED => 1 | BOILED => 2 | FRIED => 3 | STEAMED => 4
  | RAW => 5
  end.

Definition getProteinType (m : t) : string := protein_type_ m.
Definition isGlutenFree (m : t) : bool := gluten_free_ m.

Section Display.
(** Modelled from the spec: what [Dish::display] writes is outside the
    sources at hand and taken as given. *)
Variable Dish_display : Dish.t -> string.

(** One [if (cooking_method_ == n) std::cout << label << std::endl;]. *)
Definition cooking_method_line (m : t) (n : Z) (label : string) : string :=
  if CookingMethod_value (cooking_method_ m) =? n then label ++ endl
  else EmptyString.

(** One [if (side_dishes[i].category == c) std::cout << text;]. *)
Definition category_text (s : SideDish) (c : Category) (text : string)
  : string :=
  if Category_eqb (category s) c then text else EmptyString.

(** The loop of lines 152-192, by recursion on the side dishes from index
    [i] on; [size] is [side_dishes.size()], and [size - 1] is computed in
    [size_t]. *)
Fixpoint display_side_dishes (size i : Z) (rest : list SideDish) : string :=
  match rest with
  | [] => EmptyString
  | s :: rest' =>
      name s
      ++ category_text s GRAIN " (Category: Grain)"
      ++ category_text s PASTA " (Category: Pasta)"
      ++ category_text s LEGUME " (Category: Legume)"
      ++ category_text s BREAD " (Category: Bread)"
      ++ category_text s SALAD " (Category: Salad)"
      ++ category_text s SOUP " (Category: Soup)"
      ++ category_text s STARCHES " (Category: Starches)"
      ++ category_text s VEGETABLE " (Category: Vegetable)"
      ++ (if i <? size_decr size then ", " else EmptyString)
      ++ display_side_dishes size (size_incr i) rest'
  end.

(** [MainCourse::display], lines 118-205, as the text written to
    [std::cout]. *)
Definition display (m : t) : string :=
  Dish_display (dish m)
  ++ "Cooking Method: "
  ++ cooking_method_line m 0 "Grilled"
  ++ cooking_method_line m 1 "Baked"
  ++ cooking_method_line m 2 "Boiled"
  ++ cooking_method_line m 3 "Fried"
  ++ cooking_method_line m 4 "Steamed"
  ++ cooking_method_line m 5 "Raw"
  ++ "Protein Type: " ++ getProteinType m ++ endl
  ++ "Side Dishes: "
  ++ display_side_dishes (vec_size (getSideDishes m)) 0 (getSideDishes m)
  ++ endl
  ++ "Gluten-Free: "
  ++ (if isGlutenFree m then "Yes" ++ endl else "No" ++ endl).
End Display.

End MainCourse.

(** ** Dessert.cpp *)

Module Dessert.

(** Modelled from the spec: the enumeration of [Dessert.hpp] (section 3), in
    declaration order, so that [SWEET] is 0 and [UMAMI] is 4. *)
Inductive FlavorProfile : Type := SWEET | BITTER | SOUR | SALTY | UMAMI.

Definition FlavorProfile_value (f : FlavorProfile) : Z :=
  match f with SWEET => 0 | BITTER => 1 | SOUR => 2 | SALTY => 3 | UMAMI => 4 end.

Record t : Type := mk
  { dish : Dish.t;
    flavor_profile_ : FlavorProfile;
    sweetness_level_ : Z;
    contains_nuts_ : bool }.

Definition getSweetnessLevel (d : t) : Z := sweetness_level_ d.
Definition containsNuts (d : t) : bool := contains_nuts_ d.

Section Display.
(** Modelled from the spec: what [Dish::display] writes (the five common
    lines of section 6) and how [operator<<] writes an [int] are outside
    the sources at hand; both are taken as given. *)
Variable Dish_display : Dish.t -> string.
Variable show_int : Z -> string.

(** One [if (flavor_profile_ == n) std::cout << label << std::endl;]. *)
Definition flavor_line (d : t) (n : Z) (label : string) : string :=
  if FlavorProfile_value (flavor_profile_ d) =? n then label ++ endl
  else EmptyString.

(** Lines 103-123: everything written between ["Flavor Profile: "] and
    ["Sweetness Level: "]. *)
Definition display_flavor_profile (d : t) : string :=
  "Flavor Profile: "
  ++ flavor_line d 0 "Sweet"
  ++ flavor_line d 1 "Bitter"
  ++ flavor_line d 2 "Sour"
  ++ flavor_line d 2 "Salty"
  ++ flavor_line d 3 "Umami".

(** [Dessert::display], as the text written to [std::cout]. *)
Definition display (d : t) : string :=
  Dish_display (dish d)
  ++ display_flavor_profile d
  ++ "Sweetness Level: " ++ show_int (getSweetnessLevel d) ++ endl
  ++ "Contains Nuts: "
  ++ (if containsNuts d then "Yes" ++ endl else "No" ++ endl).
End Display.

(** The label section 6 of the specification gives for each flavor profile. *)
Definition flavor_label (f : FlavorProfile) : string :=
  match f with
  | SWEET => "Sweet" | BITTER => "Bitter" | SOUR => "Sour"
  | SALTY => "Salty" | UMAMI => "Umami"
  end.

(** [if (request.nut_free == true) { ... }], lines 162-179. *)
Definition accommodate_nut_free (d : t) : res t :=
  let* ingredients :=
    Scan.removal_scan String.eqb Scan.nuts_ingredients
      (Dish.getIngredients (dish d)) in
  Ok (mk (Dish.setIngredients (dish d) ingredients) (flavor_profile_ d)
         (sweetness_level_ d) false).

(** [if (request.low_sugar == true) { ... }], lines 183-190. *)
Definition accommodate_low_sugar (d : t) : res t :=
  let* level := int_sub (sweetness_level_ d) 3 in
  Ok (mk (dish d) (flavor_profile_ d) (if level <? 0 then 0 else level)
         (contains_nuts_ d)).

(** [if (request.vegan == true) { ... }], lines 196-212. *)
Definition accommodate_vegan (d : t) : res t :=
  let* ingredients :=
    Scan.removal_scan String.eqb Scan.dairy_egg_ingredients
      (Dish.getIngredients (dish d)) in
  Ok (mk (Dish.setIngredients (dish d) ingredients) (flavor_profile_ d)
         (sweetness_level_ d) (contains_nuts_ d)).

Definition dietaryAccommodations (request : Dish.DietaryRequest) (d : t)
  : res t :=
  let* d1 := if Dish.nut_free request then accommodate_nut_free d else Ok d in
  let* d2 := if Dish.low_sugar request then accommodate_low_sugar d1
             else Ok d1 in
  if Dish.vegan request then accommodate_vegan d2 else Ok d2.

End Dessert.

(** ** The object behind a [Dish*]

    The kitchen holds pointers to [Dish]; the object pointed to is an
    appetizer, a main course or a dessert, and [dietaryAccommodations] is
    dispatched on it. *)

Inductive AnyDish : Type :=
| AppetizerObj (a : Appetizer.t)
| MainCourseObj (m : MainCourse.t)
| DessertObj (d : Dessert.t).

(** The [Dish] sub-object. *)
Definition base (x : AnyDish) : Dish.t :=
  match x with
  | AppetizerObj a => Appetizer.dish a
  | MainCourseObj m => MainCourse.dish m
  | DessertObj d => Dessert.dish d
  end.

(** The virtual call [p->dietaryAccommodations(request)]. *)
Definition dietaryAccommodations (request : Dish.DietaryRequest) (x : AnyDish)
  : res AnyDish :=
  match x with
  | AppetizerObj a =>
      let* a' := Appetizer.dietaryAccommodations request a in
      Ok (AppetizerObj a')
  | MainCourseObj m =>
      let* m' := MainCourse.dietaryAccommodations request m in
      Ok (MainCourseObj m')
  | DessertObj d =>
      let* d' := Dessert.dietaryAccommodations request d in
      Ok (DessertObj d')
  end.

(** ** [double] *)

Module Double.

(** The conversion of an [int] to [double]; every [int] is representable. *)
Definition of_int (z : Z) : spec_float := binary_normalize prec emax z 0 false.

(** [round] of [<cmath>]: the nearest integral value, halfway cases away from
    zero.  A finite number is [m * 2^e]; for [e >= 0] it is integral already,
    otherwise the magnitude is split into [m / 2^-e] and the remainder. *)
Definition round (x : spec_float) : spec_float :=
  match x with
  | S754_finite s m e =>
      if 0 <=? e then x
      else
        let d := 2 ^ (- e) in
        let q := Z.pos m / d in
        let r := Z.pos m mod d in
        let n := if d <=? 2 * r then q + 1 else q in
        binary_normalize prec emax (if s then - n else n) 0 s
  | _ => x
  end.

(** The binary64 number with a 53-digit mantissa whose value is the integer
    [z], for [z] of at most 53 binary digits. *)
Definition canonical (z : Z) : spec_float :=
  match z with
  | Z0 => S754_zero false
  | Z.pos p =>
      S754_finite false (Z.to_pos (Z.pos p * 2 ^ (53 - Z.pos (digits2_pos p))))
        (Z.pos (digits2_pos p) - 53)
  | Z.neg p =>
      S754_finite true (Z.to_pos (Z.pos p * 2 ^ (53 - Z.pos (digits2_pos p))))
        (Z.pos (digits2_pos p) - 53)
  end.

(** The conversion of a [double] to [int] in a [return]: truncation towards
    zero; undefined when the truncated value is no [int]. *)
Definition to_int (x : spec_float) : res Z :=
  match x with
  | S754_zero _ => Ok 0
  | S754_finite s m e =>
      let n := if 0 <=? e then Z.pos m * 2 ^ e else Z.pos m / 2 ^ (- e) in
      int_result (if s then - n else n)
  | _ => Undefined
  end.

End Double.

(** ** The bag the kitchen derives from *)

Module ArrayBag.

(** Modelled from the spec: [ArrayBag.hpp] is not part of the sources at hand.
    Section 2 describes it as an unordered collection with [add] (which may
    reject an item), removal by value of one equal match, and a size query;
    [Kitchen.cpp] reads its array [items_] at the indices below
    [getCurrentSize()].  The model is the array bag these uses fit: the slots
    written so far and the number of items held, [remove] moving the last item
    into the freed slot and leaving the other slots as they are.  Items are
    [Dish*] values, compared as addresses. *)
Record t : Type := mk
  { items_ : list N;
    item_count_ : nat }.

Definition empty : t := mk [] 0.

(** The items held, in slot order. *)
Definition held (b : t) : list N := take (item_count_ b) (items_ b).

Definition getCurrentSize (b : t) : Z := Z.of_nat (item_count_ b).

(** [items_[n] = p] for a slot [n] no further than the first unwritten one. *)
Definition array_write (items : list N) (n : nat) (p : N) : list N :=
  take n items ++ p :: drop (S n) items.

(** The first slot below the item count that holds [p]. *)
Definition getIndexOf (p : N) (b : t) : option nat :=
  fst <$> list_find (fun q => q = p) (held b).

Definition contains (p : N) (b : t) : bool :=
  bool_decide (is_Some (getIndexOf p b)).

Section Policy.
(** Modelled from the spec: the capacity and whether [add] turns down an
    item already held are left open by the specification (section 9, open
    question 2); both are parameters. *)
Variable DEFAULT_CAPACITY : nat.
Variable reject_duplicates : bool.

Definition add (p : N) (b : t) : t * bool :=
  if bool_decide (item_count_ b < DEFAULT_CAPACITY)%nat
     && (negb reject_duplicates || negb (contains p b))
  then (mk (array_write (items_ b) (item_count_ b) p) (S (item_count_ b)),
        true)
  else (b, false).
End Policy.

Definition remove (p : N) (b : t) : t * bool :=
  match getIndexOf p b with
  | Some found_index =>
      let item_count := pred (item_count_ b) in
      match items_ b !! item_count with
      | Some last => (mk (<[found_index := last]> (items_ b)) item_count, true)
      | None => (b, false)
      end
  | None => (b, false)
  end.

End ArrayBag.

(** ** Kitchen.cpp *)

Module Kitchen.

(** The objects the held pointers point to. *)
Abbreviation store := (gmap N AnyDish).

(** [*p]: dereferencing a pointer to no live dish is undefined behaviour. *)
Definition deref (sigma : store) (p : N) : res AnyDish :=
  match sigma !! p with
  | Some d => Ok d
  | None => Undefined
  end.

(** [items_[i]]: a slot never written holds no determinate value. *)
Definition item_at (items : list N) (i : nat) : res N :=
  match items !! i with
  | Some p => Ok p
  | None => Undefined
  end.

(** The kitchen is an [ArrayBag<Dish*>] with two cached aggregates. *)
Record t : Type := mk
  { bag : ArrayBag.t;
    total_prep_time_ : Z;
    count_elaborate_ : Z }.

(** [Kitchen::Kitchen()] *)
Definition empty : t := mk ArrayBag.empty 0 0.

Definition getCurrentSize (k : t) : Z := ArrayBag.getCurrentSize (bag k).

(** The test both [newOrder] and [serveDish] make:
    [getIngredients().size() >= 5 && getPrepTime() >= 60]. *)
Definition is_elaborate (d : Dish.t) : bool :=
  (5 <=? vec_size (Dish.getIngredients d)) && (60 <=? Dish.getPrepTime d).

Section Policy.
Variable DEFAULT_CAPACITY : nat.
Variable reject_duplicates : bool.

Definition newOrder (sigma : store) (new_dish : N) (k : t) : res (t * bool) :=
  let '(b, added) :=
    ArrayBag.add DEFAULT_CAPACITY reject_duplicates new_dish (bag k) in
  if added then
    let* d := deref sigma new_dish in
    let* total := int_add (total_prep_time_ k) (Dish.getPrepTime (base d)) in
    let* elaborate :=
      if is_elaborate (base d) then int_add (count_elaborate_ k) 1
      else Ok (count_elaborate_ k) in
    Ok (mk b total elaborate, true)
  else Ok (k, false).
End Policy.

Definition serveDish (sigma : store) (dish_to_remove : N) (k : t)
  : res (t * bool) :=
  if getCurrentSize k =? 0 then Ok (k, false)
  else
    let '(b, removed) := ArrayBag.remove dish_to_remove (bag k) in
    if removed then
      let* d := deref sigma dish_to_remove in
      let* total := int_sub (total_prep_time_ k) (Dish.getPrepTime (base d)) in
      let* elaborate :=
        if is_elaborate (base d) then int_sub (count_elaborate_ k) 1
        else Ok (count_elaborate_ k) in
      Ok (mk b total elaborate, true)
    else Ok (k, false).

Definition getPrepTimeSum (k : t) : Z :=
  if getCurrentSize k =? 0 then 0 else total_prep_time_ k.

Definition elaborateDishCount (k : t) : Z :=
  if (getCurrentSize k =? 0) || (count_elaborate_ k =? 0) then 0
  else count_elaborate_ k.

(** The loop of [calculateAvgPrepTime], lines 107-110, over the indices
    [0 .. getCurrentSize() - 1]; the accumulator is the local [double]. *)
Fixpoint sum_prep_times (sigma : store) (items : list N) (indices : list nat)
    (total : spec_float) : res spec_float :=
  match indices with
  | [] => Ok total
  | i :: rest =>
      let* p := item_at items i in
      let* d := deref sigma p in
      sum_prep_times sigma items rest
        (SF64add total (Double.of_int (Dish.getPrepTime (base d))))
  end.

Definition calculateAvgPrepTime (sigma : store) (k : t) : res Z :=
  if getCurrentSize k =? 0 then Ok 0
  else
    let* total :=
      sum_prep_times sigma (ArrayBag.items_ (bag k))
        (seq 0 (ArrayBag.item_count_ (bag k))) (Double.of_int 0) in
    Double.to_int
      (Double.round (SF64div total (Double.of_int (getCurrentSize k)))).

Definition calculateElaboratePercentage (k : t) : spec_float :=
  if (getCurrentSize k =? 0) || (count_elaborate_ k =? 0) then Double.of_int 0
  else
    SF64div
      (Double.round
         (SF64mul
            (SF64div (Double.of_int (count_elaborate_ k))
                     (Double.of_int (getCurrentSize k)))
            (Double.of_int 10000)))
      (Double.of_int 100).

(** The loop of [releaseDishesBelowPrepTime], lines 196-203, over the indices
    [0 .. num - 1] with [num] read once before the loop. *)
Fixpoint release_loop (sigma : store) (prep_time : Z) (indices : list nat)
    (k : t) (count : Z) : res (t * Z) :=
  match indices with
  | [] => Ok (k, count)
  | i :: rest =>
      let* p := item_at (ArrayBag.items_ (bag k)) i in
      let* d := deref sigma p in
      if Dish.getPrepTime (base d) <? prep_time then
        let* count' := int_add count 1 in
        let* '(k', _) := serveDish sigma p k in
        release_loop sigma prep_time rest k' count'
      else release_loop sigma prep_time rest k count
  end.

Definition releaseDishesBelowPrepTime (sigma : store) (prep_time : Z) (k : t)
  : res (t * Z) :=
  let num := ArrayBag.item_count_ (bag k) in
  release_loop sigma prep_time (seq 0 num) k 0.

(** The loop of [dietaryAdjustment], lines 635-638: the kitchen is unchanged,
    the dishes it points to are rewritten in the store one after another. *)
Fixpoint adjust_loop (request : Dish.DietaryRequest) (items : list N)
    (indices : list nat) (sigma : store) : res store :=
  match indices with
  | [] => Ok sigma
  | i :: rest =>
      let* p := item_at items i in
      let* d := deref sigma p in
      let* d' := dietaryAccommodations request d in
      adjust_loop request items rest (<[p := d']> sigma)
  end.

Definition dietaryAdjustment (request : Dish.DietaryRequest) (k : t)
    (sigma : store) : res store :=
  adjust_loop request (ArrayBag.items_ (bag k))
    (seq 0 (ArrayBag.item_count_ (bag k))) sigma.

(** The loop of [tallyCuisineTypes], lines 175-181, over the indices
    [0 .. getCurrentSize() - 1]; [count] is an [int]. *)
Fixpoint tally_loop (sigma : store) (cuisine_type : string) (items : list N)
    (indices : list nat) (count : Z) : res Z :=
  match indices with
  | [] => Ok count
  | i :: rest =>
      let* p := item_at items i in
      let* d := deref sigma p in
      if String.eqb (Dish.getCuisineType (base d)) cuisine_type then
        let* count' := int_add count 1 in
        tally_loop sigma cuisine_type items rest count'
      else tally_loop sigma cuisine_type items rest count
  end.

Definition tallyCuisineTypes (sigma : store) (cuisine_type : string) (k : t)
  : res Z :=
  tally_loop sigma cuisine_type (ArrayBag.items_ (bag k))
    (seq 0 (ArrayBag.item_count_ (bag k))) 0.

(** The loop of [releaseDishesOfCuisineType], lines 223-230.  Unlike the loop
    of [releaseDishesBelowPrepTime] it compares [i] with [getCurrentSize()]
    afresh in every round, and it steps on to [i + 1] after a removal as
    well.  Every round advances [i], so the size before the loop bounds the
    rounds. *)
Fixpoint release_cuisine_loop (fuel : nat) (sigma : store)
    (cuisine_type : string) (i : nat) (k : t) (count : Z) : res (t * Z) :=
  if (i <? ArrayBag.item_count_ (bag k))%nat then
    match fuel with
    | O => OutOfFuel
    | S fuel' =>
        let* p := item_at (ArrayBag.items_ (bag k)) i in
        let* d := deref sigma p in
        if String.eqb (Dish.getCuisineType (base d)) cuisine_type then
          let* count' := int_add count 1 in
          let* '(k', _) := serveDish sigma p k in
          release_cuisine_loop fuel' sigma cuisine_type (S i) k' count'
        else release_cuisine_loop fuel' sigma cuisine_type (S i) k count
    end
  else Ok (k, count).

Definition releaseDishesOfCuisineType (sigma : store) (cuisine_type : string)
    (k : t) : res (t * Z) :=
  release_cuisine_loop (ArrayBag.item_count_ (bag k)) sigma cuisine_type 0%nat
    k 0.

End Kitchen.

(** ** The enumeration tokens of a record

    [Kitchen::Kitchen(const std::string&)] decodes each enumeration field of a
    record with a chain of string comparisons that ends in an [else]. *)

Module Ingestion.

(** Lines 334-362, repeated at 466-494 and 558-586. *)
Definition cuisine_type_enum (_cuisine_type_ : string) : Dish.CuisineType :=
  if String.eqb _cuisine_type_ "ITALIAN" then Dish.ITALIAN
  else if String.eqb _cuisine_type_ "MEXICAN" then Dish.MEXICAN
  else if String.eqb _cuisine_type_ "CHINESE" then Dish.CHINESE
  else if String.eqb _cuisine_type_ "INDIAN" then Dish.INDIAN
  else if String.eqb _cuisine_type_ "AMERICAN" then Dish.AMERICAN
  else if String.eqb _cuisine_type_ "FRENCH" then Dish.FRENCH
  else Dish.OTHER.

(** Lines 365-381. *)
Definition serving_style_enum (_serving_style_ : string)
  : Appetizer.ServingStyle :=
  if String.eqb _serving_style_ "PLATED" then Appetizer.PLATED
  else if String.eqb _serving_style_ "FAMILY_STYLE" then Appetizer.FAMILY_STYLE
  else if String.eqb _serving_style_ "BUFFET" then Appetizer.BUFFET
  else Appetizer.PLATED.

(** Lines 426-461. *)
Definition side_dishes_enum_category (side_dishes_category : string)
  : MainCourse.Category :=
  if String.eqb side_dishes_category "GRAIN" then MainCourse.GRAIN
  else if String.eqb side_dishes_category "PASTA" then MainCourse.PASTA
  else if String.eqb side_dishes_category "LEGUME" then MainCourse.LEGUME
  else if String.eqb side_dishes_category "BREAD" then MainCourse.BREAD
  else if String.eqb side_dishes_category "SALAD" then MainCourse.SALAD
  else if String.eqb side_dishes_category "SOUP" then MainCourse.SOUP
  else if String.eqb side_dishes_category "STARCHES" then MainCourse.STARCHES
  else if String.eqb side_dishes_category "VEGETABLE" then MainCourse.VEGETABLE
  else MainCourse.GRAIN.

(** Lines 497-525. *)
Definition cooking_method_enum (_cooking_method_ : string)
  : MainCourse.CookingMethod :=
  if String.eqb _cooking_method_ "GRILLED" then MainCourse.GRILLED
  else if String.eqb _cooking_method_ "BAKED" then MainCourse.BAKED
  else if String.eqb _cooking_method_ "BOILED" then MainCourse.BOILED
  else if String.eqb _cooking_method_ "FRIED" then MainCourse.FRIED
  else if String.eqb _cooking_method_ "STEAMED" then MainCourse.STEAMED
  else if String.eqb _cooking_method_ "RAW" then MainCourse.RAW
  else MainCourse.GRILLED.

(** Lines 589-613. *)
Definition flavor_profile_enum (_flavor_profile_ : string)
  : Dessert.FlavorProfile :=
  if String.eqb _flavor_profile_ "SWEET" then Dessert.SWEET
  else if String.eqb _flavor_profile_ "BITTER" then Dessert.BITTER
  else if String.eqb _flavor_profile_ "SOUR" then Dessert.SOUR
  else if String.eqb _flavor_profile_ "SALTY" then Dessert.SALTY
  else if String.eqb _flavor_profile_ "UMAMI" then Dessert.UMAMI
  else Dessert.SWEET.

(** The tokens each chain recognises. *)
Definition cuisine_tokens : list string :=
  ["ITALIAN"; "MEXICAN"; "CHINESE"; "INDIAN"; "AMERICAN"; "FRENCH"].
Definition serving_style_tokens : list string :=
  ["PLATED"; "FAMILY_STYLE"; "BUFFET"].
Definition category_tokens : list string :=
  ["GRAIN"; "PASTA"; "LEGUME"; "BREAD"; "SALAD"; "SOUP"; "STARCHES";
   "VEGETABLE"].
Definition cooking_method_tokens : list string :=
  ["GRILLED"; "BAKED"; "BOILED"; "FRIED"; "STEAMED"; "RAW"].
Definition flavor_profile_tokens : list string :=
  ["SWEET"; "BITTER"; "SOUR"; "SALTY"; "UMAMI"].

End Ingestion.

(** ** What the specification says, in its own words

    The definitions below follow the specification, not the code; the
    theorems compare the two. *)

Module Policy.

(** Membership in a fixed set of ingredient names. *)
Definition is_in (table : list string) (x : string) : bool :=
  existsb (String.eqb x) table.

(** Section 4.1, the substitution policy: one counter of matches runs along
    the whole sequence; the first match becomes "Beans", the second
    "Mushrooms", every later one is dropped. *)
Fixpoint substitution (matches : nat) (l : list string) : list string :=
  match l with
  | [] => []
  | x :: rest =>
      if is_in Scan.nonVegIngredients x then
        match matches with
        | O => "Beans" :: substitution 1 rest
        | S O => "Mushrooms" :: substitution 2 rest
        | _ => substitution (S matches) rest
        end
      else x :: substitution matches rest
  end.

(** Section 4.1, the removal policy: every element matching an entry of the
    table is deleted, the others keep their order. *)
Definition removal {A B : Type} (eqb : A -> B -> bool) (table : list B)
    (l : list A) : list A :=
  List.filter (fun x => negb (existsb (eqb x) table)) l.

End Policy.

(** When the removal scan of the code leaves the vector: it erases at index 0
    on a match with a table entry that is not the last one ([front] holds the
    entries before the last, [final] is the last), and then compares
    [ingredients[i]] with the next entry for [i] wrapped around to
    [2^64 - 1]. *)
Fixpoint removal_reads_outside {A B : Type} (eqb : A -> B -> bool)
    (front : list B) (final : B) (l : list A) : bool :=
  match l with
  | [] => false
  | x :: rest =>
      if existsb (eqb x) front then true
      else if eqb x final then removal_reads_outside eqb front final rest
      else false
  end.

(** ** Rounding in binary64

    [locates m l num den] says where the rational [num / den] lies in the
    interval from [m] to [m + 1], as the location [l] of [SpecFloat] tells
    it. *)
Definition locates (m : Z) (l : location) (num den : Z) : Prop :=
  match l with
  | loc_Exact => num = m * den
  | loc_Inexact Lt => m * den < num /\ 2 * num < (2 * m + 1) * den
  | loc_Inexact Eq => 2 * num = (2 * m + 1) * den
  | loc_Inexact Gt => (2 * m + 1) * den < 2 * num /\ num < (m + 1) * den
  end.

(** The magnitude that [Double.round] gives a number [M * 2^E] with
    [E <= 0]: the integer nearest to it, halfway cases upwards. *)
Definition rounded_magnitude (M E : Z) : Z :=
  (2 * M + 2 ^ (- E)) / (2 * 2 ^ (- E)).

(** Section 4.3, the rounding of the average: the integer nearest to
    [num / den], halfway cases away from zero, for a positive [den]. *)
Definition round_half_away (num den : Z) : Z :=
  Z.sgn num * ((2 * Z.abs num + den) / (2 * den)).

(** ** Recomputing the aggregates from the dishes held *)

Module Recompute.

Definition prep_time_at (sigma : Kitchen.store) (p : N) : Z :=
  match sigma !! p with
  | Some d => Dish.getPrepTime (base d)
  | None => 0
  end.

Definition elaborate_at (sigma : Kitchen.store) (p : N) : bool :=
  match sigma !! p with
  | Some d => Kitchen.is_elaborate (base d)
  | None => false
  end.

(** The sum of the preparation times of a list of dishes. *)
Definition prep_times (sigma : Kitchen.store) (l : list N) : Z :=
  foldr (fun p acc => prep_time_at sigma p + acc) 0 l.

(** The number of elaborate dishes in a list of dishes. *)
Definition elaborate_dishes (sigma : Kitchen.store) (l : list N) : Z :=
  Z.of_nat (length (List.filter (elaborate_at sigma) l)).

(** The test of [releaseDishesBelowPrepTime], on an address. *)
Definition below (sigma : Kitchen.store) (prep_time : Z) (p : N) : bool :=
  prep_time_at sigma p <? prep_time.

Definition prep_time_sum (sigma : Kitchen.store) (k : Kitchen.t) : Z :=
  prep_times sigma (ArrayBag.held (Kitchen.bag k)).

Definition elaborate_count (sigma : Kitchen.store) (k : Kitchen.t) : Z :=
  elaborate_dishes sigma (ArrayBag.held (Kitchen.bag k)).

End Recompute.

(** ** Sequences of calls on a kitchen *)

Module Session.

Inductive call : Type :=
| NewOrder (p : N)
| ServeDish (p : N)
| DietaryAdjustment (request : Dish.DietaryRequest).

(** A call that is an order or a serve. *)
Definition is_order_or_serve (c : call) : bool :=
  match c with
  | NewOrder _ | ServeDish _ => true
  | DietaryAdjustment _ => false
  end.

Section Policy.
Variable DEFAULT_CAPACITY : nat.
Variable reject_duplicates : bool.

(** One call, on the store and the kitchen; the third component is the
    boolean an order or a serve returns. *)
Definition step (c : call) (st : Kitchen.store * Kitchen.t)
  : res (Kitchen.store * Kitchen.t * option bool) :=
  let '(sigma, k) := st in
  match c with
  | NewOrder p =>
      let* '(k', r) :=
        Kitchen.newOrder DEFAULT_CAPACITY reject_duplicates sigma p k in
      Ok (sigma, k', Some r)
  | ServeDish p =>
      let* '(k', r) := Kitchen.serveDish sigma p k in
      Ok (sigma, k', Some r)
  | DietaryAdjustment request =>
      let* sigma' := Kitchen.dietaryAdjustment request k sigma in
      Ok (sigma', k, None)
  end.

Fixpoint run (calls : list call) (st : Kitchen.store * Kitchen.t)
  : res (Kitchen.store * Kitchen.t) :=
  match calls with
  | [] => Ok st
  | c :: rest =>
      let* '(sigma, k, _) := step c st in
      run rest (sigma, k)
  end.
End Policy.

End Session.

(** ** Invariants *)

Module Invariant.

(** What an accommodation may do to the [Dish] sub-object: replace the
    ingredients by a list that is no longer. *)
Definition only_ingredients_shrink (d d' : Dish.t) : Prop :=
  d' = Dish.setIngredients d (Dish.ingredients_ d')
  /\ (length (Dish.ingredients_ d') <= length (Dish.ingredients_ d))%nat.

(** The same for a whole store: the same addresses are live, and every dish
    has changed in that way only. *)
Definition store_shrinks (sigma sigma' : Kitchen.store) : Prop :=
  forall p : N,
    match sigma !! p, sigma' !! p with
    | Some d, Some d' => only_ingredients_shrink (base d) (base d')
    | None, None => True
    | _, _ => False
    end.

(** The item count stays within the slots written. *)
Definition bag_ok (b : ArrayBag.t) : Prop :=
  (ArrayBag.item_count_ b <= length (ArrayBag.items_ b))%nat.

(** The kitchen holds live dishes only, and its running total is the sum of
    their preparation times. *)
Record total_ok (sigma : Kitchen.store) (k : Kitchen.t) : Prop := mk_total_ok
  { slots_ok : bag_ok (Kitchen.bag k);
    held_live : forall p, p ∈ ArrayBag.held (Kitchen.bag k) ->
                          is_Some (sigma !! p);
    total_is_sum : Kitchen.total_prep_time_ k = Recompute.prep_time_sum sigma k }.

(** The cached counter is the number of elaborate dishes held. *)
Definition counter_exact (sigma : Kitchen.store) (k : Kitchen.t) : Prop :=
  Kitchen.count_elaborate_ k = Recompute.elaborate_count sigma k.

(** The cached counter is at least the number of elaborate dishes held. *)
Definition counter_upper (sigma : Kitchen.store) (k : Kitchen.t) : Prop :=
  Recompute.elaborate_count sigma k <= Kitchen.count_elaborate_ k.

End Invariant.

(** ** Sample data *)

Module Sample.

Definition everything : Dish.DietaryRequest :=
  Dish.mkRequest true true true true true true.

Definition vegetarian_only : Dish.DietaryRequest :=
  Dish.mkRequest true false false false false false.

(** An appetizer that is elaborate as long as it keeps its five
    ingredients. *)
Definition mixed_grill : Appetizer.t :=
  Appetizer.mk
    (Dish.mk "Mixed Grill" ["Chicken"; "Beef"; "Fish"; "Rice"; "Salt"] 60
       (Double.of_int 18) Dish.AMERICAN)
    Appetizer.PLATED 3 false.

Definition stew : MainCourse.t :=
  MainCourse.mk
    (Dish.mk "Stew" ["Chicken"; "Rice"; "Beef"; "Fish"] 90
       (Double.of_int 25) Dish.FRENCH)
    MainCourse.BOILED "Beef"
    [MainCourse.mkSideDish "Green Salad" MainCourse.SALAD;
     MainCourse.mkSideDish "Bread Roll" MainCourse.BREAD]
    false.

Definition sorbet : Dessert.t :=
  Dessert.mk
    (Dish.mk "Sorbet" ["Lemon"; "Sugar"; "Almonds"] 20
       (Double.of_int 7) Dish.ITALIAN)
    Dessert.SALTY 2 true.

(** Three dishes at the addresses 1, 2 and 3. *)
Definition pantry : Kitchen.store :=
  <[1%N := AppetizerObj mixed_grill]>
    (<[2%N := MainCourseObj stew]>
       (<[3%N := DessertObj sorbet]> ∅)).

(** The kitchen after ordering the three of them. *)
Definition stocked : Kitchen.t :=
  Kitchen.mk (ArrayBag.mk [1%N; 2%N; 3%N] 3) 170 1.

Definition three_orders : list Session.call :=
  [Session.NewOrder 1; Session.NewOrder 2; Session.NewOrder 3].

End Sample.

(** ** The cuisines of the dishes held *)

Module Tally.

(** The test of [tallyCuisineTypes] and [releaseDishesOfCuisineType], on an
    address. *)
Definition has_cuisine (sigma : Kitchen.store) (cuisine_type : string) (p : N)
  : bool :=
  match sigma !! p with
  | Some d => String.eqb (Dish.getCuisineType (base d)) cuisine_type
  | None => false
  end.

(** The number of dishes of a cuisine in a list of dishes. *)
Definition dishes_of (sigma : Kitchen.store) (cuisine_type : string)
    (l : list N) : Z :=
  Z.of_nat (length (List.filter (has_cuisine sigma cuisine_type) l)).

Definition cuisine_count (sigma : Kitchen.store) (cuisine_type : string)
    (k : Kitchen.t) : Z :=
  dishes_of sigma cuisine_type (ArrayBag.held (Kitchen.bag k)).

(** The seven strings [kitchenReport] passes to [tallyCuisineTypes], lines
    253-259. *)
Definition reported : list string :=
  ["ITALIAN"; "MEXICAN"; "CHINESE"; "INDIAN"; "AMERICAN"; "FRENCH"; "OTHER"].

End Tally.

(** ** Kitchens whose numbers are [int]s

    The model carries [int] members as integers of any size; a kitchen a
    program can build has them in range.  With preparation times that are
    not negative, as section 3 of the specification has them, every partial
    sum is in range once the whole sum is. *)

Module Ranges.

Record in_range (sigma : Kitchen.store) (k : Kitchen.t) : Prop := mk_in_range
  { prep_nonneg : Forall (fun p => 0 <= Recompute.prep_time_at sigma p)
                    (ArrayBag.held (Kitchen.bag k));
    total_small : Kitchen.total_prep_time_ k <= INT_MAX;
    counter_small : Kitchen.count_elaborate_ k <= INT_MAX;
    size_small : Kitchen.getCurrentSize k <= INT_MAX }.

(** A kitchen as a session leaves it, with its numbers in range. *)
Record sound (sigma : Kitchen.store) (k : Kitchen.t) : Prop := mk_sound
  { sound_total : Invariant.total_ok sigma k;
    sound_counter : Invariant.counter_upper sigma k;
    sound_range : in_range sigma k }.

End Ranges.

(** ** A kitchen of one cuisine *)

Module Trattoria.

Definition tiramisu : Dessert.t :=
  Dessert.mk
    (Dish.mk "Tiramisu" ["Eggs"; "Sugar"; "Coffee"; "Cocoa"] 45
       (Double.of_int 9) Dish.ITALIAN)
    Dessert.BITTER 4 false.

(** Three Italian desserts at the addresses 1, 2 and 3. *)
Definition pantry : Kitchen.store :=
  <[1%N := DessertObj Sample.sorbet]>
    (<[2%N := DessertObj tiramisu]>
       (<[3%N := DessertObj Sample.sorbet]> ∅)).

(** The kitchen after ordering the three of them. *)
Definition stocked : Kitchen.t :=
  Kitchen.mk (ArrayBag.mk [1%N; 2%N; 3%N] 3) 85 0.

End Trattoria.

(** ** What a request makes of a dish

    The dish each [dietaryAccommodations] leaves when it returns, and the
    condition under which it returns, written with the policies of the
    specification. *)

Module Accommodated.

(** A list without any of the names of a table. *)
Definition free_of (table : list string) (l : list string) : Prop :=
  Forall (fun x => Policy.is_in table x = false) l.

(** Whether the removal loop for a table of names leaves the vector. *)
Definition scan_reads_outside (table : list string) (l : list string) : bool :=
  removal_reads_outside String.eqb (List.removelast table)
    (List.last table EmptyString) l.

Definition substituted (request : Dish.DietaryRequest) (l : list string)
  : list string :=
  if Dish.vegetarian request then Policy.substitution 0 l else l.

Definition without (flag : bool) (table : list string) (l : list string)
  : list string :=
  if flag then Policy.removal String.eqb table l else l.

Definition reduced (flag : bool) (level amount : Z) : Z :=
  if flag then Z.max 0 (level - amount) else level.

Definition appetizer (request : Dish.DietaryRequest) (a : Appetizer.t)
  : Appetizer.t :=
  Appetizer.mk
    (Dish.setIngredients (Appetizer.dish a)
       (without (Dish.gluten_free request) Scan.gluten_ingredients
          (substituted request (Dish.ingredients_ (Appetizer.dish a)))))
    (Appetizer.serving_style_ a)
    (reduced (Dish.low_sodium request) (Appetizer.spiciness_level_ a) 2)
    (Dish.vegetarian request || Appetizer.vegetarian_ a).

Definition appetizer_returns (request : Dish.DietaryRequest) (a : Appetizer.t)
  : bool :=
  negb (Dish.low_sodium request
        && negb (in_int (Appetizer.spiciness_level_ a - 2)))
  && negb (Dish.gluten_free request
           && scan_reads_outside Scan.gluten_ingredients
                (substituted request (Dish.ingredients_ (Appetizer.dish a)))).

Definition main_course (request : Dish.DietaryRequest) (m : MainCourse.t)
  : MainCourse.t :=
  MainCourse.mk
    (Dish.setIngredients (MainCourse.dish m)
       (without (Dish.vegan request) Scan.dairy_egg_ingredients
          (substituted request (Dish.ingredients_ (MainCourse.dish m)))))
    (MainCourse.cooking_method_ m)
    (if Dish.vegetarian request || Dish.vegan request then "Tofu"
     else MainCourse.protein_type_ m)
    (if Dish.gluten_free request then
       Policy.removal MainCourse.side_dish_is
         MainCourse.gluten_side_dishes_category (MainCourse.side_dishes_ m)
     else MainCourse.side_dishes_ m)
    (Dish.gluten_free request || MainCourse.gluten_free_ m).

Definition main_course_returns (request : Dish.DietaryRequest)
    (m : MainCourse.t) : bool :=
  negb (Dish.vegan request
        && scan_reads_outside Scan.dairy_egg_ingredients
             (substituted request (Dish.ingredients_ (MainCourse.dish m))))
  && negb (Dish.gluten_free request
           && removal_reads_outside MainCourse.side_dish_is
                [MainCourse.GRAIN; MainCourse.PASTA; MainCourse.BREAD]
                MainCourse.STARCHES (MainCourse.side_dishes_ m)).

Definition dessert (request : Dish.DietaryRequest) (d : Dessert.t)
  : Dessert.t :=
  Dessert.mk
    (Dish.setIngredients (Dessert.dish d)
       (without (Dish.vegan request) Scan.dairy_egg_ingredients
          (without (Dish.nut_free request) Scan.nuts_ingredients
             (Dish.ingredients_ (Dessert.dish d)))))
    (Dessert.flavor_profile_ d)
    (reduced (Dish.low_sugar request) (Dessert.sweetness_level_ d) 3)
    (negb (Dish.nut_free request) && Dessert.contains_nuts_ d).

Definition dessert_returns (request : Dish.DietaryRequest) (d : Dessert.t)
  : bool :=
  negb (Dish.nut_free request
        && scan_reads_outside Scan.nuts_ingredients
             (Dish.ingredients_ (Dessert.dish d)))
  && negb (Dish.low_sugar request
           && negb (in_int (Dessert.sweetness_level_ d - 3)))
  && negb (Dish.vegan request
           && scan_reads_outside Scan.dairy_egg_ingredients
                (without (Dish.nut_free request) Scan.nuts_ingredients
                   (Dish.ingredients_ (Dessert.dish d)))).

(** The same for the object behind a [Dish*]. *)
Definition dish (request : Dish.DietaryRequest) (x : AnyDish) : AnyDish :=
  match x with
  | AppetizerObj a => AppetizerObj (appetizer request a)
  | MainCourseObj m => MainCourseObj (main_course request m)
  | DessertObj d => DessertObj (dessert request d)
  end.

Definition returns (request : Dish.DietaryRequest) (x : AnyDish) : bool :=
  match x with
  | AppetizerObj a => appetizer_returns request a
  | MainCourseObj m => main_course_returns request m
  | DessertObj d => dessert_returns request d
  end.

(** The request is met by a dish: for each flag the class handles, the flag
    of the dish says so and no offending ingredient or side dish is left. *)
Definition met (request : Dish.DietaryRequest) (x : AnyDish) : Prop :=
  match x with
  | AppetizerObj a =>
      (Dish.vegetarian request = true ->
       Appetizer.vegetarian_ a = true
       /\ free_of Scan.nonVegIngredients (Dish.ingredients_ (Appetizer.dish a)))
      /\ (Dish.gluten_free request = true ->
          free_of Scan.gluten_ingredients
            (Dish.ingredients_ (Appetizer.dish a)))
  | MainCourseObj m =>
      (Dish.vegetarian request = true ->
       MainCourse.protein_type_ m = "Tofu"
       /\ free_of Scan.nonVegIngredients
            (Dish.ingredients_ (MainCourse.dish m)))
      /\ (Dish.vegan request = true ->
          MainCourse.protein_type_ m = "Tofu"
          /\ free_of Scan.dairy_egg_ingredients
               (Dish.ingredients_ (MainCourse.dish m)))
      /\ (Dish.gluten_free request = true ->
          MainCourse.gluten_free_ m = true
          /\ Forall (fun s =>
                       existsb (MainCourse.side_dish_is s)
                         MainCourse.gluten_side_dishes_category = false)
               (MainCourse.side_dishes_ m))
  | DessertObj d =>
      (Dish.nut_free request = true ->
       Dessert.contains_nuts_ d = false
       /\ free_of Scan.nuts_ingredients (Dish.ingredients_ (Dessert.dish d)))
      /\ (Dish.vegan request = true ->
          free_of Scan.dairy_egg_ingredients
            (Dish.ingredients_ (Dessert.dish d)))
  end.

(** Dishes whose vectors an [int] can count. *)
Definition countable (x : AnyDish) : Prop :=
  vec_size (Dish.ingredients_ (base x)) <= INT_MAX
  /\ match x with
     | MainCourseObj m => vec_size (MainCourse.side_dishes_ m) <= INT_MAX
     | _ => True
     end.

End Accommodated.

(** ** The display formats of section 6 of the specification *)

Module Format.

Definition serving_style_label (s : Appetizer.ServingStyle) : string :=
  match s with
  | Appetizer.PLATED => "Plated"
  | Appetizer.FAMILY_STYLE => "Family Style"
  | Appetizer.BUFFET => "Buffet"
  end.

Definition cooking_method_label (c : MainCourse.CookingMethod) : string :=
  match c with
  | MainCourse.GRILLED => "Grilled" | MainCourse.BAKED => "Baked"
  | MainCourse.BOILED => "Boiled" | MainCourse.FRIED => "Fried"
  | MainCourse.STEAMED => "Steamed" | MainCourse.RAW => "Raw"
  end.

Definition category_label (c : MainCourse.Category) : string :=
  match c with
  | MainCourse.GRAIN => "Grain" | MainCourse.PASTA => "Pasta"
  | MainCourse.LEGUME => "Legume" | MainCourse.BREAD => "Bread"
  | MainCourse.SALAD => "Salad" | MainCourse.SOUP => "Soup"
  | MainCourse.STARCHES => "Starches" | MainCourse.VEGETABLE => "Vegetable"
  end.

Definition yes_no (b : bool) : string := if b then "Yes" else "No".

(** One side dish: its name and its category in brackets. *)
Definition side_dish (s : MainCourse.SideDish) : string :=
  MainCourse.name s ++ " (Category: "
  ++ category_label (MainCourse.category s) ++ ")".

End Format.

(** ** Reading the file of dishes

    [Kitchen::Kitchen(const std::string&)], lines 272-623, up to the calls of
    the constructors of the three classes.  The standard library is
    modelled as far as the constructor uses it: [std::getline] on a stream,
    and [std::stoi]; [std::stod] is left open. *)

Module Csv.

(** The exceptions [std::stoi] and [std::stod] throw. *)
Inductive exn : Type := invalid_argument | out_of_range.

(** A computation returns, throws, or (for the loops of the model that
    carry a bound) exhausts its bound. *)
Inductive outcome (A : Type) : Type :=
| Returns (a : A)
| Throws (e : exn)
| Unfinished.

Arguments Returns {A} a.
Arguments Throws {A} e.
Arguments Unfinished {A}.

Definition bind {A B : Type} (m : outcome A) (k : A -> outcome B)
  : outcome B :=
  match m with
  | Returns a => k a
  | Throws e => Throws e
  | Unfinished => Unfinished
  end.

(** The delimiters [','], [';'], ['|'], [':'] and the end of a line, and the
    two signs, by their codes. *)
Definition comma : Ascii.ascii := Ascii.ascii_of_nat 44.
Definition semicolon : Ascii.ascii := Ascii.ascii_of_nat 59.
Definition bar : Ascii.ascii := Ascii.ascii_of_nat 124.
Definition colon : Ascii.ascii := Ascii.ascii_of_nat 58.
Definition newline : Ascii.ascii := Ascii.ascii_of_nat 10.
Definition minus : Ascii.ascii := Ascii.ascii_of_nat 45.
Definition plus : Ascii.ascii := Ascii.ascii_of_nat 43.

(** A [std::stringstream] or [std::ifstream] while it is read: the
    characters not yet extracted as long as the stream is good; once
    [eofbit] or [failbit] is set no call extracts anything. *)
Inductive istream : Type :=
| Good (rest : string)
| NotGood.

(** The characters before the first [delim], and those after it when there
    is one. *)
Fixpoint extract (delim : Ascii.ascii) (s : string) : string * option string :=
  match s with
  | EmptyString => (EmptyString, None)
  | String c s' =>
      if Ascii.eqb c delim then (EmptyString, Some s')
      else let '(x, rest) := extract delim s' in (String c x, rest)
  end.

(** [std::getline(stream, str, delim)]: the stream afterwards, [str]
    afterwards, and whether the stream converts to [true].  On a stream
    that is not good the call sets [failbit] and leaves [str] alone.
    Otherwise [str] is erased and filled up to the delimiter, which is
    dropped; meeting the end of the input instead sets [eofbit], and
    [failbit] as well when no character was extracted. *)
Definition getline (stream : istream) (str : string) (delim : Ascii.ascii)
  : istream * string * bool :=
  match stream with
  | NotGood => (NotGood, str, false)
  | Good s =>
      match extract delim s with
      | (x, Some rest) => (Good rest, x, true)
      | (x, None) => (NotGood, x, negb (String.eqb x EmptyString))
      end
  end.

(** [while (std::getline(stream, str, delim)) v.push_back(str);].  Every round
    but the last extracts a delimiter, so the number of characters bounds
    the rounds. *)
Fixpoint getline_loop (fuel : nat) (stream : istream) (str : string)
    (delim : Ascii.ascii) (v : list string) : outcome (list string) :=
  match fuel with
  | O => Unfinished
  | S fuel' =>
      let '(stream', str', ok) := getline stream str delim in
      if ok then getline_loop fuel' stream' str' delim (v ++ [str'])
      else Returns v
  end.

(** The loop over a fresh stream on [s] with a fresh string and vector. *)
Definition split (delim : Ascii.ascii) (s : string) : outcome (list string) :=
  getline_loop (S (String.length s)) (Good s) EmptyString delim [].

(** *** [std::stoi] *)

(** [isspace] in the "C" locale: space, and the characters 9 to 13. *)
Definition isspace (c : Ascii.ascii) : bool :=
  let n := Ascii.N_of_ascii c in
  (n =? 32)%N || ((9 <=? n)%N && (n <=? 13)%N).

(** The value of a decimal digit. *)
Definition digit (c : Ascii.ascii) : option Z :=
  let n := Z.of_N (Ascii.N_of_ascii c) in
  if (48 <=? n) && (n <=? 57) then Some (n - 48) else None.

Fixpoint skip_spaces (s : string) : string :=
  match s with
  | String c s' => if isspace c then skip_spaces s' else s
  | EmptyString => s
  end.

(** The sign, and the characters after it. *)
Definition sign (s : string) : bool * string :=
  match s with
  | String c s' =>
      if Ascii.eqb c minus then (true, s')
      else if Ascii.eqb c plus then (false, s')
      else (false, s)
  | EmptyString => (false, s)
  end.

(** The number the leading digits of [s] denote, after the digits that
    gave [acc]. *)
Fixpoint digits_value (s : string) (acc : Z) : Z :=
  match s with
  | String c s' =>
      match digit c with
      | Some d => digits_value s' (10 * acc + d)
      | None => acc
      end
  | EmptyString => acc
  end.

Definition starts_with_digit (s : string) : bool :=
  match s with
  | String c _ => match digit c with Some _ => true | None => false end
  | EmptyString => false
  end.

(** [std::stoi(str)]: [strtol] in base 10 on the characters of [str], that
    is white space, an optional sign and the longest run of digits;
    [std::invalid_argument] when there is no digit to convert,
    [std::out_of_range] when the number is no [int]. *)
Definition stoi (str : string) : outcome Z :=
  let '(negative, s) := sign (skip_spaces str) in
  if starts_with_digit s then
    let n := digits_value s 0 in
    let z := if negative then - n else n in
    if in_int z then Returns z else Throws out_of_range
  else Throws invalid_argument.

(** *** The records *)

(** The arguments of the three [new] expressions, lines 383, 527 and 614. *)
Inductive new_dish : Type :=
| NewAppetizer (name : string) (ingredients : list string) (prep_time : Z)
    (price : spec_float) (cuisine_type : Dish.CuisineType)
    (serving_style : Appetizer.ServingStyle) (spiciness_level : Z)
    (vegetarian : bool)
| NewMainCourse (name : string) (ingredients : list string) (prep_time : Z)
    (price : spec_float) (cuisine_type : Dish.CuisineType)
    (cooking_method : MainCourse.CookingMethod) (protein_type : string)
    (side_dishes : list MainCourse.SideDish) (gluten_free : bool)
| NewDessert (name : string) (ingredients : list string) (prep_time : Z)
    (price : spec_float) (cuisine_type : Dish.CuisineType)
    (flavor_profile : Dessert.FlavorProfile) (sweetness_level : Z)
    (contains_nuts : bool).


(** One side dish, lines 418-462: the name and the category are the first
    two fields of [side_dishes] between colons. *)
Definition side_dish (side_dishes : string) : MainCourse.SideDish :=
  let side_dishes_info := Good side_dishes in
  let '(info1, side_dishes_name, _) :=
    getline side_dishes_info EmptyString colon in
  let '(_, side_dishes_category, _) := getline info1 EmptyString colon in
  MainCourse.mkSideDish side_dishes_name
    (Ingestion.side_dishes_enum_category side_dishes_category).

(** The second half of the body of the loop over the lines, lines 305-615:
    the value of [dish] from the fields of the line; [None] is the null
    pointer. *)
Definition dish_of_fields (_dishtype_ _name_ _ingredients_ : string)
    (_prep_time_ : Z) (_price_ : spec_float)
    (_cuisine_type_ _additional_attributes_ : string)
  : outcome (option new_dish) :=
  if String.eqb _dishtype_ "APPETIZER" then
    let ss := Good _additional_attributes_ in
    let '(ss1, _serving_style_, _) := getline ss EmptyString semicolon in
    let '(ss2, temp_string, _) := getline ss1 EmptyString semicolon in
    bind (stoi temp_string) (fun _spiciness_level_ =>
    let '(_, temp_string, _) := getline ss2 temp_string semicolon in
    let _vegetarian_ := String.eqb temp_string "true" in
    bind (split semicolon _ingredients_) (fun ingredient_strings =>
    Returns
      (Some
         (NewAppetizer _name_ ingredient_strings _prep_time_ _price_
            (Ingestion.cuisine_type_enum _cuisine_type_)
            (Ingestion.serving_style_enum _serving_style_)
            _spiciness_level_ _vegetarian_))))
  else if String.eqb _dishtype_ "MAINCOURSE" then
    let ss := Good _additional_attributes_ in
    let '(ss1, _cooking_method_, _) := getline ss EmptyString semicolon in
    let '(ss2, _protein_type_, _) := getline ss1 EmptyString semicolon in
    let '(ss3, _side_dishes_, _) := getline ss2 EmptyString semicolon in
    let '(_, temp_string, _) := getline ss3 EmptyString semicolon in
    let _gluten_free_ := String.eqb temp_string "true" in
    bind (split semicolon _ingredients_) (fun ingredient_strings =>
    bind (split bar _side_dishes_) (fun entries =>
    Returns
      (Some
         (NewMainCourse _name_ ingredient_strings _prep_time_ _price_
            (Ingestion.cuisine_type_enum _cuisine_type_)
            (Ingestion.cooking_method_enum _cooking_method_)
            _protein_type_ (map side_dish entries) _gluten_free_))))
  else if String.eqb _dishtype_ "DESSERT" then
    let ss := Good _additional_attributes_ in
    let '(ss1, _flavor_profile_, _) := getline ss EmptyString semicolon in
    let '(ss2, temp_string, _) := getline ss1 EmptyString semicolon in
    bind (stoi temp_string) (fun _sweetness_level_ =>
    let '(_, temp_string, _) := getline ss2 temp_string semicolon in
    let _contains_nuts_ := String.eqb temp_string "true" in
    bind (split semicolon _ingredients_) (fun ingredient_strings =>
    Returns
      (Some
         (NewDessert _name_ ingredient_strings _prep_time_ _price_
            (Ingestion.cuisine_type_enum _cuisine_type_)
            (Ingestion.flavor_profile_enum _flavor_profile_)
            _sweetness_level_ _contains_nuts_))))
  else Returns None.

Section Record.
(** [std::stod] is not modelled: any function from the text of the price
    to a [double] or an exception. *)
Variable stod : string -> outcome spec_float.

(** The body of the loop over the lines, lines 285-615, up to the value of
    [dish]: the seven fields between commas, lines 285-303, then the
    dish. *)
Definition record (line : string) : outcome (option new_dish) :=
  let input_string := Good line in
  let '(input1, _dishtype_, _) := getline input_string EmptyString comma in
  let '(input2, _name_, _) := getline input1 EmptyString comma in
  let '(input3, _ingredients_, _) := getline input2 EmptyString comma in
  let '(input4, temp_string, _) := getline input3 EmptyString comma in
  bind (stoi temp_string) (fun _prep_time_ =>
  let '(input5, temp_string, _) := getline input4 temp_string comma in
  bind (stod temp_string) (fun _price_ =>
  let '(input6, _cuisine_type_, _) := getline input5 EmptyString comma in
  let '(_, _additional_attributes_, _) :=
    getline input6 EmptyString comma in
  dish_of_fields _dishtype_ _name_ _ingredients_ _prep_time_ _price_
    _cuisine_type_ _additional_attributes_)).

(** The loop over the lines, lines 283-622: the dishes handed to
    [newOrder], in order. *)
Fixpoint records (fuel : nat) (input_file : istream) (line : string)
    (dishes : list new_dish) : outcome (list new_dish) :=
  match fuel with
  | O => Unfinished
  | S fuel' =>
      let '(input_file', line', ok) := getline input_file line newline in
      if ok then
        bind (record line') (fun dish =>
        records fuel' input_file' line'
          (match dish with
           | Some d => dishes ++ [d]
           | None => dishes
           end))
      else Returns dishes
  end.

(** The constructor on the contents of the file, [None] for a file that
    cannot be opened: the first line is skipped, whatever it is. *)
Definition ingest (contents : option string) : outcome (list new_dish) :=
  match contents with
  | None => Returns []
  | Some s =>
      let '(input_file, line, _) := getline (Good s) EmptyString newline in
      records (S (String.length s)) input_file line []
  end.
End Record.

End Csv.

(** ** Writing a file of dishes

    The text of a record, as the constructor expects it: the inverse the
    reading is compared with. *)

Module Encode.

(** A string without the character [c]. *)
Definition lacks (c : Ascii.ascii) (s : string) : bool :=
  forallb (fun x => negb (Ascii.eqb x c)) (list_ascii_of_string s).

(** A field, the delimiter that ends it, and what follows. *)
Definition followed (x : string) (delim : Ascii.ascii) (rest : string)
  : string :=
  x ++ String delim rest.

(** Fields with a delimiter between them. *)
Fixpoint join (delim : Ascii.ascii) (l : list string) : string :=
  match l with
  | [] => EmptyString
  | [x] => x
  | x :: rest => followed x delim (join delim rest)
  end.

(** Fields with a delimiter after each of them. *)
Fixpoint terminated (delim : Ascii.ascii) (l : list string) : string :=
  match l with
  | [] => EmptyString
  | x :: rest => followed x delim (terminated delim rest)
  end.

(** A list of fields that the loop over [std::getline] gives back: it is
    empty or its last field is not. *)
Definition closed (l : list string) : bool :=
  match List.rev l with
  | [] => true
  | x :: _ => negb (String.eqb x EmptyString)
  end.

(** The decimal numeral of an integer. *)
Definition numeral (z : Z) : string :=
  DecimalString.NilZero.string_of_int (Z.to_int z).

Definition truth (b : bool) : string := if b then "true" else "false".

Definition cuisine_token (c : Dish.CuisineType) : string :=
  match c with
  | Dish.ITALIAN => "ITALIAN" | Dish.MEXICAN => "MEXICAN"
  | Dish.CHINESE => "CHINESE" | Dish.INDIAN => "INDIAN"
  | Dish.AMERICAN => "AMERICAN" | Dish.FRENCH => "FRENCH"
  | Dish.OTHER => "OTHER"
  end.

Definition serving_style_token (s : Appetizer.ServingStyle) : string :=
  match s with
  | Appetizer.PLATED => "PLATED"
  | Appetizer.FAMILY_STYLE => "FAMILY_STYLE"
  | Appetizer.BUFFET => "BUFFET"
  end.

Definition cooking_method_token (c : MainCourse.CookingMethod) : string :=
  match c with
  | MainCourse.GRILLED => "GRILLED" | MainCourse.BAKED => "BAKED"
  | MainCourse.BOILED => "BOILED" | MainCourse.FRIED => "FRIED"
  | MainCourse.STEAMED => "STEAMED" | MainCourse.RAW => "RAW"
  end.

Definition category_token (c : MainCourse.Category) : string :=
  match c with
  | MainCourse.GRAIN => "GRAIN" | MainCourse.PASTA => "PASTA"
  | MainCourse.LEGUME => "LEGUME" | MainCourse.BREAD => "BREAD"
  | MainCourse.SALAD => "SALAD" | MainCourse.SOUP => "SOUP"
  | MainCourse.STARCHES => "STARCHES" | MainCourse.VEGETABLE => "VEGETABLE"
  end.

Definition flavor_profile_token (f : Dessert.FlavorProfile) : string :=
  match f with
  | Dessert.SWEET => "SWEET" | Dessert.BITTER => "BITTER"
  | Dessert.SOUR => "SOUR" | Dessert.SALTY => "SALTY"
  | Dessert.UMAMI => "UMAMI"
  end.

(** One side dish: [name:CATEGORY]. *)
Definition side_dish (s : MainCourse.SideDish) : string :=
  followed (MainCourse.name s) Csv.colon
    (category_token (MainCourse.category s)).

(** The six fields every record starts with; [price] is the text of the
    price. *)
Definition common (dishtype name : string) (ingredients : list string)
    (prep_time : Z) (price : string) (cuisine_type : Dish.CuisineType)
    (additional_attributes : string) : string :=
  followed dishtype Csv.comma
    (followed name Csv.comma
       (followed (join Csv.semicolon ingredients) Csv.comma
          (followed (numeral prep_time) Csv.comma
             (followed price Csv.comma
                (followed (cuisine_token cuisine_type) Csv.comma
                   additional_attributes))))).

(** The line of a dish, given the text of its price. *)
Definition line (price : string) (d : Csv.new_dish) : string :=
  match d with
  | Csv.NewAppetizer name ingredients prep_time _ cuisine_type serving_style
      spiciness_level vegetarian =>
      common "APPETIZER" name ingredients prep_time price cuisine_type
        (followed (serving_style_token serving_style) Csv.semicolon
           (followed (numeral spiciness_level) Csv.semicolon
              (truth vegetarian)))
  | Csv.NewMainCourse name ingredients prep_time _ cuisine_type
      cooking_method protein_type side_dishes gluten_free =>
      common "MAINCOURSE" name ingredients prep_time price cuisine_type
        (followed (cooking_method_token cooking_method) Csv.semicolon
           (followed protein_type Csv.semicolon
              (followed (join Csv.bar (map side_dish side_dishes))
                 Csv.semicolon (truth gluten_free))))
  | Csv.NewDessert name ingredients prep_time _ cuisine_type flavor_profile
      sweetness_level contains_nuts =>
      common "DESSERT" name ingredients prep_time price cuisine_type
        (followed (flavor_profile_token flavor_profile) Csv.semicolon
           (followed (numeral sweetness_level) Csv.semicolon
              (truth contains_nuts)))
  end.

(** The common fields of a dish. *)
Definition name_of (d : Csv.new_dish) : string :=
  match d with
  | Csv.NewAppetizer name _ _ _ _ _ _ _
  | Csv.NewMainCourse name _ _ _ _ _ _ _ _
  | Csv.NewDessert name _ _ _ _ _ _ _ => name
  end.

Definition ingredients_of (d : Csv.new_dish) : list string :=
  match d with
  | Csv.NewAppetizer _ ingredients _ _ _ _ _ _
  | Csv.NewMainCourse _ ingredients _ _ _ _ _ _ _
  | Csv.NewDessert _ ingredients _ _ _ _ _ _ => ingredients
  end.

Definition prep_time_of (d : Csv.new_dish) : Z :=
  match d with
  | Csv.NewAppetizer _ _ prep_time _ _ _ _ _
  | Csv.NewMainCourse _ _ prep_time _ _ _ _ _ _
  | Csv.NewDessert _ _ prep_time _ _ _ _ _ => prep_time
  end.

Definition price_of (d : Csv.new_dish) : spec_float :=
  match d with
  | Csv.NewAppetizer _ _ _ price _ _ _ _
  | Csv.NewMainCourse _ _ _ price _ _ _ _ _
  | Csv.NewDessert _ _ _ price _ _ _ _ => price
  end.

(** The texts of a dish keep clear of the delimiters around them, and its
    numbers are [int]s. *)
Definition writable (d : Csv.new_dish) : bool :=
  lacks Csv.comma (name_of d)
  && forallb (fun x => lacks Csv.comma x && lacks Csv.semicolon x)
       (ingredients_of d)
  && closed (ingredients_of d)
  && in_int (prep_time_of d)
  && match d with
     | Csv.NewAppetizer _ _ _ _ _ _ spiciness_level _ =>
         in_int spiciness_level
     | Csv.NewMainCourse _ _ _ _ _ _ protein_type side_dishes _ =>
         lacks Csv.comma protein_type && lacks Csv.semicolon protein_type
         && forallb
              (fun s =>
                 lacks Csv.comma (MainCourse.name s)
                 && lacks Csv.semicolon (MainCourse.name s)
                 && lacks Csv.bar (MainCourse.name s)
                 && lacks Csv.colon (MainCourse.name s))
              side_dishes
     | Csv.NewDessert _ _ _ _ _ _ sweetness_level _ => in_int sweetness_level
     end.

(** The number of occurrences of a character. *)
Definition occurrences (c : Ascii.ascii) (s : string) : nat :=
  length (List.filter (fun x => Ascii.eqb x c) (list_ascii_of_string s)).

(** A dish with the text of its price, as a line of the file. *)
Definition entry_line (e : string * Csv.new_dish) : string :=
  line (fst e) (snd e).

End Encode.

(** ** The dishes of a list of lines *)

Module Lines.

Section Lines.
Variable stod : string -> Csv.outcome spec_float.

(** The dishes of the lines in order, up to the first line that throws. *)
Fixpoint dishes (lines : list string) (sofar : list Csv.new_dish)
  : Csv.outcome (list Csv.new_dish) :=
  match lines with
  | [] => Csv.Returns sofar
  | line :: rest =>
      Csv.bind (Csv.record stod line) (fun dish =>
      dishes rest
        (match dish with
         | Some d => sofar ++ [d]
         | None => sofar
         end))
  end.
End Lines.

End Lines.

(** ** A sample file *)

Module Menu.

Definition header : string :=
  "DishType,Name,Ingredients,PrepTime,Price,CuisineType,AdditionalAttributes".

(** A conversion that knows one price. *)
Definition stod (s : string) : Csv.outcome spec_float :=
  if String.eqb s "12" then Csv.Returns (Double.of_int 12)
  else Csv.Throws Csv.invalid_argument.

Definition bruschetta : Csv.new_dish :=
  Csv.NewAppetizer "Bruschetta" ["Bread"; "Tomato"; "Basil"] 10
    (Double.of_int 12) Dish.ITALIAN Appetizer.PLATED 2 true.

Definition schnitzel : Csv.new_dish :=
  Csv.NewMainCourse "Schnitzel" ["Veal"; "Flour"] 35 (Double.of_int 12)
    Dish.OTHER MainCourse.FRIED "Veal"
    [MainCourse.mkSideDish "Potato Salad" MainCourse.SALAD;
     MainCourse.mkSideDish "Rye Bread" MainCourse.BREAD]
    false.

Definition entries : list (string * Csv.new_dish) :=
  [("12", bruschetta); ("12", schnitzel)].

End Menu.

(** * Proofs *)

Open Scope list_scope.

Module CxxFacts.

Lemma bind_Ok {A B : Type} (m : res A) (k : A -> res B) (b : B) :
  Cxx.bind m k = Ok b -> exists a, m = Ok a /\ k a = Ok b.
Proof. destruct m as [a| |]; simpl; intros H; try discriminate. eauto. Qed.

Lemma int_result_Ok z r : int_result z = Ok r -> r = z /\ INT_MIN <= z <= INT_MAX.
Proof.
  unfold int_result, in_int.
  destruct (Z.leb_spec INT_MIN z); destruct (Z.leb_spec z INT_MAX); simpl;
    intros Hr; inversion Hr; subst. split; [reflexivity | lia].
Qed.

Lemma int_result_in z : INT_MIN <= z <= INT_MAX -> int_result z = Ok z.
Proof.
  intros H. unfold int_result, in_int.
  destruct (Z.leb_spec INT_MIN z); destruct (Z.leb_spec z INT_MAX); simpl;
    try reflexivity; lia.
Qed.

Lemma vec_at_middle {A : Type} (done : list A) (x : A) (todo : list A) :
  vec_at (done ++ x :: todo) (Z.of_nat (length done)) = Ok x.
Proof.
  unfold vec_at, vec_size. rewrite length_app. simpl.
  destruct (Z.leb_spec 0 (Z.of_nat (length done))); [|lia].
  destruct (Z.ltb_spec (Z.of_nat (length done))
              (Z.of_nat (length done + S (length todo)))); [|lia].
  simpl. rewrite Nat2Z.id.
  rewrite list_lookup_middle; reflexivity.
Qed.

Lemma vec_at_outside {A : Type} (v : list A) (i : Z) :
  vec_size v <= i -> vec_at v i = Undefined.
Proof.
  intros H. unfold vec_at.
  destruct (Z.ltb_spec i (vec_size v)); [lia|].
  rewrite andb_false_r. reflexivity.
Qed.

Lemma vec_set_middle {A : Type} (done : list A) (x y : A) (todo : list A) :
  vec_set (done ++ x :: todo) (Z.of_nat (length done)) y = done ++ y :: todo.
Proof.
  unfold vec_set. rewrite Nat2Z.id.
  induction done as [|d done IH]; simpl; [reflexivity|]. f_equal. exact IH.
Qed.

Lemma vec_erase_middle {A : Type} (done : list A) (x : A) (todo : list A) :
  vec_erase (done ++ x :: todo) (Z.of_nat (length done)) = done ++ todo.
Proof.
  unfold vec_erase. rewrite Nat2Z.id.
  induction done as [|d done IH]; simpl; [reflexivity|]. f_equal. exact IH.
Qed.

Lemma vec_erase_length {A : Type} (v : list A) (i : Z) :
  (length (vec_erase v i) <= length v)%nat.
Proof.
  unfold vec_erase. generalize (Z.to_nat i) as n.
  induction v as [|x v IH]; intros [|n]; simpl; try lia.
  specialize (IH n). lia.
Qed.

Lemma size_incr_small i : 0 <= i -> i + 1 < SIZE_MODULUS -> size_incr i = i + 1.
Proof. intros. unfold size_incr, size_wrap. apply Z.mod_small. lia. Qed.

Lemma size_decr_pos i : 0 < i -> i <= SIZE_MODULUS -> size_decr i = i - 1.
Proof. intros. unfold size_decr, size_wrap. apply Z.mod_small. lia. Qed.

Lemma size_decr_zero : size_decr 0 = SIZE_MODULUS - 1.
Proof. reflexivity. Qed.

Lemma size_incr_max : size_incr (SIZE_MODULUS - 1) = 0.
Proof. reflexivity. Qed.

End CxxFacts.

Module ScanFacts.
Import CxxFacts Scan.

Lemma is_in_cons table e x :
  Policy.is_in (e :: table) x = String.eqb x e || Policy.is_in table x.
Proof. reflexivity. Qed.

(** The inner loop changes nothing when the element at [i] matches no entry. *)
Lemma substitution_inner_no_match table st x :
  vec_at (ingredients st) (i st) = Ok x ->
  Policy.is_in table x = false ->
  substitution_inner table st = Ok st.
Proof.
  intros Hx. induction table as [|e table IH]; intros Hin; [reflexivity|].
  rewrite is_in_cons in Hin. apply orb_false_iff in Hin as [He Hin].
  simpl. rewrite Hx. simpl. rewrite He. auto.
Qed.

(** On a match the inner loop substitutes once, provided the element it then
    finds at [i] matches none of the remaining entries. *)
Lemma substitution_inner_match table st x :
  vec_at (ingredients st) (i st) = Ok x ->
  Policy.is_in table x = true ->
  (forall st', substitute st = Ok st' ->
     exists y, vec_at (ingredients st') (i st') = Ok y
               /\ Policy.is_in table y = false) ->
  substitution_inner table st = substitute st.
Proof.
  intros Hx. induction table as [|e table IH]; intros Hin Hnext;
    [discriminate|].
  simpl. rewrite Hx. simpl.
  destruct (String.eqb x e) eqn:He.
  - destruct (substitute st) as [st'| |] eqn:Hs; simpl; try reflexivity.
    destruct (Hnext st' eq_refl) as (y & Hy & Hny).
    rewrite is_in_cons in Hny. apply orb_false_iff in Hny as [_ Hny].
    eapply substitution_inner_no_match; eauto.
  - rewrite is_in_cons, He in Hin. simpl in Hin.
    apply IH; [exact Hin|].
    intros st' Hs. destruct (Hnext st' Hs) as (y & Hy & Hny).
    rewrite is_in_cons in Hny. apply orb_false_iff in Hny as [_ Hny]. eauto.
Qed.

Lemma substitute_first done x todo :
  substitute (mkState (done ++ x :: todo) (Z.of_nat (length done)) 0)
  = Ok (mkState (done ++ "Beans" :: todo) (Z.of_nat (length done)) 1).
Proof. unfold substitute. simpl. rewrite vec_set_middle. reflexivity. Qed.

Lemma substitute_second done x todo :
  substitute (mkState (done ++ x :: todo) (Z.of_nat (length done)) 1)
  = Ok (mkState (done ++ "Mushrooms" :: todo) (Z.of_nat (length done)) 2).
Proof. unfold substitute. simpl. rewrite vec_set_middle. reflexivity. Qed.

Lemma substitute_later done x todo c :
  2 <= c -> c + 1 <= INT_MAX ->
  substitute (mkState (done ++ x :: todo) (Z.of_nat (length done)) c)
  = Ok (mkState (done ++ todo) (size_decr (Z.of_nat (length done))) (c + 1)).
Proof.
  intros H2 Hmax. unfold substitute. simpl.
  destruct (Z.eqb_spec c 0); [lia|]. destruct (Z.eqb_spec c 1); [lia|].
  simpl. rewrite vec_erase_middle. unfold int_add.
  rewrite int_result_in; [reflexivity|]. unfold INT_MIN. lia.
Qed.

(** The outer loop, from a state in which [done] has been scanned and holds
    no non-vegetarian ingredient, [todo] is still to be scanned, and [m]
    matches have been counted. *)
Lemma substitution_outer_spec todo :
  forall (done : list string) (m fuel : nat),
    (length todo <= fuel)%nat ->
    Forall (fun y => Policy.is_in nonVegIngredients y = false) done ->
    ((2 <= m)%nat -> done <> []) ->
    Z.of_nat m + Z.of_nat (length todo) <= INT_MAX ->
    Z.of_nat (length done) + Z.of_nat (length todo) < SIZE_MODULUS ->
    exists st,
      substitution_outer fuel nonVegIngredients
        (mkState (done ++ todo) (Z.of_nat (length done)) (Z.of_nat m)) = Ok st
      /\ ingredients st = done ++ Policy.substitution m todo.
Proof.
  induction todo as [|x todo IH];
    intros done m fuel Hfuel Hdone Hne Hmax Hsize.
  - exists (mkState (done ++ []) (Z.of_nat (length done)) (Z.of_nat m)).
    split; [|reflexivity].
    destruct fuel; simpl; unfold vec_size; rewrite length_app; simpl;
      destruct (Z.ltb_spec (Z.of_nat (length done))
                  (Z.of_nat (length done + 0))); try lia; reflexivity.
  - destruct fuel as [|fuel]; [simpl in Hfuel; lia|].
    simpl in Hfuel, Hmax, Hsize.
    cbn [substitution_outer ingredients i substitution_count].
    unfold vec_size at 1. rewrite length_app. cbn [length].
    destruct (Z.ltb_spec (Z.of_nat (length done))
                (Z.of_nat (length done + S (length todo)))); [|lia].
    assert (Hx := vec_at_middle done x todo).
    destruct (Policy.is_in nonVegIngredients x) eqn:Hin.
    + (* a match *)
      destruct m as [|[|m]].
      * rewrite (substitution_inner_match _ _ x); [|exact Hx|exact Hin|].
        2:{ cbn [ingredients i]. change (Z.of_nat 0) with 0.
            rewrite substitute_first. intros st' Hs. inversion Hs; subst.
            exists "Beans". split; [apply vec_at_middle | reflexivity]. }
        change (Z.of_nat 0) with 0. rewrite substitute_first.
        cbn [Cxx.bind ingredients i substitution_count].
        rewrite size_incr_small by lia.
        destruct (IH (done ++ ["Beans"]) 1%nat fuel) as (st & Hst & Hing).
        { lia. }
        { apply Forall_app; split; [exact Hdone|]. repeat constructor. }
        { lia. }
        { lia. }
        { rewrite length_app. simpl. lia. }
        exists st. rewrite length_app in Hst. simpl in Hst.
        rewrite <- app_assoc in Hst. simpl in Hst.
        replace (Z.of_nat (length done) + 1)
          with (Z.of_nat (length done + 1)) by lia.
        split; [exact Hst|]. rewrite Hing, <- app_assoc.
        cbn [app Policy.substitution]. rewrite Hin. reflexivity.
      * rewrite (substitution_inner_match _ _ x); [|exact Hx|exact Hin|].
        2:{ cbn [ingredients i]. change (Z.of_nat 1) with 1.
            rewrite substitute_second. intros st' Hs. inversion Hs; subst.
            exists "Mushrooms". split; [apply vec_at_middle | reflexivity]. }
        change (Z.of_nat 1) with 1. rewrite substitute_second.
        cbn [Cxx.bind ingredients i substitution_count].
        rewrite size_incr_small by lia.
        destruct (IH (done ++ ["Mushrooms"]) 2%nat fuel) as (st & Hst & Hing).
        { lia. }
        { apply Forall_app; split; [exact Hdone|]. repeat constructor. }
        { intros _ E. destruct done; discriminate. }
        { lia. }
        { rewrite length_app. simpl. lia. }
        exists st. rewrite length_app in Hst. simpl in Hst.
        rewrite <- app_assoc in Hst. simpl in Hst.
        replace (Z.of_nat (length done) + 1)
          with (Z.of_nat (length done + 1)) by lia.
        split; [exact Hst|]. rewrite Hing, <- app_assoc.
        cbn [app Policy.substitution]. rewrite Hin. reflexivity.
      * (* third match or later: erase *)
        assert (Hd : done <> []) by (apply Hne; lia).
        assert (Hpos : 0 < Z.of_nat (length done))
          by (destruct done; [congruence | simpl; lia]).
        assert (Hs : substitute
                       (mkState (done ++ x :: todo) (Z.of_nat (length done))
                          (Z.of_nat (S (S m))))
                     = Ok (mkState (done ++ todo) (Z.of_nat (length done) - 1)
                             (Z.of_nat (S (S (S m)))))).
        { rewrite substitute_later by lia.
          rewrite size_decr_pos by lia. do 2 f_equal. lia. }
        rewrite (substitution_inner_match _ _ x); [|exact Hx|exact Hin|].
        2:{ cbn [ingredients i]. rewrite Hs. intros st' E.
            inversion E; subst. cbn [ingredients i].
            destruct (exists_last Hd) as (done0 & y & ->).
            apply Forall_app in Hdone as [_ Hy].
            inversion Hy as [|? ? Hy0 _]; subst.
            exists y. rewrite length_app. cbn [length].
            replace (Z.of_nat (length done0 + 1) - 1)
              with (Z.of_nat (length done0)) by lia.
            rewrite <- app_assoc. cbn [app].
            split; [apply vec_at_middle | exact Hy0]. }
        rewrite Hs. cbn [Cxx.bind ingredients i substitution_count].
        rewrite size_incr_small by lia.
        replace (Z.of_nat (length done) - 1 + 1)
          with (Z.of_nat (length done)) by lia.
        destruct (IH done (S (S (S m))) fuel) as (st & Hst & Hing).
        { lia. }
        { exact Hdone. }
        { intros _. exact Hd. }
        { lia. }
        { lia. }
        exists st. split; [exact Hst|]. rewrite Hing.
        cbn [Policy.substitution]. rewrite Hin. reflexivity.
    + (* no match: the element stays *)
      rewrite (substitution_inner_no_match _
                 (mkState (done ++ x :: todo) (Z.of_nat (length done))
                    (Z.of_nat m)) x Hx Hin).
      cbn [Cxx.bind ingredients i substitution_count].
      rewrite size_incr_small by lia.
      destruct (IH (done ++ [x]) m fuel) as (st & Hst & Hing).
      { lia. }
      { apply Forall_app; split; [exact Hdone|]. repeat constructor.
        exact Hin. }
      { intros _ E. destruct done; discriminate. }
      { lia. }
      { rewrite length_app. simpl. lia. }
      exists st. rewrite length_app in Hst. simpl in Hst.
      rewrite <- app_assoc in Hst. simpl in Hst.
      replace (Z.of_nat (length done) + 1)
        with (Z.of_nat (length done + 1)) by lia.
      split; [exact Hst|]. rewrite Hing, <- app_assoc.
      cbn [app Policy.substitution]. rewrite Hin. reflexivity.
Qed.

(** The vegetarian scan computes the substitution policy of the
    specification, on every vector an [int] can count. *)
Lemma vegetarian_scan_policy (l : list string) :
  vec_size l <= INT_MAX ->
  vegetarian_scan l = Ok (Policy.substitution 0 l).
Proof.
  intros Hl. unfold vegetarian_scan.
  destruct (substitution_outer_spec l [] 0%nat (length l)) as (st & Hst & Hing).
  - lia.
  - constructor.
  - lia.
  - unfold vec_size in Hl. lia.
  - unfold vec_size, INT_MAX in Hl. unfold SIZE_MODULUS. simpl. lia.
  - cbn [app length] in Hst. change (Z.of_nat 0) with 0 in Hst.
    rewrite Hst. cbn [Cxx.bind]. rewrite Hing. reflexivity.
Qed.

End ScanFacts.

Module RemovalFacts.
Import CxxFacts Scan.

Section Removal.
Context {A B : Type} (eqb : A -> B -> bool).

(** The inner loop changes nothing when the element at [i] matches no
    entry. *)
Lemma removal_inner_keep (table : list B) (v : list A) (i : Z) (x : A) :
  vec_at v i = Ok x ->
  existsb (eqb x) table = false ->
  removal_inner eqb table v i = Ok (v, i).
Proof.
  intros Hx. induction table as [|e table IH]; intros Hin; [reflexivity|].
  simpl in Hin. apply orb_false_iff in Hin as [He Hin].
  simpl. rewrite Hx. simpl. rewrite He. auto.
Qed.

(** Past the first position a match erases the element and steps back onto
    its predecessor, which matches nothing. *)
Lemma removal_inner_erase (table : list B) (done : list A) (y x : A)
    (todo : list A) :
  existsb (eqb x) table = true ->
  existsb (eqb y) table = false ->
  Z.of_nat (length done) + 1 < SIZE_MODULUS ->
  removal_inner eqb table (done ++ y :: x :: todo)
    (Z.of_nat (length done) + 1)
  = Ok (done ++ y :: todo, Z.of_nat (length done)).
Proof.
  intros Hx Hy Hsize.
  assert (Hat : vec_at (done ++ y :: x :: todo) (Z.of_nat (length done) + 1)
                = Ok x).
  { replace (done ++ y :: x :: todo) with ((done ++ [y]) ++ x :: todo)
      by (rewrite <- app_assoc; reflexivity).
    replace (Z.of_nat (length done) + 1)
      with (Z.of_nat (length (done ++ [y])))
      by (rewrite length_app; simpl; lia).
    apply vec_at_middle. }
  induction table as [|e table IH]; [discriminate|].
  simpl in Hx, Hy. apply orb_false_iff in Hy as [Hye Hy].
  simpl. rewrite Hat. simpl.
  destruct (eqb x e) eqn:He.
  - replace (vec_erase (done ++ y :: x :: todo) (Z.of_nat (length done) + 1))
      with (done ++ y :: todo).
    2:{ replace (done ++ y :: x :: todo) with ((done ++ [y]) ++ x :: todo)
          by (rewrite <- app_assoc; reflexivity).
        replace (Z.of_nat (length done) + 1)
          with (Z.of_nat (length (done ++ [y])))
          by (rewrite length_app; simpl; lia).
        rewrite vec_erase_middle, <- app_assoc. reflexivity. }
    rewrite size_decr_pos by lia.
    replace (Z.of_nat (length done) + 1 - 1) with (Z.of_nat (length done))
      by lia.
    apply (removal_inner_keep _ _ _ y); [apply vec_at_middle | exact Hy].
  - simpl in Hx. apply IH; assumption.
Qed.

(** At the first position a match with an entry before the last one erases
    the element, wraps the index around and reads outside the vector. *)
Lemma removal_inner_begin_front (front : list B) (final : B) (x : A)
    (todo : list A) :
  existsb (eqb x) front = true ->
  vec_size todo < SIZE_MODULUS ->
  removal_inner eqb (front ++ [final]) (x :: todo) 0 = Undefined.
Proof.
  intros Hx Hsize. induction front as [|e front IH]; [discriminate|].
  simpl in Hx. cbn [app removal_inner].
  change (vec_at (x :: todo) 0) with (Ok x). cbn [Cxx.bind].
  destruct (eqb x e) eqn:He.
  - change (vec_erase (x :: todo) 0) with todo.
    rewrite size_decr_zero.
    destruct front as [|e' front]; cbn [app removal_inner];
      rewrite vec_at_outside by lia; reflexivity.
  - simpl in Hx. apply IH. exact Hx.
Qed.

(** At the first position a match with the last entry only erases the
    element; the index wraps around and nothing is read any more. *)
Lemma removal_inner_begin_final (front : list B) (final : B) (x : A)
    (todo : list A) :
  existsb (eqb x) front = false ->
  eqb x final = true ->
  removal_inner eqb (front ++ [final]) (x :: todo) 0
  = Ok (todo, SIZE_MODULUS - 1).
Proof.
  intros Hx Hf. induction front as [|e front IH].
  - cbn [app removal_inner].
    change (vec_at (x :: todo) 0) with (Ok x). cbn [Cxx.bind].
    rewrite Hf. reflexivity.
  - simpl in Hx. apply orb_false_iff in Hx as [He Hx].
    cbn [app removal_inner].
    change (vec_at (x :: todo) 0) with (Ok x). cbn [Cxx.bind].
    rewrite He. apply IH. exact Hx.
Qed.

(** The outer loop once an element has been kept. *)
Lemma removal_outer_after (table : list B) (todo : list A) :
  forall (done : list A) (y : A) (fuel : nat),
    (length todo <= fuel)%nat ->
    existsb (eqb y) table = false ->
    Z.of_nat (length done) + 1 + Z.of_nat (length todo) < SIZE_MODULUS ->
    removal_outer eqb fuel table (done ++ y :: todo)
      (Z.of_nat (length done) + 1)
    = Ok (done ++ y :: Policy.removal eqb table todo).
Proof.
  induction todo as [|x todo IH]; intros done y fuel Hfuel Hy Hsize.
  - assert (E : (Z.of_nat (length done) + 1 <? vec_size (done ++ [y]))
                = false).
    { unfold vec_size. rewrite length_app. simpl. apply Z.ltb_ge. lia. }
    destruct fuel; simpl; rewrite E; reflexivity.
  - destruct fuel as [|fuel]; [simpl in Hfuel; lia|].
    simpl in Hfuel, Hsize. cbn [removal_outer].
    assert (E : (Z.of_nat (length done) + 1
                 <? vec_size (done ++ y :: x :: todo)) = true).
    { unfold vec_size. rewrite length_app. simpl. apply Z.ltb_lt. lia. }
    rewrite E.
    unfold Policy.removal. cbn [List.filter].
    destruct (existsb (eqb x) table) eqn:Hx; cbn [negb].
    + rewrite removal_inner_erase by (assumption || lia).
      cbn [Cxx.bind]. rewrite size_incr_small by lia.
      apply IH; [lia | exact Hy | lia].
    + rewrite (removal_inner_keep table _ _ x); [| |exact Hx].
      2:{ replace (done ++ y :: x :: todo) with ((done ++ [y]) ++ x :: todo)
            by (rewrite <- app_assoc; reflexivity).
          replace (Z.of_nat (length done) + 1)
            with (Z.of_nat (length (done ++ [y])))
            by (rewrite length_app; simpl; lia).
          apply vec_at_middle. }
      cbn [Cxx.bind]. rewrite size_incr_small by lia.
      specialize (IH (done ++ [y]) x fuel).
      rewrite length_app, <- app_assoc in IH. simpl in IH.
      replace (Z.of_nat (length done) + 1 + 1)
        with (Z.of_nat (length done + 1) + 1) by lia.
      rewrite IH; [| lia | exact Hx | lia].
      rewrite <- app_assoc. reflexivity.
Qed.

(** The outer loop from the start of the vector. *)
Lemma removal_outer_begin (front : list B) (final : B) (l : list A) :
  forall fuel : nat,
    (length l <= fuel)%nat ->
    vec_size l < SIZE_MODULUS ->
    removal_outer eqb fuel (front ++ [final]) l 0
    = if removal_reads_outside eqb front final l then Undefined
      else Ok (Policy.removal eqb (front ++ [final]) l).
Proof.
  induction l as [|x l IH]; intros fuel Hfuel Hsize.
  - destruct fuel; reflexivity.
  - destruct fuel as [|fuel]; [simpl in Hfuel; lia|].
    simpl in Hfuel. unfold vec_size in Hsize. simpl in Hsize.
    cbn [removal_outer removal_reads_outside].
    assert (E : (0 <? vec_size (x :: l)) = true).
    { unfold vec_size. simpl. apply Z.ltb_lt. lia. }
    rewrite E. unfold Policy.removal. cbn [List.filter].
    rewrite existsb_app. cbn [existsb]. rewrite orb_false_r.
    destruct (existsb (eqb x) front) eqn:Hx.
    + rewrite removal_inner_begin_front; [reflexivity | exact Hx |].
      unfold vec_size. lia.
    + cbn [orb]. destruct (eqb x final) eqn:Hf; cbn [negb].
      * rewrite removal_inner_begin_final by assumption.
        cbn [Cxx.bind]. rewrite size_incr_max.
        apply IH; [lia | unfold vec_size; lia].
      * rewrite (removal_inner_keep (front ++ [final]) _ _ x).
        2:{ reflexivity. }
        2:{ rewrite existsb_app. simpl. rewrite Hx, Hf. reflexivity. }
        cbn [Cxx.bind]. change (size_incr 0) with 1.
        apply (removal_outer_after (front ++ [final]) l [] x fuel);
          [lia | | simpl; lia].
        rewrite existsb_app. simpl. rewrite Hx, Hf. reflexivity.
Qed.

(** What the removal scan returns, for a table with at least one entry. *)
Lemma removal_scan_spec (front : list B) (final : B) (l : list A) :
  vec_size l < SIZE_MODULUS ->
  removal_scan eqb (front ++ [final]) l
  = if removal_reads_outside eqb front final l then Undefined
    else Ok (Policy.removal eqb (front ++ [final]) l).
Proof. intros H. apply removal_outer_begin; [lia | exact H]. Qed.

(** Whatever the bounds, neither loop ever lengthens the vector. *)
Lemma removal_inner_length (table : list B) :
  forall (v : list A) (i : Z) (v' : list A) (i' : Z),
    removal_inner eqb table v i = Ok (v', i') ->
    (length v' <= length v)%nat.
Proof.
  induction table as [|e table IH]; intros v i v' i' H; simpl in H.
  - inversion H; subst. lia.
  - apply bind_Ok in H as (x & _ & H).
    destruct (eqb x e).
    + apply IH in H. pose proof (vec_erase_length v i). lia.
    + eapply IH; eauto.
Qed.

Lemma removal_outer_length (table : list B) (fuel : nat) :
  forall (v : list A) (i : Z) (v' : list A),
    removal_outer eqb fuel table v i = Ok v' ->
    (length v' <= length v)%nat.
Proof.
  induction fuel as [|fuel IH]; intros v i v' H; simpl in H;
    destruct (i <? vec_size v); try discriminate;
    try (inversion H; subst; lia).
  apply bind_Ok in H as ([v1 i1] & H1 & H).
  apply removal_inner_length in H1. apply IH in H. lia.
Qed.

Lemma removal_scan_length (table : list B) (l l' : list A) :
  removal_scan eqb table l = Ok l' -> (length l' <= length l)%nat.
Proof. apply removal_outer_length. Qed.
End Removal.

Lemma substitute_length st st' :
  substitute st = Ok st' ->
  (length (ingredients st') <= length (ingredients st))%nat.
Proof.
  unfold substitute. intros H. apply bind_Ok in H as (c & _ & H).
  inversion H; subst; clear H. cbn [ingredients].
  destruct (substitution_count st =? 0); [|destruct (substitution_count st =? 1)];
    cbn [ingredients]; unfold vec_set.
  - rewrite length_insert. lia.
  - rewrite length_insert. lia.
  - apply vec_erase_length.
Qed.

Lemma substitution_inner_length table :
  forall st st',
    substitution_inner table st = Ok st' ->
    (length (ingredients st') <= length (ingredients st))%nat.
Proof.
  induction table as [|e table IH]; intros st st' H; simpl in H.
  - inversion H; subst. lia.
  - apply bind_Ok in H as (x & _ & H).
    destruct (String.eqb x e).
    + apply bind_Ok in H as (st1 & H1 & H).
      apply substitute_length in H1. apply IH in H. lia.
    + eapply IH; eauto.
Qed.

Lemma substitution_outer_length table fuel :
  forall st st',
    substitution_outer fuel table st = Ok st' ->
    (length (ingredients st') <= length (ingredients st))%nat.
Proof.
  induction fuel as [|fuel IH]; intros st st' H; simpl in H;
    destruct (i st <? vec_size (ingredients st)); try discriminate;
    try (inversion H; subst; lia).
  apply bind_Ok in H as (st1 & H1 & H).
  apply substitution_inner_length in H1. apply IH in H. simpl in H. lia.
Qed.

Lemma vegetarian_scan_length l l' :
  vegetarian_scan l = Ok l' -> (length l' <= length l)%nat.
Proof.
  unfold vegetarian_scan. intros H. apply bind_Ok in H as (st & H1 & H).
  inversion H; subst. apply substitution_outer_length in H1. exact H1.
Qed.

End RemovalFacts.

Module DishFacts.
Import CxxFacts ScanFacts RemovalFacts Invariant.

(** Unfolds one accommodation that returned. *)
Ltac invert_handler H :=
  let v := fresh "v" in
  let Hv := fresh "Hv" in
  apply bind_Ok in H as (v & Hv & H); inversion H; subst; clear H.

Lemma appetizer_vegetarian_frame a a' :
  Appetizer.accommodate_vegetarian a = Ok a' ->
  Appetizer.spiciness_level_ a' = Appetizer.spiciness_level_ a
  /\ Appetizer.dish a'
     = Dish.setIngredients (Appetizer.dish a)
         (Dish.ingredients_ (Appetizer.dish a'))
  /\ (length (Dish.ingredients_ (Appetizer.dish a'))
      <= length (Dish.ingredients_ (Appetizer.dish a)))%nat.
Proof.
  unfold Appetizer.accommodate_vegetarian. intros H. invert_handler H.
  simpl. repeat split. apply vegetarian_scan_length. exact Hv.
Qed.

Lemma appetizer_gluten_free_frame a a' :
  Appetizer.accommodate_gluten_free a = Ok a' ->
  Appetizer.spiciness_level_ a' = Appetizer.spiciness_level_ a
  /\ Appetizer.dish a'
     = Dish.setIngredients (Appetizer.dish a)
         (Dish.ingredients_ (Appetizer.dish a'))
  /\ (length (Dish.ingredients_ (Appetizer.dish a'))
      <= length (Dish.ingredients_ (Appetizer.dish a)))%nat.
Proof.
  unfold Appetizer.accommodate_gluten_free. intros H. invert_handler H.
  simpl. repeat split. eapply removal_scan_length. exact Hv.
Qed.

Lemma appetizer_low_sodium_level a a' :
  Appetizer.accommodate_low_sodium a = Ok a' ->
  Appetizer.spiciness_level_ a' = Z.max 0 (Appetizer.spiciness_level_ a - 2)
  /\ Appetizer.dish a' = Appetizer.dish a.
Proof.
  unfold Appetizer.accommodate_low_sodium, int_sub. intros H.
  invert_handler H. apply int_result_Ok in Hv as [-> _]. simpl.
  split; [|reflexivity].
  destruct (Z.ltb_spec (Appetizer.spiciness_level_ a - 2) 0); lia.
Qed.

(** The low-sodium accommodation is defined whenever the subtraction is. *)
Lemma appetizer_low_sodium_defined a :
  INT_MIN + 2 <= Appetizer.spiciness_level_ a <= INT_MAX ->
  Appetizer.accommodate_low_sodium a
  = Ok (Appetizer.mk (Appetizer.dish a) (Appetizer.serving_style_ a)
          (Z.max 0 (Appetizer.spiciness_level_ a - 2))
          (Appetizer.vegetarian_ a)).
Proof.
  intros H. unfold Appetizer.accommodate_low_sodium, int_sub.
  rewrite int_result_in by lia. simpl. do 2 f_equal.
  destruct (Z.ltb_spec (Appetizer.spiciness_level_ a - 2) 0); lia.
Qed.

Lemma dessert_low_sugar_level d d' :
  Dessert.accommodate_low_sugar d = Ok d' ->
  Dessert.sweetness_level_ d' = Z.max 0 (Dessert.sweetness_level_ d - 3)
  /\ Dessert.dish d' = Dessert.dish d.
Proof.
  unfold Dessert.accommodate_low_sugar, int_sub. intros H.
  invert_handler H. apply int_result_Ok in Hv as [-> _]. simpl.
  split; [|reflexivity].
  destruct (Z.ltb_spec (Dessert.sweetness_level_ d - 3) 0); lia.
Qed.

Lemma dessert_low_sugar_defined d :
  INT_MIN + 3 <= Dessert.sweetness_level_ d <= INT_MAX ->
  Dessert.accommodate_low_sugar d
  = Ok (Dessert.mk (Dessert.dish d) (Dessert.flavor_profile_ d)
          (Z.max 0 (Dessert.sweetness_level_ d - 3))
          (Dessert.contains_nuts_ d)).
Proof.
  intros H. unfold Dessert.accommodate_low_sugar, int_sub.
  rewrite int_result_in by lia. simpl. do 2 f_equal.
  destruct (Z.ltb_spec (Dessert.sweetness_level_ d - 3) 0); lia.
Qed.

Lemma dessert_nut_free_frame d d' :
  Dessert.accommodate_nut_free d = Ok d' ->
  Dessert.sweetness_level_ d' = Dessert.sweetness_level_ d
  /\ Dessert.dish d'
     = Dish.setIngredients (Dessert.dish d)
         (Dish.ingredients_ (Dessert.dish d'))
  /\ (length (Dish.ingredients_ (Dessert.dish d'))
      <= length (Dish.ingredients_ (Dessert.dish d)))%nat.
Proof.
  unfold Dessert.accommodate_nut_free. intros H. invert_handler H.
  simpl. repeat split. eapply removal_scan_length. exact Hv.
Qed.

Lemma dessert_vegan_frame d d' :
  Dessert.accommodate_vegan d = Ok d' ->
  Dessert.sweetness_level_ d' = Dessert.sweetness_level_ d
  /\ Dessert.dish d'
     = Dish.setIngredients (Dessert.dish d)
         (Dish.ingredients_ (Dessert.dish d'))
  /\ (length (Dish.ingredients_ (Dessert.dish d'))
      <= length (Dish.ingredients_ (Dessert.dish d)))%nat.
Proof.
  unfold Dessert.accommodate_vegan. intros H. invert_handler H.
  simpl. repeat split. eapply removal_scan_length. exact Hv.
Qed.

Lemma main_course_vegetarian_frame m m' :
  MainCourse.accommodate_vegetarian m = Ok m' ->
  MainCourse.dish m'
  = Dish.setIngredients (MainCourse.dish m)
      (Dish.ingredients_ (MainCourse.dish m'))
  /\ (length (Dish.ingredients_ (MainCourse.dish m'))
      <= length (Dish.ingredients_ (MainCourse.dish m)))%nat.
Proof.
  unfold MainCourse.accommodate_vegetarian. intros H. invert_handler H.
  simpl. repeat split. apply vegetarian_scan_length. exact Hv.
Qed.

Lemma main_course_vegan_frame m m' :
  MainCourse.accommodate_vegan m = Ok m' ->
  MainCourse.dish m'
  = Dish.setIngredients (MainCourse.dish m)
      (Dish.ingredients_ (MainCourse.dish m'))
  /\ (length (Dish.ingredients_ (MainCourse.dish m'))
      <= length (Dish.ingredients_ (MainCourse.dish m)))%nat.
Proof.
  unfold MainCourse.accommodate_vegan. intros H. invert_handler H.
  simpl. repeat split. eapply removal_scan_length. exact Hv.
Qed.

Lemma main_course_gluten_free_frame m m' :
  MainCourse.accommodate_gluten_free m = Ok m' ->
  MainCourse.dish m' = MainCourse.dish m.
Proof.
  unfold MainCourse.accommodate_gluten_free. intros H. invert_handler H.
  reflexivity.
Qed.

Lemma only_ingredients_shrink_refl d : only_ingredients_shrink d d.
Proof. split; [destruct d; reflexivity | lia]. Qed.

Lemma only_ingredients_shrink_trans d1 d2 d3 :
  only_ingredients_shrink d1 d2 -> only_ingredients_shrink d2 d3 ->
  only_ingredients_shrink d1 d3.
Proof.
  intros [E1 L1] [E2 L2]. split; [|lia].
  rewrite E2 at 1. rewrite E1. reflexivity.
Qed.

Lemma appetizer_accommodations_base request a a' :
  Appetizer.dietaryAccommodations request a = Ok a' ->
  only_ingredients_shrink (Appetizer.dish a) (Appetizer.dish a').
Proof.
  unfold Appetizer.dietaryAccommodations. intros H.
  apply bind_Ok in H as (a1 & H1 & H). apply bind_Ok in H as (a2 & H2 & H).
  assert (S1 : only_ingredients_shrink (Appetizer.dish a) (Appetizer.dish a1)).
  { destruct (Dish.vegetarian request).
    - apply appetizer_vegetarian_frame in H1 as (_ & E & L). split; assumption.
    - inversion H1. apply only_ingredients_shrink_refl. }
  assert (S2 : only_ingredients_shrink (Appetizer.dish a1) (Appetizer.dish a2)).
  { destruct (Dish.low_sodium request).
    - apply appetizer_low_sodium_level in H2 as [_ ->].
      apply only_ingredients_shrink_refl.
    - inversion H2. apply only_ingredients_shrink_refl. }
  assert (S3 : only_ingredients_shrink (Appetizer.dish a2) (Appetizer.dish a')).
  { destruct (Dish.gluten_free request).
    - apply appetizer_gluten_free_frame in H as (_ & E & L). split; assumption.
    - inversion H. apply only_ingredients_shrink_refl. }
  eauto using only_ingredients_shrink_trans.
Qed.

Lemma main_course_accommodations_base request m m' :
  MainCourse.dietaryAccommodations request m = Ok m' ->
  only_ingredients_shrink (MainCourse.dish m) (MainCourse.dish m').
Proof.
  unfold MainCourse.dietaryAccommodations. intros H.
  apply bind_Ok in H as (m1 & H1 & H). apply bind_Ok in H as (m2 & H2 & H).
  assert (S1 : only_ingredients_shrink (MainCourse.dish m) (MainCourse.dish m1)).
  { destruct (Dish.vegetarian request).
    - apply main_course_vegetarian_frame in H1 as (E & L). split; assumption.
    - inversion H1. apply only_ingredients_shrink_refl. }
  assert (S2 : only_ingredients_shrink (MainCourse.dish m1) (MainCourse.dish m2)).
  { destruct (Dish.vegan request).
    - apply main_course_vegan_frame in H2 as (E & L). split; assumption.
    - inversion H2. apply only_ingredients_shrink_refl. }
  assert (S3 : only_ingredients_shrink (MainCourse.dish m2) (MainCourse.dish m')).
  { destruct (Dish.gluten_free request).
    - apply main_course_gluten_free_frame in H as ->.
      apply only_ingredients_shrink_refl.
    - inversion H. apply only_ingredients_shrink_refl. }
  eauto using only_ingredients_shrink_trans.
Qed.

Lemma dessert_accommodations_base request d d' :
  Dessert.dietaryAccommodations request d = Ok d' ->
  only_ingredients_shrink (Dessert.dish d) (Dessert.dish d').
Proof.
  unfold Dessert.dietaryAccommodations. intros H.
  apply bind_Ok in H as (d1 & H1 & H). apply bind_Ok in H as (d2 & H2 & H).
  assert (S1 : only_ingredients_shrink (Dessert.dish d) (Dessert.dish d1)).
  { destruct (Dish.nut_free request).
    - apply dessert_nut_free_frame in H1 as (_ & E & L). split; assumption.
    - inversion H1. apply only_ingredients_shrink_refl. }
  assert (S2 : only_ingredients_shrink (Dessert.dish d1) (Dessert.dish d2)).
  { destruct (Dish.low_sugar request).
    - apply dessert_low_sugar_level in H2 as [_ ->].
      apply only_ingredients_shrink_refl.
    - inversion H2. apply only_ingredients_shrink_refl. }
  assert (S3 : only_ingredients_shrink (Dessert.dish d2) (Dessert.dish d')).
  { destruct (Dish.vegan request).
    - apply dessert_vegan_frame in H as (_ & E & L). split; assumption.
    - inversion H. apply only_ingredients_shrink_refl. }
  eauto using only_ingredients_shrink_trans.
Qed.

(** Every accommodation, through the virtual call. *)
Lemma accommodations_base request x x' :
  dietaryAccommodations request x = Ok x' ->
  only_ingredients_shrink (base x) (base x').
Proof.
  destruct x as [a|m|d]; simpl; intros H;
    apply bind_Ok in H as (y & Hy & H); inversion H; subst; simpl.
  - eapply appetizer_accommodations_base; eauto.
  - eapply main_course_accommodations_base; eauto.
  - eapply dessert_accommodations_base; eauto.
Qed.

End DishFacts.

Module BagFacts.
Import ArrayBag Invariant.

Lemma held_lookup b j p :
  held b !! j = Some p <-> items_ b !! j = Some p /\ (j < item_count_ b)%nat.
Proof. apply lookup_take_Some. Qed.

Lemma held_length b : bag_ok b -> length (held b) = item_count_ b.
Proof. unfold bag_ok, held. intros H. rewrite length_take. lia. Qed.

Lemma getIndexOf_Some p b idx :
  getIndexOf p b = Some idx ->
  held b !! idx = Some p
  /\ forall j q, held b !! j = Some q -> (j < idx)%nat -> q <> p.
Proof.
  unfold getIndexOf. intros H. apply fmap_Some in H as ([i x] & H & ->).
  apply list_find_Some in H as (Hx & -> & Hfirst). simpl. split; eauto.
Qed.

Lemma getIndexOf_None p b : getIndexOf p b = None <-> p ∉ held b.
Proof.
  unfold getIndexOf. rewrite fmap_None, list_find_None, Forall_forall.
  split.
  - intros H Hin. exact (H p Hin eq_refl).
  - intros H x Hx ->. exact (H Hx).
Qed.

Lemma getIndexOf_elem p b : p ∈ held b -> is_Some (getIndexOf p b).
Proof.
  intros H. destruct (getIndexOf p b) eqn:E; [eauto|].
  apply getIndexOf_None in E. contradiction.
Qed.

(** A successful [add] appends to the items held. *)
Lemma add_spec cap rd p b b' r :
  add cap rd p b = (b', r) ->
  bag_ok b ->
  (r = false /\ b' = b)
  \/ (r = true /\ held b' = held b ++ [p] /\ bag_ok b'
      /\ (item_count_ b < cap)%nat
      /\ item_count_ b' = S (item_count_ b)).
Proof.
  unfold add, bag_ok. intros H Hok.
  destruct (bool_decide (item_count_ b < cap)%nat
            && (negb rd || negb (contains p b))) eqn:E;
    inversion H; subst; clear H; [right | left; auto].
  apply andb_true_iff in E as [E _]. apply bool_decide_eq_true in E.
  unfold held, array_write. simpl.
  repeat split; try assumption.
  - rewrite take_app_ge by (rewrite length_take; lia).
    rewrite length_take.
    replace (S (item_count_ b) - item_count_ b `min` length (items_ b))%nat
      with 1%nat by lia.
    reflexivity.
  - rewrite length_app, length_take. simpl. lia.
Qed.

(** A successful [remove] takes one occurrence of [p] out of the items held,
    writes the slot where it found [p] and no other. *)
Lemma remove_spec p b b' r :
  remove p b = (b', r) ->
  bag_ok b ->
  (r = false /\ b' = b /\ p ∉ held b)
  \/ (r = true
      /\ exists idx,
          getIndexOf p b = Some idx
          /\ held b ≡ₚ p :: held b'
          /\ bag_ok b'
          /\ S (item_count_ b') = item_count_ b
          /\ length (items_ b') = length (items_ b)
          /\ forall j, j <> idx -> items_ b' !! j = items_ b !! j).
Proof.
  unfold remove, bag_ok. intros H Hok.
  destruct (getIndexOf p b) as [idx|] eqn:E.
  2:{ inversion H; subst. left. repeat split. apply getIndexOf_None, E. }
  apply getIndexOf_Some in E as [Hidx Hfirst].
  apply held_lookup in Hidx as [Hidx Hlt].
  destruct (item_count_ b) as [|n] eqn:En; [lia|]. simpl in H.
  destruct (items_ b !! n) as [last|] eqn:El.
  2:{ apply lookup_ge_None in El. lia. }
  inversion H; subst; clear H. right. split; [reflexivity|].
  exists idx. unfold held. rewrite En. simpl.
  repeat split; try reflexivity.
  - rewrite (take_S_r _ _ _ El).
    destruct (decide (idx = n)) as [->|Hne].
    + rewrite take_insert_ge by lia.
      rewrite Hidx in El. inversion El; subst.
      symmetry. apply Permutation_cons_append.
    + rewrite take_insert_lt by lia.
      assert (Hp : take n (items_ b) !! idx = Some p)
        by (apply lookup_take_Some; split; [exact Hidx | lia]).
      rewrite insert_take_drop
        by (apply lookup_lt_Some in Hp; exact Hp).
      rewrite <- (take_drop_middle _ _ _ Hp) at 1.
      rewrite <- app_assoc. simpl.
      rewrite <- Permutation_middle.
      apply perm_skip, Permutation_app_head.
      symmetry. apply Permutation_cons_append.
  - rewrite length_insert. lia.
  - apply length_insert.
  - intros j Hj. apply list_lookup_insert_ne. congruence.
Qed.

End BagFacts.

Module RecomputeFacts.
Import Recompute Invariant.

Lemma prep_times_app sigma l1 l2 :
  prep_times sigma (l1 ++ l2) = prep_times sigma l1 + prep_times sigma l2.
Proof. induction l1 as [|p l1 IH]; simpl; [reflexivity | rewrite IH; lia]. Qed.

Lemma prep_times_perm sigma l1 l2 :
  l1 ≡ₚ l2 -> prep_times sigma l1 = prep_times sigma l2.
Proof. induction 1; simpl; lia. Qed.

Lemma elaborate_dishes_cons sigma p l :
  elaborate_dishes sigma (p :: l)
  = (if elaborate_at sigma p then 1 else 0) + elaborate_dishes sigma l.
Proof.
  unfold elaborate_dishes. simpl. destruct (elaborate_at sigma p); simpl; lia.
Qed.

Lemma elaborate_dishes_app sigma l1 l2 :
  elaborate_dishes sigma (l1 ++ l2)
  = elaborate_dishes sigma l1 + elaborate_dishes sigma l2.
Proof.
  induction l1 as [|p l1 IH]; [reflexivity|].
  simpl. rewrite !elaborate_dishes_cons, IH. lia.
Qed.

Lemma elaborate_dishes_perm sigma l1 l2 :
  l1 ≡ₚ l2 -> elaborate_dishes sigma l1 = elaborate_dishes sigma l2.
Proof.
  induction 1; rewrite ?elaborate_dishes_cons in *; try lia.
Qed.

Lemma elaborate_dishes_nonneg sigma l : 0 <= elaborate_dishes sigma l.
Proof. unfold elaborate_dishes. lia. Qed.

(** The store relation of a dietary adjustment. *)
Lemma store_shrinks_refl sigma : store_shrinks sigma sigma.
Proof.
  intros p. destruct (sigma !! p); [|exact I].
  apply DishFacts.only_ingredients_shrink_refl.
Qed.

Lemma store_shrinks_trans s1 s2 s3 :
  store_shrinks s1 s2 -> store_shrinks s2 s3 -> store_shrinks s1 s3.
Proof.
  intros H12 H23 p. specialize (H12 p). specialize (H23 p).
  destruct (s1 !! p), (s2 !! p), (s3 !! p); try contradiction; try exact I.
  eapply DishFacts.only_ingredients_shrink_trans; eauto.
Qed.

Lemma store_shrinks_insert (sigma : Kitchen.store) p d d' :
  sigma !! p = Some d ->
  only_ingredients_shrink (base d) (base d') ->
  store_shrinks sigma (<[p := d']> sigma).
Proof.
  intros Hp Hd q. destruct (decide (p = q)) as [<-|Hne].
  - rewrite Hp, lookup_insert_eq. exact Hd.
  - rewrite lookup_insert_ne by exact Hne.
    destruct (sigma !! q); [|exact I].
    apply DishFacts.only_ingredients_shrink_refl.
Qed.

Lemma store_shrinks_live sigma sigma' p :
  store_shrinks sigma sigma' -> is_Some (sigma !! p) -> is_Some (sigma' !! p).
Proof.
  intros H [d Hd]. specialize (H p). rewrite Hd in H.
  destruct (sigma' !! p); [eauto | contradiction].
Qed.

Lemma store_shrinks_prep_time sigma sigma' p :
  store_shrinks sigma sigma' -> prep_time_at sigma' p = prep_time_at sigma p.
Proof.
  intros H. specialize (H p). unfold prep_time_at.
  destruct (sigma !! p), (sigma' !! p); try contradiction; [|reflexivity].
  destruct H as [-> _]. reflexivity.
Qed.

Lemma store_shrinks_elaborate sigma sigma' p :
  store_shrinks sigma sigma' ->
  elaborate_at sigma' p = true -> elaborate_at sigma p = true.
Proof.
  intros H. specialize (H p). unfold elaborate_at.
  destruct (sigma !! p) as [d|], (sigma' !! p) as [d'|];
    try contradiction; [|discriminate].
  destruct H as [E L]. unfold Kitchen.is_elaborate, Cxx.vec_size.
  rewrite E. unfold Dish.getIngredients, Dish.getPrepTime. simpl.
  intros Hel. apply andb_true_iff in Hel as [H5 H60].
  apply andb_true_iff. split; [|exact H60].
  apply Z.leb_le in H5. apply Z.leb_le. lia.
Qed.

Lemma store_shrinks_prep_times sigma sigma' l :
  store_shrinks sigma sigma' -> prep_times sigma' l = prep_times sigma l.
Proof.
  intros H. induction l as [|p l IH]; simpl; [reflexivity|].
  rewrite IH, (store_shrinks_prep_time _ _ _ H). reflexivity.
Qed.

Lemma store_shrinks_elaborate_dishes sigma sigma' l :
  store_shrinks sigma sigma' ->
  elaborate_dishes sigma' l <= elaborate_dishes sigma l.
Proof.
  intros H. induction l as [|p l IH]; [reflexivity|].
  rewrite !elaborate_dishes_cons.
  pose proof (store_shrinks_elaborate _ _ p H) as Hp.
  destruct (elaborate_at sigma' p), (elaborate_at sigma p); try lia;
    specialize (Hp eq_refl); discriminate.
Qed.

End RecomputeFacts.

Module KitchenFacts.
Import CxxFacts BagFacts RecomputeFacts Recompute Invariant Kitchen.

Lemma deref_Ok sigma p d : deref sigma p = Ok d -> sigma !! p = Some d.
Proof. unfold deref. destruct (sigma !! p); congruence. Qed.

Lemma item_at_Ok items j p : item_at items j = Ok p -> items !! j = Some p.
Proof. unfold item_at. destruct (items !! j); congruence. Qed.

(** What a call of [newOrder] that returns has done. *)
Lemma newOrder_spec cap rd sigma p k k' r :
  newOrder cap rd sigma p k = Ok (k', r) ->
  Invariant.bag_ok (bag k) ->
  (r = false /\ k' = k)
  \/ (r = true
      /\ exists d,
          sigma !! p = Some d
          /\ ArrayBag.held (bag k') = ArrayBag.held (bag k) ++ [p]
          /\ Invariant.bag_ok (bag k')
          /\ total_prep_time_ k'
             = total_prep_time_ k + Dish.getPrepTime (base d)
          /\ count_elaborate_ k'
             = count_elaborate_ k + (if is_elaborate (base d) then 1 else 0)).
Proof.
  unfold newOrder. intros H Hok.
  destruct (ArrayBag.add cap rd p (bag k)) as [b added] eqn:Ha.
  apply add_spec in Ha; [|exact Hok].
  destruct Ha as [[-> ->]|(-> & Hheld & Hok' & _)].
  - inversion H; subst. left. auto.
  - apply bind_Ok in H as (d & Hd & H). apply bind_Ok in H as (t & Ht & H).
    apply bind_Ok in H as (c & Hc & H). inversion H; subst; clear H.
    apply deref_Ok in Hd. apply int_result_Ok in Ht as [-> _].
    right. split; [reflexivity|]. exists d. simpl.
    repeat split; try assumption.
    destruct (is_elaborate (base d)).
    + apply int_result_Ok in Hc as [-> _]. reflexivity.
    + inversion Hc. lia.
Qed.

(** What a call of [serveDish] that returns has done. *)
Lemma serveDish_spec sigma p k k' r :
  serveDish sigma p k = Ok (k', r) ->
  Invariant.bag_ok (bag k) ->
  (r = false /\ k' = k /\ p ∉ ArrayBag.held (bag k))
  \/ (r = true
      /\ exists d idx,
          sigma !! p = Some d
          /\ ArrayBag.getIndexOf p (bag k) = Some idx
          /\ ArrayBag.held (bag k) ≡ₚ p :: ArrayBag.held (bag k')
          /\ Invariant.bag_ok (bag k')
          /\ S (ArrayBag.item_count_ (bag k')) = ArrayBag.item_count_ (bag k)
          /\ length (ArrayBag.items_ (bag k'))
             = length (ArrayBag.items_ (bag k))
          /\ (forall j, j <> idx ->
                ArrayBag.items_ (bag k') !! j = ArrayBag.items_ (bag k) !! j)
          /\ total_prep_time_ k'
             = total_prep_time_ k - Dish.getPrepTime (base d)
          /\ count_elaborate_ k'
             = count_elaborate_ k - (if is_elaborate (base d) then 1 else 0)).
Proof.
  unfold serveDish, getCurrentSize, ArrayBag.getCurrentSize. intros H Hok.
  destruct (Z.eqb_spec (Z.of_nat (ArrayBag.item_count_ (bag k))) 0) as [E0|_].
  { injection H as <- <-. left. repeat split.
    unfold ArrayBag.held. replace (ArrayBag.item_count_ (bag k)) with 0%nat
      by lia. simpl. apply not_elem_of_nil. }
  destruct (ArrayBag.remove p (bag k)) as [b removed] eqn:Hr.
  apply remove_spec in Hr; [|exact Hok].
  destruct Hr
    as [(-> & -> & Hnot)
       |(-> & idx & Hidx & Hperm & Hok' & Hcount & Hlen & Hother)].
  - inversion H; subst. left. auto.
  - apply bind_Ok in H as (d & Hd & H). apply bind_Ok in H as (t & Ht & H).
    apply bind_Ok in H as (c & Hc & H). inversion H; subst; clear H.
    apply deref_Ok in Hd. apply int_result_Ok in Ht as [-> _].
    right. split; [reflexivity|]. exists d, idx. simpl.
    repeat split; try assumption.
    destruct (is_elaborate (base d)).
    + apply int_result_Ok in Hc as [-> _]. reflexivity.
    + inversion Hc. lia.
Qed.

(** [newOrder] keeps the running total right, and the counter as it was:
    exact, or an upper bound. *)
Lemma newOrder_total_ok cap rd sigma p k k' r :
  newOrder cap rd sigma p k = Ok (k', r) ->
  total_ok sigma k -> total_ok sigma k'.
Proof.
  intros H [Hok Hlive Hsum].
  apply newOrder_spec in H; [|exact Hok].
  destruct H as [[_ ->]|(_ & d & Hd & Hheld & Hok' & Ht & _)]; [|constructor].
  - constructor; assumption.
  - exact Hok'.
  - intros q. rewrite Hheld, elem_of_app, list_elem_of_singleton.
    intros [Hq| ->]; [auto | eauto].
  - unfold prep_time_sum in *. rewrite Hheld, prep_times_app, Ht, Hsum.
    simpl. unfold prep_time_at. rewrite Hd. lia.
Qed.

Lemma newOrder_counter cap rd sigma p k k' r :
  newOrder cap rd sigma p k = Ok (k', r) ->
  Invariant.bag_ok (bag k) ->
  count_elaborate_ k' - elaborate_count sigma k'
  = count_elaborate_ k - elaborate_count sigma k.
Proof.
  intros H Hok.
  apply newOrder_spec in H; [|exact Hok].
  destruct H as [[_ ->]|(_ & d & Hd & Hheld & _ & _ & Hc)]; [reflexivity|].
  unfold elaborate_count. rewrite Hheld, elaborate_dishes_app, Hc.
  rewrite elaborate_dishes_cons. unfold elaborate_at. rewrite Hd.
  change (elaborate_dishes sigma []) with 0. lia.
Qed.

Lemma serveDish_total_ok sigma p k k' r :
  serveDish sigma p k = Ok (k', r) ->
  total_ok sigma k -> total_ok sigma k'.
Proof.
  intros H [Hok Hlive Hsum].
  apply serveDish_spec in H; [|exact Hok].
  destruct H
    as [(_ & -> & _)
       |(_ & d & idx & Hd & _ & Hperm & Hok' & _ & _ & _ & Ht & _)];
    [|constructor].
  - constructor; assumption.
  - exact Hok'.
  - intros q Hq. apply Hlive. rewrite Hperm. right. exact Hq.
  - unfold prep_time_sum in *. rewrite Ht, Hsum.
    rewrite (prep_times_perm _ _ _ Hperm). simpl.
    unfold prep_time_at. rewrite Hd. lia.
Qed.

Lemma serveDish_counter sigma p k k' r :
  serveDish sigma p k = Ok (k', r) ->
  Invariant.bag_ok (bag k) ->
  count_elaborate_ k' - elaborate_count sigma k'
  = count_elaborate_ k - elaborate_count sigma k.
Proof.
  intros H Hok.
  apply serveDish_spec in H; [|exact Hok].
  destruct H
    as [(_ & -> & _)
       |(_ & d & idx & Hd & _ & Hperm & _ & _ & _ & _ & _ & Hc)];
    [reflexivity|].
  unfold elaborate_count. rewrite (elaborate_dishes_perm _ _ _ Hperm), Hc.
  rewrite elaborate_dishes_cons. unfold elaborate_at. rewrite Hd. lia.
Qed.

(** The loop of [dietaryAdjustment] only shrinks ingredient lists. *)
Lemma adjust_loop_shrinks request items indices :
  forall sigma sigma',
    adjust_loop request items indices sigma = Ok sigma' ->
    store_shrinks sigma sigma'.
Proof.
  induction indices as [|j indices IH]; intros sigma sigma' H; simpl in H.
  - inversion H. apply store_shrinks_refl.
  - apply bind_Ok in H as (p & _ & H). apply bind_Ok in H as (d & Hd & H).
    apply bind_Ok in H as (d' & Hd' & H).
    apply deref_Ok in Hd. apply DishFacts.accommodations_base in Hd'.
    eapply store_shrinks_trans; [|apply IH; exact H].
    eapply store_shrinks_insert; eauto.
Qed.

Lemma dietaryAdjustment_shrinks request k sigma sigma' :
  dietaryAdjustment request k sigma = Ok sigma' -> store_shrinks sigma sigma'.
Proof. apply adjust_loop_shrinks. Qed.

Lemma store_shrinks_total_ok sigma sigma' k :
  store_shrinks sigma sigma' -> total_ok sigma k -> total_ok sigma' k.
Proof.
  intros H [Hok Hlive Hsum]. constructor.
  - exact Hok.
  - intros p Hp. eapply store_shrinks_live; eauto.
  - unfold prep_time_sum in *. rewrite Hsum. symmetry.
    apply store_shrinks_prep_times. exact H.
Qed.

Lemma store_shrinks_counter_upper sigma sigma' k :
  store_shrinks sigma sigma' -> counter_upper sigma k -> counter_upper sigma' k.
Proof.
  unfold counter_upper, elaborate_count. intros H Hc.
  pose proof (store_shrinks_elaborate_dishes _ _
                (ArrayBag.held (bag k)) H). lia.
Qed.

(** The getters return the recomputed values when the invariants hold. *)
Lemma getPrepTimeSum_recomputed sigma k :
  total_ok sigma k -> getPrepTimeSum k = prep_time_sum sigma k.
Proof.
  intros [Hok _ Hsum]. unfold getPrepTimeSum, getCurrentSize,
    ArrayBag.getCurrentSize.
  destruct (Z.eqb_spec (Z.of_nat (ArrayBag.item_count_ (bag k))) 0) as [E|E];
    [|exact Hsum].
  unfold prep_time_sum, ArrayBag.held.
  replace (ArrayBag.item_count_ (bag k)) with 0%nat by lia. reflexivity.
Qed.

Lemma elaborateDishCount_recomputed sigma k :
  counter_exact sigma k -> elaborateDishCount k = elaborate_count sigma k.
Proof.
  unfold counter_exact, elaborateDishCount, getCurrentSize,
    ArrayBag.getCurrentSize. intros Hc.
  destruct (Z.eqb_spec (Z.of_nat (ArrayBag.item_count_ (bag k))) 0) as [E|E];
    simpl.
  - unfold elaborate_count, ArrayBag.held.
    replace (ArrayBag.item_count_ (bag k)) with 0%nat by lia. reflexivity.
  - destruct (Z.eqb_spec (count_elaborate_ k) 0); lia.
Qed.

Lemma elaborateDishCount_upper sigma k :
  counter_upper sigma k -> elaborate_count sigma k <= elaborateDishCount k.
Proof.
  unfold counter_upper, elaborateDishCount, getCurrentSize,
    ArrayBag.getCurrentSize. intros Hc.
  destruct (Z.eqb_spec (Z.of_nat (ArrayBag.item_count_ (bag k))) 0) as [E|E];
    simpl.
  - unfold elaborate_count, ArrayBag.held.
    replace (ArrayBag.item_count_ (bag k)) with 0%nat by lia. reflexivity.
  - destruct (Z.eqb_spec (count_elaborate_ k) 0); lia.
Qed.

Lemma empty_total_ok sigma : total_ok sigma Kitchen.empty.
Proof.
  constructor.
  - unfold bag_ok. simpl. lia.
  - intros p Hp. simpl in Hp. apply elem_of_nil in Hp. contradiction.
  - reflexivity.
Qed.

Lemma empty_counter_exact sigma : counter_exact sigma Kitchen.empty.
Proof. reflexivity. Qed.

End KitchenFacts.

Module SessionFacts.
Import CxxFacts BagFacts RecomputeFacts KitchenFacts Recompute Invariant
  Kitchen Session.

(** A call that fails changes nothing, whatever the state of the kitchen. *)
Lemma newOrder_failed cap rd sigma p k k' :
  newOrder cap rd sigma p k = Ok (k', false) -> k' = k.
Proof.
  unfold newOrder, ArrayBag.add.
  destruct (bool_decide (ArrayBag.item_count_ (bag k) < cap)%nat
            && (negb rd || negb (ArrayBag.contains p (bag k)))).
  - intros H. apply bind_Ok in H as (d & _ & H).
    apply bind_Ok in H as (t & _ & H). apply bind_Ok in H as (c & _ & H).
    discriminate.
  - intros H. inversion H. reflexivity.
Qed.

Lemma serveDish_failed sigma p k k' :
  serveDish sigma p k = Ok (k', false) -> k' = k.
Proof.
  unfold serveDish. destruct (getCurrentSize k =? 0).
  { intros H. inversion H. reflexivity. }
  destruct (ArrayBag.remove p (bag k)) as [b [|]].
  - intros H. apply bind_Ok in H as (d & _ & H).
    apply bind_Ok in H as (t & _ & H). apply bind_Ok in H as (c & _ & H).
    discriminate.
  - intros H. inversion H. reflexivity.
Qed.

(** One call keeps the running total right and the counter an upper bound; an
    order or a serve leaves the store alone and keeps the counter exact. *)
Lemma step_invariants cap rd c sigma k sigma' k' r :
  step cap rd c (sigma, k) = Ok (sigma', k', r) ->
  total_ok sigma k ->
  total_ok sigma' k'
  /\ (counter_upper sigma k -> counter_upper sigma' k')
  /\ (is_order_or_serve c = true ->
      sigma' = sigma /\ (counter_exact sigma k -> counter_exact sigma' k')).
Proof.
  intros H Hok. destruct c as [p|p|request]; simpl in H.
  - apply bind_Ok in H as ([k1 r1] & H1 & H). inversion H; subst; clear H.
    pose proof (newOrder_counter _ _ _ _ _ _ _ H1 (slots_ok _ _ Hok)) as Hc.
    split; [eapply newOrder_total_ok; eauto|].
    unfold counter_upper, counter_exact. repeat split; intros; lia.
  - apply bind_Ok in H as ([k1 r1] & H1 & H). inversion H; subst; clear H.
    pose proof (serveDish_counter _ _ _ _ _ H1 (slots_ok _ _ Hok)) as Hc.
    split; [eapply serveDish_total_ok; eauto|].
    unfold counter_upper, counter_exact. repeat split; intros; lia.
  - apply bind_Ok in H as (s1 & H1 & H). inversion H; subst; clear H.
    apply dietaryAdjustment_shrinks in H1.
    split; [eapply store_shrinks_total_ok; eauto|].
    split; [apply store_shrinks_counter_upper; exact H1 | discriminate].
Qed.

Lemma run_invariants cap rd calls :
  forall sigma k sigma' k',
    run cap rd calls (sigma, k) = Ok (sigma', k') ->
    total_ok sigma k ->
    total_ok sigma' k'
    /\ (counter_upper sigma k -> counter_upper sigma' k')
    /\ (forallb is_order_or_serve calls = true ->
        sigma' = sigma /\ (counter_exact sigma k -> counter_exact sigma' k')).
Proof.
  induction calls as [|c calls IH]; intros sigma k sigma' k' H Hok; simpl in H.
  - inversion H; subst. auto.
  - apply bind_Ok in H as ([[s1 k1] r1] & H1 & H).
    apply step_invariants in H1 as (Hok1 & Hup1 & Hex1); [|exact Hok].
    apply IH in H as (Hok2 & Hup2 & Hex2); [|exact Hok1].
    split; [exact Hok2|]. split; [auto|].
    simpl. intros Hall. apply andb_true_iff in Hall as [Hc Hall].
    destruct (Hex1 Hc) as [-> Hex1']. destruct (Hex2 Hall) as [-> Hex2'].
    auto.
Qed.

End SessionFacts.

Module ReleaseFacts.
Import CxxFacts BagFacts RecomputeFacts KitchenFacts Recompute Invariant
  Kitchen.

Lemma prep_times_filter sigma (f : N -> bool) l :
  prep_times sigma l
  = prep_times sigma (List.filter f l)
    + prep_times sigma (List.filter (fun p => negb (f p)) l).
Proof.
  induction l as [|p l IH]; simpl; [reflexivity|].
  destruct (f p); simpl; lia.
Qed.

(** The loop, from the moment the first [i] slots of the original array
    [items0] have been visited: the slots from [i] on still hold what they
    held before the loop, and the kitchen holds the dishes kept among the
    first [i] together with all the later ones. *)
Lemma release_loop_spec sigma prep_time (items0 : list N) (n0 : nat) :
  forall (m i : nat) (k : t) (c : Z) (k' : t) (c' : Z),
    (i + m = n0)%nat ->
    (n0 <= length items0)%nat ->
    release_loop sigma prep_time (seq i m) k c = Ok (k', c') ->
    total_ok sigma k ->
    (forall j, (i <= j)%nat -> ArrayBag.items_ (bag k) !! j = items0 !! j) ->
    ArrayBag.held (bag k)
      ≡ₚ List.filter (fun p => negb (below sigma prep_time p))
           (take i (take n0 items0))
         ++ drop i (take n0 items0) ->
    total_ok sigma k'
    /\ ArrayBag.held (bag k')
         ≡ₚ List.filter (fun p => negb (below sigma prep_time p))
              (take n0 items0)
    /\ c' = c + Z.of_nat
                  (length (List.filter (below sigma prep_time)
                             (drop i (take n0 items0)))).
Proof.
  induction m as [|m IH]; intros i k c k' c' Him Hn0 H Hok Hslots Hheld;
    simpl in H.
  - injection H as <- <-.
    replace i with (length (take n0 items0)) in Hheld
      by (rewrite length_take; lia).
    replace i with (length (take n0 items0))
      by (rewrite length_take; lia).
    rewrite firstn_all, drop_all, app_nil_r in Hheld.
    rewrite drop_all. simpl.
    split; [exact Hok | split; [exact Hheld | lia]].
  - assert (Hi : exists p, items0 !! i = Some p).
    { apply lookup_lt_is_Some. lia. }
    destruct Hi as [p Hp].
    assert (Hp' : take n0 items0 !! i = Some p).
    { apply lookup_take_Some. split; [exact Hp | lia]. }
    assert (Hdrop : drop i (take n0 items0) = p :: drop (S i) (take n0 items0)).
    { apply drop_S. exact Hp'. }
    assert (Htake : take (S i) (take n0 items0)
                    = take i (take n0 items0) ++ [p]).
    { apply take_S_r. exact Hp'. }
    unfold item_at in H. rewrite (Hslots i), Hp in H by lia.
    cbn [Cxx.bind] in H.
    apply bind_Ok in H as (d & Hd & H). apply deref_Ok in Hd.
    assert (Hb : (Dish.getPrepTime (base d) <? prep_time)
                 = below sigma prep_time p).
    { unfold below, prep_time_at. rewrite Hd. reflexivity. }
    rewrite Hb in H. rewrite Hdrop. cbn [List.filter].
    destruct (below sigma prep_time p) eqn:Hbelow.
    + apply bind_Ok in H as (c1 & Hc1 & H).
      apply int_result_Ok in Hc1 as [-> _].
      apply bind_Ok in H as ([k1 r1] & Hs & H).
      pose proof (serveDish_total_ok _ _ _ _ _ Hs Hok) as Hok1.
      apply serveDish_spec in Hs; [|apply Hok].
      destruct Hs as [(_ & _ & Hnot)
                     |(_ & d1 & idx & _ & Hidx & Hperm & _ & _ & _ & Hother & _)].
      { exfalso. apply Hnot. rewrite Hheld, Hdrop.
        apply elem_of_app. right. left. }
      apply getIndexOf_Some in Hidx as [Hidx Hfirst].
      assert (Hle : (idx <= i)%nat).
      { destruct (le_lt_dec idx i) as [|Hlt]; [assumption|exfalso].
        apply (Hfirst i p); [|exact Hlt|reflexivity].
        apply held_lookup in Hidx as [_ Hcount].
        apply held_lookup. split; [|lia]. rewrite Hslots by lia. exact Hp. }
      apply IH in H; [| lia | exact Hn0 | exact Hok1 | |].
      * destruct H as (Hok' & Hheld' & ->).
        split; [exact Hok' | split; [exact Hheld' |]]. cbn [length]. lia.
      * intros j Hj. rewrite Hother by lia. apply Hslots. lia.
      * rewrite Htake, List.filter_app. cbn [List.filter]. rewrite Hbelow.
        cbn [negb]. rewrite app_nil_r.
        rewrite Hheld, Hdrop in Hperm.
        rewrite <- Permutation_middle in Hperm.
        apply Permutation_cons_inv in Hperm. symmetry. exact Hperm.
    + apply IH in H; [| lia | exact Hn0 | exact Hok | |].
      * exact H.
      * intros j Hj. apply Hslots. lia.
      * rewrite Htake, List.filter_app. cbn [List.filter]. rewrite Hbelow.
        cbn [negb]. rewrite <- app_assoc. cbn [app].
        rewrite Hheld, Hdrop. reflexivity.
Qed.

End ReleaseFacts.

Module FloatFacts.

(** *** Binary digits *)

Lemma digits2_pos_size (m : positive) : digits2_pos m = Pos.size m.
Proof. induction m; simpl; congruence. Qed.

Lemma digits2_pos_log2 (m : positive) :
  Z.pos (digits2_pos m) = Z.log2 (Z.pos m) + 1.
Proof.
  rewrite digits2_pos_size. destruct m; simpl; try reflexivity;
    rewrite Pos2Z.inj_succ; lia.
Qed.

Lemma digits2_pos_bounds (m : positive) :
  2 ^ (Z.pos (digits2_pos m) - 1) <= Z.pos m < 2 ^ Z.pos (digits2_pos m).
Proof.
  rewrite digits2_pos_log2.
  replace (Z.log2 (Z.pos m) + 1 - 1) with (Z.log2 (Z.pos m)) by lia.
  apply Z.log2_spec. lia.
Qed.

Lemma digits2_pos_unique (m : positive) (d : Z) :
  2 ^ (d - 1) <= Z.pos m < 2 ^ d -> Z.pos (digits2_pos m) = d.
Proof.
  intros H. rewrite digits2_pos_log2.
  assert (0 < d).
  { destruct (Z.lt_trichotomy d 0) as [Hd|[->|Hd]]; [| |exact Hd].
    - rewrite (Z.pow_neg_r 2 d) in H by lia. lia.
    - simpl in H. lia. }
  rewrite (Z.log2_unique (Z.pos m) (d - 1)); [lia | lia |].
  replace (Z.succ (d - 1)) with d by lia. exact H.
Qed.

Lemma Zdigits2_pos (m : positive) : Zdigits2 (Z.pos m) = Z.pos (digits2_pos m).
Proof. reflexivity. Qed.

(** *** Shifting a mantissa to the left *)

Lemma iter_xO (m d : positive) :
  Z.pos (Pos.iter xO m d) = Z.pos m * 2 ^ Z.pos d.
Proof.
  induction d as [|d IH] using Pos.peano_ind.
  - simpl. lia.
  - rewrite Pos.iter_succ, Pos2Z.inj_succ, Z.pow_succ_r by lia.
    rewrite Pos2Z.inj_xO, IH. lia.
Qed.

Lemma shl_align_spec (mx : positive) (ex ex' : Z) :
  ex' <= ex ->
  shl_align mx ex ex'
  = (Z.to_pos (Z.pos mx * 2 ^ (ex - ex')), ex').
Proof.
  intros H. unfold shl_align.
  destruct (ex' - ex) as [|d|d] eqn:E; try lia.
  - replace (ex - ex') with 0 by lia. replace ex' with ex by lia.
    rewrite Z.mul_1_r. reflexivity.
  - replace (ex - ex') with (Z.pos d) by lia.
    rewrite <- iter_xO. reflexivity.
Qed.

Lemma shl_align_id (mx : positive) (ex ex' : Z) :
  ex <= ex' -> shl_align mx ex ex' = (mx, ex).
Proof.
  intros H. unfold shl_align. destruct (ex' - ex) eqn:E; try reflexivity. lia.
Qed.

Lemma shr_record_of_loc_inv (r : shr_record) :
  shr_record_of_loc (shr_m r) (loc_of_shr_record r) = r.
Proof. destruct r as [m [|] [|]]; reflexivity. Qed.

Lemma loc_of_shr_record_of_loc (m : Z) (l : location) :
  loc_of_shr_record (shr_record_of_loc m l) = l
  /\ shr_m (shr_record_of_loc m l) = m.
Proof. destruct l as [|[| |]]; split; reflexivity. Qed.

(** One shift to the right halves the mantissa and doubles the
    denominator. *)
Lemma shr_1_locates (r : shr_record) (num den : Z) :
  0 <= shr_m r -> 0 < den ->
  locates (shr_m r) (loc_of_shr_record r) num den ->
  0 <= shr_m (shr_1 r)
  /\ 2 * shr_m (shr_1 r) <= shr_m r <= 2 * shr_m (shr_1 r) + 1
  /\ locates (shr_m (shr_1 r)) (loc_of_shr_record (shr_1 r)) num (2 * den).
Proof.
  destruct r as [m rb sb]. cbn [shr_m]. intros Hm Hden H.
  destruct m as [|[p|p|]|p]; [| | | |lia].
  - destruct rb, sb; cbn [shr_1 shr_m loc_of_shr_record locates orb] in *;
      lia.
  - assert (E := Pos2Z.inj_xI p).
    destruct rb, sb; cbn [shr_1 shr_m loc_of_shr_record locates orb] in *;
      rewrite E in *; nia.
  - assert (E := Pos2Z.inj_xO p).
    destruct rb, sb; cbn [shr_1 shr_m loc_of_shr_record locates orb] in *;
      rewrite E in *; nia.
  - destruct rb, sb; cbn [shr_1 shr_m loc_of_shr_record locates orb] in *;
      lia.
Qed.

(** Iterating a step that advances an invariant indexed by an integer. *)
Lemma iter_pos_invariant {A : Type} (f : A -> A) (P : Z -> A -> Prop) :
  (forall k x, 0 <= k -> P k x -> P (k + 1) (f x)) ->
  forall (n : positive) (k : Z) (x : A),
    0 <= k -> P k x -> P (k + Z.pos n) (SpecFloat.iter_pos f n x).
Proof.
  intros Hstep. induction n as [n IH|n IH|]; intros k x Hk Hx; simpl.
  - replace (k + Z.pos n~1) with (k + 1 + Z.pos n + Z.pos n) by lia.
    apply IH; [lia|]. apply IH; [lia|]. apply Hstep; assumption.
  - replace (k + Z.pos n~0) with (k + Z.pos n + Z.pos n) by lia.
    apply IH; [lia|]. apply IH; assumption.
  - apply Hstep; assumption.
Qed.

(** Shifting [n] places to the right. *)
Lemma shr_locates (m : Z) (l : location) (e n num den : Z) :
  0 <= m -> 0 < den -> 0 <= n ->
  locates m l num den ->
  exists r,
    shr (shr_record_of_loc m l) e n = (r, e + n)
    /\ 0 <= shr_m r
    /\ 2 ^ n * shr_m r <= m < 2 ^ n * (shr_m r + 1)
    /\ locates (shr_m r) (loc_of_shr_record r) num (2 ^ n * den).
Proof.
  intros Hm Hden Hn Hloc.
  destruct (loc_of_shr_record_of_loc m l) as [El Em].
  destruct n as [|n|n]; [| |lia].
  - exists (shr_record_of_loc m l). simpl. rewrite Z.add_0_r, El, Em.
    repeat split; try lia.
    replace (2 ^ 0 * den) with den by (rewrite Z.pow_0_r; lia). exact Hloc.
  - exists (SpecFloat.iter_pos shr_1 n (shr_record_of_loc m l)).
    split; [reflexivity|].
    pose (P := fun (k : Z) (r : shr_record) =>
                 0 <= shr_m r
                 /\ 2 ^ k * shr_m r <= m < 2 ^ k * (shr_m r + 1)
                 /\ locates (shr_m r) (loc_of_shr_record r) num (2 ^ k * den)).
    change (P (Z.pos n) (SpecFloat.iter_pos shr_1 n (shr_record_of_loc m l))).
    replace (Z.pos n) with (0 + Z.pos n) at 1 by lia.
    apply iter_pos_invariant; [|lia|].
    + intros k r Hk (H0 & Hb & Hl).
      destruct (shr_1_locates r num (2 ^ k * den) H0) as (H0' & Hb' & Hl');
        [nia | exact Hl |].
      unfold P. rewrite Z.pow_add_r, Z.pow_1_r by lia.
      assert (0 < 2 ^ k) by (apply Z.pow_pos_nonneg; lia).
      split; [exact H0'|]. split; [nia|].
      replace (2 ^ k * 2 * den) with (2 * (2 ^ k * den)) by lia. exact Hl'.
    + unfold P. rewrite El, Em. rewrite Z.pow_0_r. repeat split; try lia.
      replace (1 * den) with den by lia. exact Hloc.
Qed.

(** Rounding to nearest picks the mantissa or its successor, at most half a
    unit away. *)
Lemma round_nearest_even_locates (m : Z) (l : location) (num den : Z) :
  0 < den ->
  locates m l num den ->
  (round_nearest_even m l = m \/ round_nearest_even m l = m + 1)
  /\ - den <= 2 * (round_nearest_even m l * den - num) <= den.
Proof.
  intros Hden H. destruct l as [|[| |]]; simpl in *.
  - split; [left; reflexivity | nia].
  - destruct (Z.even m); split; try (left; reflexivity);
      try (right; reflexivity); nia.
  - split; [left; reflexivity | nia].
  - split; [right; reflexivity | nia].
Qed.

(** *** Rounding a located mantissa to binary64

    The mantissa [mx] has at least 53 digits and [num / den] lies between
    [mx] and [mx + 1] as [lx] says; the exact value is [num / den * 2^ex].
    In the normal range the result is a finite number with a 53-digit
    mantissa, at most half a unit in the last place away from it. *)
Lemma binary_round_aux_normal (sx : bool) (mx : positive) (ex : Z)
    (lx : location) (num den : Z) :
  0 < den ->
  locates (Z.pos mx) lx num den ->
  53 <= Z.pos (digits2_pos mx) ->
  -1074 <= Z.pos (digits2_pos mx) + ex - 53 ->
  Z.pos (digits2_pos mx) + ex <= 1023 ->
  exists (M : positive) (E : Z),
    binary_round_aux prec emax sx (Z.pos mx) ex lx = S754_finite sx M E
    /\ 2 ^ 52 <= Z.pos M < 2 ^ 53
    /\ Z.pos (digits2_pos mx) + ex - 53 <= E
       <= Z.pos (digits2_pos mx) + ex - 52
    /\ - (2 ^ (Z.pos (digits2_pos mx) - 53) * den)
       <= 2 * (Z.pos M * 2 ^ (E - ex) * den - num)
       <= 2 ^ (Z.pos (digits2_pos mx) - 53) * den.
Proof.
  intros Hden Hloc Hd Hmin Hmax.
  pose proof (digits2_pos_bounds mx) as Hdig.
  set (d := Z.pos (digits2_pos mx)) in *.
  unfold binary_round_aux, shr_fexp. rewrite Zdigits2_pos. fold d.
  assert (Hfexp : fexp prec emax (d + ex) - ex = d - 53).
  { unfold fexp, emin, prec, emax. lia. }
  rewrite Hfexp.
  destruct (shr_locates (Z.pos mx) lx ex (d - 53) num den)
    as (r & Hshr & H0 & Hb & Hl); [lia | exact Hden | lia | exact Hloc |].
  rewrite Hshr.
  assert (Hpow : 0 < 2 ^ (d - 53)) by (apply Z.pow_pos_nonneg; lia).
  assert (Hp52 : 2 ^ (d - 1) = 2 ^ (d - 53) * 2 ^ 52)
    by (rewrite <- Z.pow_add_r by lia; f_equal; lia).
  assert (Hp53 : 2 ^ d = 2 ^ (d - 53) * 2 ^ 53)
    by (rewrite <- Z.pow_add_r by lia; f_equal; lia).
  assert (Hr : 2 ^ 52 <= shr_m r < 2 ^ 53).
  { rewrite Hp52, Hp53 in Hdig. split; nia. }
  destruct (round_nearest_even_locates (shr_m r) (loc_of_shr_record r) num
              (2 ^ (d - 53) * den)) as (Hcase & Hnear); [nia | exact Hl |].
  set (Mr := round_nearest_even (shr_m r) (loc_of_shr_record r)) in *.
  assert (HMr : 2 ^ 52 <= Mr <= 2 ^ 53) by lia.
  destruct Mr as [|M|M] eqn:EM; [lia | | lia].
  destruct (Z.eq_dec (Z.pos M) (2 ^ 53)) as [Etop|Hlt].
  - (* the rounding carried into a 54th digit *)
    change (2 ^ 53) with 9007199254740992 in Etop.
    injection Etop as ->.
    exists (Z.to_pos (2 ^ 52)), (ex + (d - 53) + 1).
    split.
    { replace (fexp prec emax
                 (Zdigits2 9007199254740992 + (ex + (d - 53)))
               - (ex + (d - 53))) with 1.
      2:{ change (Zdigits2 9007199254740992) with 54.
          unfold fexp, emin, prec, emax. lia. }
      cbn [shr shr_record_of_loc SpecFloat.iter_pos shr_1 shr_m].
      unfold emax, prec.
      destruct (Z.leb_spec (ex + (d - 53) + 1) (1024 - 53)); [|lia].
      reflexivity. }
    split; [simpl; lia|]. split; [lia|].
    replace (ex + (d - 53) + 1 - ex) with (d - 53 + 1) by lia.
    rewrite Z.pow_add_r, Z.pow_1_r by lia.
    change (Z.pos (Z.to_pos (2 ^ 52))) with (2 ^ 52).
    change (2 ^ 52) with 4503599627370496.
    change (Z.pos 9007199254740992) with 9007199254740992 in Hnear. lia.
  - exists M, (ex + (d - 53)).
    assert (HM : Z.pos (digits2_pos M) = 53)
      by (apply digits2_pos_unique; change (53 - 1) with 52; lia).
    split.
    { rewrite Zdigits2_pos, HM.
      replace (fexp prec emax (53 + (ex + (d - 53))) - (ex + (d - 53)))
        with 0 by (unfold fexp, emin, prec, emax; lia).
      cbn [shr shr_record_of_loc shr_m].
      unfold emax, prec.
      destruct (Z.leb_spec (ex + (d - 53)) (1024 - 53)); [|lia].
      reflexivity. }
    split; [lia|]. split; [lia|].
    replace (ex + (d - 53) - ex) with (d - 53) by lia. lia.
Qed.

End FloatFacts.

Module Binary64Facts.
Import FloatFacts.

Lemma pow2_pos (k : Z) : 0 <= k -> 0 < 2 ^ k.
Proof. intros. apply Z.pow_pos_nonneg; lia. Qed.

Lemma pow2_split (a b : Z) : 0 <= a -> 0 <= b -> 2 ^ (a + b) = 2 ^ a * 2 ^ b.
Proof. intros. apply Z.pow_add_r; assumption. Qed.

(** A mantissa [m] at exponent [e] whose value is [c * 2^E] for a 53-digit
    [c] rounds to exactly that. *)
Lemma binary_round_exact (s : bool) (m : positive) (e : Z) (c : positive)
    (E : Z) :
  2 ^ 52 <= Z.pos c < 2 ^ 53 ->
  Z.pos m * 2 ^ (e - Z.min e E) = Z.pos c * 2 ^ (E - Z.min e E) ->
  -1074 <= E <= 970 ->
  binary_round prec emax s m e = S754_finite s c E.
Proof.
  intros Hc Hval HE.
  pose proof (digits2_pos_bounds m) as Hdig.
  set (d := Z.pos (digits2_pos m)) in *.
  assert (Hd1 : 1 <= d) by (unfold d; lia).
  (* the number of digits is fixed by the value *)
  assert (Hde : d + e = 53 + E).
  { set (lo := Z.min e E) in *.
    assert (Ha : 0 <= e - lo) by lia. assert (Hb : 0 <= E - lo) by lia.
    assert (H1 : 2 ^ (d - 1 + (e - lo)) < 2 ^ (53 + (E - lo))).
    { rewrite !pow2_split by lia.
      pose proof (pow2_pos (e - lo) Ha). pose proof (pow2_pos (E - lo) Hb).
      nia. }
    assert (H2 : 2 ^ (52 + (E - lo)) < 2 ^ (d + (e - lo))).
    { rewrite !pow2_split by lia.
      pose proof (pow2_pos (e - lo) Ha). pose proof (pow2_pos (E - lo) Hb).
      nia. }
    apply Z.pow_lt_mono_r_iff in H1; [|lia|lia].
    apply Z.pow_lt_mono_r_iff in H2; [|lia|lia]. lia. }
  unfold binary_round. fold d.
  assert (Hfexp : fexp prec emax (d + e) = E)
    by (unfold fexp, emin, prec, emax; lia).
  rewrite Hfexp.
  destruct (Z.le_gt_cases E e) as [Hle|Hgt].
  - (* the mantissa is shifted to the left and has 53 digits *)
    rewrite shl_align_spec by exact Hle.
    replace (Z.min e E) with E in Hval by lia.
    replace (E - E) with 0 in Hval by lia. rewrite Z.mul_1_r in Hval.
    rewrite Hval. rewrite Pos2Z.id.
    assert (Hdc : Z.pos (digits2_pos c) = 53)
      by (apply digits2_pos_unique; change (53 - 1) with 52; exact Hc).
    destruct (binary_round_aux_normal s c E loc_Exact (Z.pos c) 1)
      as (M & E' & Hr & HM & HE' & Hnear);
      [lia | simpl; lia | lia | lia | lia |].
    rewrite Hr. rewrite Hdc in HE', Hnear.
    change (2 ^ (53 - 53)) with 1 in Hnear.
    assert (E' = E \/ E' = E + 1) as [->| ->] by lia.
    + replace (E - E) with 0 in Hnear by lia. simpl in Hnear.
      f_equal. lia.
    + replace (E + 1 - E) with 1 in Hnear by lia. simpl in Hnear. lia.
  - (* the mantissa has more than 53 digits, the low ones all zero *)
    rewrite shl_align_id by lia.
    replace (Z.min e E) with e in Hval by lia.
    replace (e - e) with 0 in Hval by lia. rewrite Z.mul_1_r in Hval.
    destruct (binary_round_aux_normal s m e loc_Exact (Z.pos m) 1)
      as (M & E' & Hr & HM & HE' & Hnear);
      [lia | simpl; lia | fold d; lia | fold d; lia | fold d; lia |].
    fold d in HE', Hnear. rewrite Hr.
    replace (d - 53) with (E - e) in Hnear by lia.
    pose proof (pow2_pos (E - e) ltac:(lia)) as HP.
    assert (E' = E \/ E' = E + 1) as [->| ->] by lia.
    + f_equal. rewrite Hval in Hnear. nia.
    + exfalso. replace (E + 1 - e) with (E - e + 1) in Hnear by lia.
      rewrite pow2_split, Z.pow_1_r in Hnear by lia.
      rewrite Hval in Hnear. nia.
Qed.

Lemma canonical_mantissa_bounds (p : positive) :
  Z.pos p < 2 ^ 53 ->
  2 ^ 52 <= Z.pos p * 2 ^ (53 - Z.pos (digits2_pos p)) < 2 ^ 53
  /\ 1 <= Z.pos (digits2_pos p) <= 53.
Proof.
  intros Hp. pose proof (digits2_pos_bounds p) as Hdig.
  set (d := Z.pos (digits2_pos p)) in *.
  assert (Hd1 : 1 <= d) by (unfold d; lia).
  assert (Hd : d <= 53).
  { destruct (Z.le_gt_cases d 53) as [|Hgt]; [assumption|exfalso].
    assert (2 ^ 53 <= 2 ^ (d - 1)) by (apply Z.pow_le_mono_r; lia). lia. }
  split; [|lia].
  pose proof (pow2_pos (53 - d) ltac:(lia)) as HP.
  assert (H52 : 2 ^ 52 = 2 ^ (d - 1) * 2 ^ (53 - d))
    by (rewrite <- pow2_split by lia; f_equal; lia).
  assert (H53 : 2 ^ 53 = 2 ^ d * 2 ^ (53 - d))
    by (rewrite <- pow2_split by lia; f_equal; lia).
  rewrite H52, H53. clear H52 H53 Hp. nia.
Qed.

(** The conversion from [int] yields the canonical number. *)
Lemma binary_normalize_canonical (z k : Z) :
  Z.abs z < 2 ^ 53 -> 0 <= k <= 1000 ->
  binary_normalize prec emax (z * 2 ^ k) (- k) false = Double.canonical z.
Proof.
  intros Hz Hk. pose proof (pow2_pos k ltac:(lia)) as HP.
  assert (Hcase : forall (s : bool) (p : positive),
             Z.pos p < 2 ^ 53 ->
             binary_round prec emax s (Z.to_pos (Z.pos p * 2 ^ k)) (- k)
             = S754_finite s
                 (Z.to_pos (Z.pos p * 2 ^ (53 - Z.pos (digits2_pos p))))
                 (Z.pos (digits2_pos p) - 53)).
  { intros s p Hp.
    destruct (canonical_mantissa_bounds p Hp) as [Hm Hd].
    set (d := Z.pos (digits2_pos p)) in *.
    apply binary_round_exact.
    - rewrite Z2Pos.id by lia. exact Hm.
    - rewrite !Z2Pos.id by nia.
      destruct (Z.le_gt_cases (- k) (d - 53)) as [Hle|Hgt].
      + rewrite Z.min_l by exact Hle.
        replace (- k - - k) with 0 by lia.
        replace (d - 53 - - k) with (k + (d - 53)) by lia.
        rewrite Z.mul_1_r, <- Z.mul_assoc, <- pow2_split by lia.
        do 2 f_equal. lia.
      + rewrite Z.min_r by lia.
        replace (d - 53 - (d - 53)) with 0 by lia.
        replace (- k - (d - 53)) with (53 - d - k) by lia.
        rewrite Z.mul_1_r, <- Z.mul_assoc, <- pow2_split by lia.
        do 2 f_equal. lia.
    - lia. }
  destruct z as [|p|p]; simpl Z.mul.
  - reflexivity.
  - unfold binary_normalize.
    assert (E : Z.pos p * 2 ^ k = Z.pos (Z.to_pos (Z.pos p * 2 ^ k)))
      by (rewrite Z2Pos.id; nia).
    rewrite E. apply Hcase. exact Hz.
  - unfold binary_normalize.
    assert (E : Z.neg p * 2 ^ k = Z.neg (Z.to_pos (Z.pos p * 2 ^ k))).
    { rewrite <- (Pos2Z.opp_pos (Z.to_pos (Z.pos p * 2 ^ k))).
      rewrite Z2Pos.id by nia. rewrite <- (Pos2Z.opp_pos p). lia. }
    rewrite E. apply Hcase. exact Hz.
Qed.

Lemma of_int_canonical (z : Z) :
  Z.abs z < 2 ^ 53 -> Double.of_int z = Double.canonical z.
Proof.
  intros Hz. unfold Double.of_int.
  rewrite <- (binary_normalize_canonical z 0) by lia.
  rewrite Z.mul_1_r. reflexivity.
Qed.

(** The shape of the canonical number of a non-zero integer. *)
Lemma canonical_finite (z : Z) :
  z <> 0 -> Z.abs z < 2 ^ 53 ->
  exists (m : positive) (e : Z),
    Double.canonical z = S754_finite (z <? 0) m e
    /\ 2 ^ 52 <= Z.pos m < 2 ^ 53
    /\ -52 <= e <= 0
    /\ Z.pos m = Z.abs z * 2 ^ (- e)
    /\ Z.pos (digits2_pos m) = 53
    /\ 2 ^ (52 + e) <= Z.abs z < 2 ^ (53 + e).
Proof.
  intros Hz Hlt.
  assert (Hcase : forall p : positive,
             Z.pos p < 2 ^ 53 ->
             let m := Z.to_pos (Z.pos p * 2 ^ (53 - Z.pos (digits2_pos p))) in
             let e := Z.pos (digits2_pos p) - 53 in
             2 ^ 52 <= Z.pos m < 2 ^ 53
             /\ -52 <= e <= 0
             /\ Z.pos m = Z.pos p * 2 ^ (- e)
             /\ Z.pos (digits2_pos m) = 53
             /\ 2 ^ (52 + e) <= Z.pos p < 2 ^ (53 + e)).
  { intros p Hp m e. unfold m, e.
    destruct (canonical_mantissa_bounds p Hp) as [Hm Hd].
    pose proof (digits2_pos_bounds p) as Hdig.
    rewrite Z2Pos.id by lia.
    replace (- (Z.pos (digits2_pos p) - 53)) with (53 - Z.pos (digits2_pos p))
      by lia.
    replace (52 + (Z.pos (digits2_pos p) - 53))
      with (Z.pos (digits2_pos p) - 1) by lia.
    replace (53 + (Z.pos (digits2_pos p) - 53))
      with (Z.pos (digits2_pos p)) by lia.
    repeat split; try lia.
    apply digits2_pos_unique. rewrite Z2Pos.id by lia.
    change (53 - 1) with 52. exact Hm. }
  destruct z as [|p|p]; [congruence| |].
  - destruct (Hcase p Hlt) as (H1 & H2 & H3 & H4 & H5).
    eexists _, _. split; [reflexivity|]. auto.
  - destruct (Hcase p Hlt) as (H1 & H2 & H3 & H4 & H5).
    eexists _, _. split; [reflexivity|]. auto.
Qed.

(** Adding two integers in binary64 is exact as long as the sum has at most
    53 binary digits. *)
Lemma add_canonical (a b : Z) :
  Z.abs a < 2 ^ 53 -> Z.abs b < 2 ^ 53 -> Z.abs (a + b) < 2 ^ 53 ->
  SF64add (Double.canonical a) (Double.canonical b) = Double.canonical (a + b).
Proof.
  intros Ha Hb Hab.
  destruct (Z.eq_dec a 0) as [->|Ha0].
  { destruct b; reflexivity. }
  destruct (Z.eq_dec b 0) as [->|Hb0].
  { rewrite Z.add_0_r. destruct a; reflexivity. }
  destruct (canonical_finite a Ha0 Ha) as (ma & ea & -> & _ & Hea & Hma & _).
  destruct (canonical_finite b Hb0 Hb) as (mb & eb & -> & _ & Heb & Hmb & _).
  unfold SF64add, SFadd.
  rewrite !shl_align_spec by lia. cbn [fst].
  set (ez := Z.min ea eb).
  pose proof (pow2_pos (ea - ez) ltac:(lia)) as HPa.
  pose proof (pow2_pos (eb - ez) ltac:(lia)) as HPb.
  rewrite !Z2Pos.id by nia.
  assert (Ea : cond_Zopp (a <? 0) (Z.pos ma * 2 ^ (ea - ez)) = a * 2 ^ (- ez)).
  { rewrite Hma, <- Z.mul_assoc, <- pow2_split by lia.
    replace (- ea + (ea - ez)) with (- ez) by lia.
    unfold cond_Zopp. destruct (Z.ltb_spec a 0); nia. }
  assert (Eb : cond_Zopp (b <? 0) (Z.pos mb * 2 ^ (eb - ez)) = b * 2 ^ (- ez)).
  { rewrite Hmb, <- Z.mul_assoc, <- pow2_split by lia.
    replace (- eb + (eb - ez)) with (- ez) by lia.
    unfold cond_Zopp. destruct (Z.ltb_spec b 0); nia. }
  rewrite Ea, Eb, <- Z.mul_add_distr_r.
  replace ez with (- (- ez)) at 2 by lia.
  apply binary_normalize_canonical; [exact Hab | lia].
Qed.

(** The location of a quotient. *)
Lemma new_location_locates (den r q num : Z) :
  0 < den -> 0 <= r < den -> num = q * den + r ->
  locates q (new_location den r) num den.
Proof.
  intros Hden Hr ->. unfold new_location.
  destruct (Z.even den) eqn:Eev.
  - unfold new_location_even. destruct (Z.eqb_spec r 0) as [->|Hr0].
    + simpl. lia.
    + destruct (Z.compare_spec (2 * r) den); simpl; lia.
  - unfold new_location_odd. destruct (Z.eqb_spec r 0) as [->|Hr0].
    + simpl. lia.
    + assert (Hodd : Z.odd den = true)
        by (rewrite <- Z.negb_even, Eev; reflexivity).
      apply Z.odd_spec in Hodd as [h Hh].
      destruct (Z.compare_spec (2 * r + 1) den); simpl; lia.
Qed.

(** Dividing two integers in binary64: a 53-digit mantissa [M] at an
    exponent [E], at most half a unit of [2^Eq] away from the quotient, where
    [Eq] is [E] or, when the rounding carried, [E - 1]. *)
Lemma div_canonical (a b : Z) :
  a <> 0 -> Z.abs a < 2 ^ 53 -> 0 < b < 2 ^ 53 ->
  exists (M : positive) (E Eq : Z),
    SF64div (Double.canonical a) (Double.canonical b)
    = S754_finite (a <? 0) M E
    /\ 2 ^ 52 <= Z.pos M < 2 ^ 53
    /\ -106 <= Eq <= 0
    /\ Eq <= E <= Eq + 1
    /\ - b <= 2 * (Z.pos M * 2 ^ (E - Eq) * b - Z.abs a * 2 ^ (- Eq)) <= b.
Proof.
  intros Ha0 Ha Hb.
  destruct (canonical_finite a Ha0 Ha)
    as (ma & ea & -> & Hma52 & Hea & Hma & Hda & _).
  destruct (canonical_finite b ltac:(lia) ltac:(lia))
    as (mb & eb & -> & Hmb52 & Heb & Hmb & Hdb & _).
  replace (b <? 0) with false by (symmetry; apply Z.ltb_ge; lia).
  replace (Z.abs b) with b in Hmb by lia.
  unfold SF64div, SFdiv, SFdiv_core_binary.
  rewrite !Zdigits2_pos, Hda, Hdb, xorb_false_r.
  replace (Z.min (fexp prec emax (53 + ea - (53 + eb))) (ea - eb))
    with (ea - eb - 53) by (unfold fexp, emin, prec, emax; lia).
  replace (ea - eb - (ea - eb - 53)) with 53 by lia.
  rewrite Z.shiftl_mul_pow2 by lia.
  pose proof (Z_div_mod (Z.pos ma * 2 ^ 53) (Z.pos mb) ltac:(lia)) as Hdiv.
  destruct (Z.div_eucl (Z.pos ma * 2 ^ 53) (Z.pos mb)) as [q r].
  destruct Hdiv as [Hqr Hr].
  assert (Hq : 2 ^ 52 <= q < 2 ^ 54).
  { change (2 ^ 52) with 4503599627370496 in *.
    change (2 ^ 53) with 9007199254740992 in *.
    change (2 ^ 54) with 18014398509481984. split; nia. }
  destruct q as [|mq|mq]; [simpl in Hq; lia | | lia].
  assert (Hdq : 53 <= Z.pos (digits2_pos mq) <= 54).
  { pose proof (digits2_pos_bounds mq) as Hd.
    split.
    - destruct (Z.le_gt_cases 53 (Z.pos (digits2_pos mq))) as [|Hlt];
        [assumption|exfalso].
      assert (2 ^ Z.pos (digits2_pos mq) <= 2 ^ 52)
        by (apply Z.pow_le_mono_r; lia). lia.
    - destruct (Z.le_gt_cases (Z.pos (digits2_pos mq)) 54) as [|Hgt];
        [assumption|exfalso].
      assert (2 ^ 54 <= 2 ^ (Z.pos (digits2_pos mq) - 1))
        by (apply Z.pow_le_mono_r; lia). lia. }
  destruct (binary_round_aux_normal (a <? 0) mq (ea - eb - 53)
              (new_location (Z.pos mb) r) (Z.pos ma * 2 ^ 53) (Z.pos mb))
    as (M & E & Hres & HM & HE & Hnear); [lia | | lia | lia | lia |].
  { apply new_location_locates; lia. }
  set (dq := Z.pos (digits2_pos mq)) in *.
  exists M, E, (dq + (ea - eb - 53) - 53).
  split; [exact Hres|]. split; [exact HM|]. split; [lia|]. split; [lia|].
  (* from mantissas back to the integers *)
  set (Eq := dq + (ea - eb - 53) - 53) in *.
  assert (HEq : - Eq = (- ea) + (52 + eb) + (54 - dq)) by (unfold Eq; lia).
  pose proof (pow2_pos (- ea) ltac:(lia)) as HPa.
  pose proof (pow2_pos (- eb) ltac:(lia)) as HPb.
  pose proof (pow2_pos (dq - 53) ltac:(lia)) as HPj.
  pose proof (pow2_pos (E - Eq) ltac:(lia)) as HPk.
  replace (E - (ea - eb - 53)) with ((E - Eq) + (dq - 53)) in Hnear
    by (unfold Eq; lia).
  rewrite pow2_split in Hnear by lia.
  rewrite Hma, Hmb in Hnear.
  assert (Hscale : 2 ^ (- ea) * 2 ^ 53 = 2 ^ (- Eq) * (2 ^ (dq - 53) * 2 ^ (- eb))).
  { rewrite <- !pow2_split by lia. f_equal. lia. }
  set (A := Z.abs a) in *. set (Pa := 2 ^ (- ea)) in *.
  set (Pb := 2 ^ (- eb)) in *. set (Pj := 2 ^ (dq - 53)) in *.
  set (Pk := 2 ^ (E - Eq)) in *. set (P := 2 ^ (- Eq)) in *.
  set (m := Z.pos M) in *.
  assert (Hnum : A * Pa * 2 ^ 53 = A * P * (Pj * Pb)) by nia.
  rewrite Hnum in Hnear.
  assert (Hfac : 0 < Pj * Pb) by nia.
  assert (Hl : m * (Pk * Pj) * (b * Pb) - A * P * (Pj * Pb)
               = (m * Pk * b - A * P) * (Pj * Pb)) by ring.
  rewrite Hl in Hnear.
  assert (Hr' : Pj * (b * Pb) = b * (Pj * Pb)) by ring.
  rewrite Hr' in Hnear.
  split; nia.
Qed.

(** *** [round] and the conversion to [int] *)

Lemma to_int_canonical (z : Z) :
  Z.abs z < 2 ^ 53 -> Double.to_int (Double.canonical z) = int_result z.
Proof.
  intros Hz. destruct (Z.eq_dec z 0) as [->|Hz0]; [reflexivity|].
  destruct (canonical_finite z Hz0 Hz) as (m & e & -> & _ & He & Hm & _).
  unfold Double.to_int. rewrite Hm.
  pose proof (pow2_pos (- e) ltac:(lia)) as HP.
  assert (Hn : (if 0 <=? e then Z.abs z * 2 ^ (- e) * 2 ^ e
                else Z.abs z * 2 ^ (- e) / 2 ^ (- e)) = Z.abs z).
  { destruct (Z.leb_spec 0 e).
    - replace e with 0 by lia. simpl. lia.
    - apply Z.div_mul. lia. }
  rewrite Hn. f_equal. destruct (Z.ltb_spec z 0); lia.
Qed.

Lemma round_finite (s : bool) (M : positive) (E : Z) :
  2 ^ 52 <= Z.pos M < 2 ^ 53 -> -1000 <= E <= 0 ->
  Double.round (S754_finite s M E)
  = if rounded_magnitude (Z.pos M) E =? 0 then S754_zero s
    else Double.canonical (if s then - rounded_magnitude (Z.pos M) E
                           else rounded_magnitude (Z.pos M) E).
Proof.
  intros HM HE. unfold Double.round, rounded_magnitude.
  destruct (Z.leb_spec 0 E) as [H0|Hneg].
  - (* an integer already *)
    replace E with 0 by lia. change (2 ^ (- 0)) with 1.
    replace ((2 * Z.pos M + 1) / (2 * 1)) with (Z.pos M)
      by (apply Z.div_unique with (r := 1); lia).
    assert (Hd : Z.pos (digits2_pos M) = 53)
      by (apply digits2_pos_unique; change (53 - 1) with 52; exact HM).
    destruct s; simpl; rewrite Hd; simpl; rewrite Pos.mul_1_r; reflexivity.
  - pose proof (pow2_pos (- E) ltac:(lia)) as HP.
    set (d := 2 ^ (- E)) in *.
    assert (Hd2 : 2 <= d).
    { unfold d. replace (- E) with (1 + (- E - 1)) by lia.
      rewrite pow2_split by lia.
      pose proof (pow2_pos (- E - 1) ltac:(lia)). change (2 ^ 1) with 2. lia. }
    pose proof (Z.div_mod (Z.pos M) d ltac:(lia)) as Hdm.
    pose proof (Z.mod_pos_bound (Z.pos M) d ltac:(lia)) as Hr.
    set (q := Z.pos M / d) in *. set (r := Z.pos M mod d) in *.
    assert (Hn : (if d <=? 2 * r then q + 1 else q) = (2 * Z.pos M + d) / (2 * d)).
    { destruct (Z.leb_spec d (2 * r)).
      - apply Z.div_unique with (r := 2 * r - d); lia.
      - apply Z.div_unique with (r := 2 * r + d); lia. }
    rewrite Hn. set (nn := (2 * Z.pos M + d) / (2 * d)) in *.
    assert (Hnn : 0 <= nn < 2 ^ 53).
    { assert (0 <= q) by (unfold q; apply Z.div_pos; lia).
      assert (q * 2 <= Z.pos M) by nia.
      destruct (Z.leb_spec d (2 * r)); lia. }
    destruct (Z.eqb_spec nn 0) as [->|Hnz].
    + destruct s; reflexivity.
    + rewrite <- (binary_normalize_canonical _ 0) by (destruct s; lia).
      rewrite Z.mul_1_r. change (- 0) with 0.
      destruct s.
      * destruct nn; try lia; reflexivity.
      * destruct nn; try lia; reflexivity.
Qed.

(** Rounding the rounded quotient gives the rounding of the quotient, when a
    unit in the last place of the quotient is smaller than [1 / n]. *)
Lemma round_half_away_nearest (A n Mr P' : Z) :
  0 <= A -> 0 < n -> n < 2 * P' ->
  - n <= 2 * (Mr * n - A * (2 * P')) <= n ->
  (2 * Mr + 2 * P') / (2 * (2 * P')) = (2 * A + n) / (2 * n).
Proof.
  intros HA Hn HP Hnear.
  pose proof (Z.div_mod (2 * A + n) (2 * n) ltac:(lia)) as Hdm.
  pose proof (Z.mod_pos_bound (2 * A + n) (2 * n) ltac:(lia)) as Hr.
  set (K := (2 * A + n) / (2 * n)) in *.
  set (R := (2 * A + n) mod (2 * n)) in *.
  assert (HK : 0 <= K) by (unfold K; apply Z.div_pos; lia).
  assert (HP' : 0 < P') by lia.
  assert (Hlow : (2 * n * K - n) * P' <= 2 * A * P')
    by (apply Z.mul_le_mono_nonneg_r; lia).
  assert (Hupp : 2 * A * P' <= (2 * n * K + n - 1) * P')
    by (apply Z.mul_le_mono_nonneg_r; lia).
  assert (H1 : 0 <= n * (2 * Mr - 4 * (K * P') + 2 * P' + 1)) by lia.
  assert (H2 : n * (2 * Mr - 4 * (K * P') - 2 * P') < 0) by lia.
  assert (H3 : 0 <= 2 * Mr - 4 * (K * P') + 2 * P' + 1) by nia.
  assert (H4 : 2 * Mr - 4 * (K * P') - 2 * P' < 0) by nia.
  symmetry. apply Z.div_unique with (r := 2 * Mr + 2 * P' - 2 * (2 * P') * K);
    lia.
Qed.

(** Dividing an integer sum by a count, rounding, and converting to [int]
    computes the average rounded half away from zero. *)
Lemma div_round_to_int (a b : Z) :
  Z.abs a <= 2 ^ 51 -> 0 < b < 2 ^ 53 ->
  Double.to_int
    (Double.round (SF64div (Double.canonical a) (Double.canonical b)))
  = int_result (round_half_away a b).
Proof.
  intros Ha Hb. unfold round_half_away.
  destruct (Z.eq_dec a 0) as [->|Ha0].
  { destruct (canonical_finite b ltac:(lia) ltac:(lia)) as (mb & eb & -> & _).
    reflexivity. }
  assert (Ha53 : Z.abs a < 2 ^ 53)
    by (change (2 ^ 51) with 2251799813685248 in Ha;
        change (2 ^ 53) with 9007199254740992; lia).
  destruct (div_canonical a b Ha0 Ha53 Hb)
    as (M & E & Eq & -> & HM & HEq & HE & Hnear).
  pose proof (pow2_pos (E - Eq) ltac:(lia)) as HPk.
  pose proof (pow2_pos (- Eq) ltac:(lia)) as HP.
  assert (HbP : b < 2 ^ (- Eq)).
  { change (2 ^ 51) with 2251799813685248 in Ha.
    change (2 ^ 52) with 4503599627370496 in HM.
    assert (4503599627370496 <= Z.pos M * 2 ^ (E - Eq)) by nia.
    assert (4503599627370496 * b <= Z.pos M * 2 ^ (E - Eq) * b)
      by (apply Z.mul_le_mono_nonneg_r; lia).
    assert (Z.abs a * 2 ^ (- Eq) <= 2251799813685248 * 2 ^ (- Eq))
      by (apply Z.mul_le_mono_nonneg_r; lia).
    lia. }
  assert (HEq1 : Eq <= -1).
  { destruct (Z.eq_dec Eq 0) as [->|]; [simpl in HbP; lia | lia]. }
  assert (HP2 : 2 ^ (- Eq) = 2 * 2 ^ (- Eq - 1)).
  { replace (- Eq) with (1 + (- Eq - 1)) at 1 by lia.
    rewrite pow2_split by lia. reflexivity. }
  assert (HPd : 2 ^ (- Eq) = 2 ^ (- E) * 2 ^ (E - Eq)).
  { rewrite <- pow2_split by lia. f_equal. lia. }
  pose proof (pow2_pos (- E) ltac:(lia)) as HPe.
  assert (Hnn : rounded_magnitude (Z.pos M) E = (2 * Z.abs a + b) / (2 * b)).
  { unfold rounded_magnitude.
    rewrite <- (round_half_away_nearest (Z.abs a) b
                  (Z.pos M * 2 ^ (E - Eq)) (2 ^ (- Eq - 1)));
      [| lia | lia | lia | rewrite <- HP2; lia].
    rewrite <- HP2, HPd.
    replace (2 * (Z.pos M * 2 ^ (E - Eq)) + 2 ^ (- E) * 2 ^ (E - Eq))
      with ((2 * Z.pos M + 2 ^ (- E)) * 2 ^ (E - Eq)) by ring.
    replace (2 * (2 ^ (- E) * 2 ^ (E - Eq)))
      with (2 * 2 ^ (- E) * 2 ^ (E - Eq)) by ring.
    rewrite Z.div_mul_cancel_r by lia. reflexivity. }
  rewrite round_finite by lia. rewrite Hnn.
  set (nn := (2 * Z.abs a + b) / (2 * b)) in *.
  assert (Hnn0 : 0 <= nn < 2 ^ 53).
  { split; [unfold nn; apply Z.div_pos; lia|].
    unfold nn. apply Z.div_lt_upper_bound; [lia|].
    change (2 ^ 51) with 2251799813685248 in Ha.
    change (2 ^ 53) with 9007199254740992. nia. }
  destruct (Z.eqb_spec nn 0) as [->|Hnz].
  - rewrite Z.mul_0_r. reflexivity.
  - rewrite to_int_canonical by (destruct (a <? 0); lia).
    f_equal. destruct (Z.ltb_spec a 0).
    + rewrite Z.sgn_neg by lia. lia.
    + rewrite Z.sgn_pos by lia. lia.
Qed.

End Binary64Facts.

Module AverageFacts.
Import CxxFacts BagFacts RecomputeFacts KitchenFacts Binary64Facts Recompute
  Invariant Kitchen.

(** The sum of [int]s is bounded by their number. *)
Lemma prep_times_bounds sigma l :
  Forall (fun p => INT_MIN <= prep_time_at sigma p <= INT_MAX) l ->
  Z.of_nat (length l) * INT_MIN <= prep_times sigma l
  <= Z.of_nat (length l) * INT_MAX.
Proof.
  induction 1 as [|p l Hp _ IH]; simpl length; simpl prep_times; [lia|].
  rewrite Nat2Z.inj_succ. lia.
Qed.

(** The accumulation loop adds exactly. *)
Lemma sum_prep_times_spec sigma (items : list N) (n : nat) :
  forall (m i : nat) (acc : Z),
    (i + m = n)%nat ->
    (n <= length items)%nat ->
    Z.of_nat n <= 2 ^ 20 ->
    (forall p, p ∈ take n items -> is_Some (sigma !! p)) ->
    Forall (fun p => INT_MIN <= prep_time_at sigma p <= INT_MAX)
      (take n items) ->
    Z.abs acc <= Z.of_nat i * 2 ^ 31 ->
    sum_prep_times sigma items (seq i m) (Double.canonical acc)
    = Ok (Double.canonical
            (acc + prep_times sigma (drop i (take n items)))).
Proof.
  induction m as [|m IH]; intros i acc Him Hn Hcap Hlive Hint Hacc.
  - simpl. rewrite drop_ge by (rewrite length_take; lia).
    simpl. rewrite Z.add_0_r. reflexivity.
  - assert (Hi : exists p, items !! i = Some p)
      by (apply lookup_lt_is_Some; lia).
    destruct Hi as [p Hp].
    assert (Hp' : take n items !! i = Some p)
      by (apply lookup_take_Some; split; [exact Hp | lia]).
    assert (Hin : p ∈ take n items)
      by (apply list_elem_of_lookup; eauto).
    destruct (Hlive p Hin) as [d Hd].
    rewrite Forall_forall in Hint. pose proof (Hint p Hin) as Hpi.
    rewrite <- Forall_forall in Hint.
    unfold prep_time_at in Hpi. rewrite Hd in Hpi.
    cbn [seq sum_prep_times]. unfold item_at. rewrite Hp.
    cbn [Cxx.bind]. unfold deref. rewrite Hd. cbn [Cxx.bind].
    unfold INT_MIN, INT_MAX in Hpi.
    change (2 ^ 31) with 2147483648 in *.
    change (2 ^ 20) with 1048576 in Hcap.
    rewrite of_int_canonical
      by (change (2 ^ 53) with 9007199254740992; lia).
    rewrite add_canonical
      by (change (2 ^ 53) with 9007199254740992; lia).
    rewrite (IH (S i)); [| lia | exact Hn | exact Hcap | exact Hlive
                         | exact Hint | lia].
    rewrite (drop_S _ _ _ Hp'). cbn [prep_times foldr].
    fold (prep_times sigma (drop (S i) (take n items))).
    unfold prep_time_at. rewrite Hd. do 2 f_equal. lia.
Qed.

Lemma round_half_away_bounds (a b : Z) :
  0 < b -> b * INT_MIN <= a <= b * INT_MAX ->
  INT_MIN <= round_half_away a b <= INT_MAX.
Proof.
  unfold round_half_away, INT_MIN, INT_MAX.
  change (2 ^ 31) with 2147483648. intros Hb Ha.
  assert (Hq : 0 <= (2 * Z.abs a + b) / (2 * b)) by (apply Z.div_pos; lia).
  destruct (Z.lt_trichotomy a 0) as [Hneg|[->|Hpos]].
  - rewrite Z.sgn_neg by lia.
    assert ((2 * Z.abs a + b) / (2 * b) < 2147483648 + 1)
      by (apply Z.div_lt_upper_bound; lia). lia.
  - simpl. lia.
  - rewrite Z.sgn_pos by lia.
    assert ((2 * Z.abs a + b) / (2 * b) < 2147483647 + 1)
      by (apply Z.div_lt_upper_bound; lia). lia.
Qed.

End AverageFacts.

Module PercentageFacts.
Import FloatFacts Binary64Facts.

(** Multiplying two numbers with 53-digit mantissas: the product of the
    mantissas has 105 or 106 digits and is rounded to 53. *)
Lemma mul_normal (s1 s2 : bool) (M1 M2 : positive) (E1 E2 : Z) :
  2 ^ 52 <= Z.pos M1 < 2 ^ 53 -> 2 ^ 52 <= Z.pos M2 < 2 ^ 53 ->
  -500 <= E1 <= 400 -> -500 <= E2 <= 400 ->
  exists (M : positive) (E T : Z),
    SF64mul (S754_finite s1 M1 E1) (S754_finite s2 M2 E2)
    = S754_finite (xorb s1 s2) M E
    /\ 2 ^ 52 <= Z.pos M < 2 ^ 53
    /\ 52 <= T <= 53
    /\ E1 + E2 + T <= E <= E1 + E2 + T + 1
    /\ - 2 ^ T
       <= 2 * (Z.pos M * 2 ^ (E - (E1 + E2)) - Z.pos M1 * Z.pos M2)
       <= 2 ^ T.
Proof.
  intros H1 H2 HE1 HE2. unfold SF64mul, SFmul.
  assert (Hprod : 2 ^ 104 <= Z.pos (M1 * M2) < 2 ^ 106).
  { rewrite Pos2Z.inj_mul.
    change (2 ^ 104) with (2 ^ 52 * 2 ^ 52).
    change (2 ^ 106) with (2 ^ 53 * 2 ^ 53). nia. }
  assert (Hd : 105 <= Z.pos (digits2_pos (M1 * M2)) <= 106).
  { pose proof (digits2_pos_bounds (M1 * M2)) as Hb.
    split.
    - destruct (Z.le_gt_cases 105 (Z.pos (digits2_pos (M1 * M2)))) as [|Hlt];
        [assumption|exfalso].
      assert (2 ^ Z.pos (digits2_pos (M1 * M2)) <= 2 ^ 104)
        by (apply Z.pow_le_mono_r; lia). lia.
    - destruct (Z.le_gt_cases (Z.pos (digits2_pos (M1 * M2))) 106) as [|Hgt];
        [assumption|exfalso].
      assert (2 ^ 106 <= 2 ^ (Z.pos (digits2_pos (M1 * M2)) - 1))
        by (apply Z.pow_le_mono_r; lia). lia. }
  destruct (binary_round_aux_normal (xorb s1 s2) (M1 * M2) (E1 + E2) loc_Exact
              (Z.pos (M1 * M2)) 1)
    as (M & E & Hres & HM & HE & Hnear); [lia | simpl; lia | lia | lia | lia |].
  exists M, E, (Z.pos (digits2_pos (M1 * M2)) - 53).
  split; [exact Hres|]. split; [exact HM|]. split; [lia|]. split; [lia|].
  rewrite Pos2Z.inj_mul in Hnear. lia.
Qed.

(** The integer core of the error analysis: [M1 / Q1] approximates [c / s]
    within half a unit of the last place, [M2 / D2] approximates
    [10000 * M1 / Q1] likewise, hence [M2 / D2] is closer to [10000 * c / s]
    than any half-integer that is not [10000 * c / s] itself. *)
Lemma percentage_error (c s M1 Q1 M2 A D2 : Z) :
  0 < c < 2147483648 -> 0 < s -> 4503599627370496 <= M1 -> 0 < Q1 ->
  0 < A <= 18014398509481984 -> 0 < D2 ->
  - s <= 2 * (M1 * s - c * Q1) <= s ->
  - A <= 2 * (M2 * A - M1 * 5497558138880000) <= A ->
  A * D2 = 549755813888 * Q1 ->
  s * 1048576 < Q1 /\ - D2 < 2 * M2 * s - 20000 * c * D2 < D2.
Proof.
  intros Hc Hs HM1 HQ1 HA HD2 H1 H2 HAD.
  assert (HQ : s * 1048576 < Q1).
  { assert (9007199254740992 * s <= 2 * M1 * s) by nia.
    assert (2 * c * Q1 <= 4294967294 * Q1) by nia.
    lia. }
  split; [exact HQ|].
  assert (HX : (2 * M2 * s - 20000 * c * D2) * A
               = 5497558138880000 * (2 * (M1 * s - c * Q1))
                 + 2 * (M2 * A - M1 * 5497558138880000) * s).
  { replace ((2 * M2 * s - 20000 * c * D2) * A)
      with (2 * M2 * s * A - 20000 * c * (A * D2)) by ring.
    rewrite HAD. ring. }
  remember (2 * (M1 * s - c * Q1)) as d1 eqn:Ed1.
  remember (2 * (M2 * A - M1 * 5497558138880000)) as d2 eqn:Ed2.
  assert (Hd2 : - (A * s) <= d2 * s <= A * s) by nia.
  assert (HAs : A * s <= 18014398509481984 * s) by nia.
  remember (2 * M2 * s - 20000 * c * D2) as X eqn:EX.
  assert (HXA : - (A * D2) < X * A < A * D2) by lia.
  clear - HXA HA HD2. nia.
Qed.

(** The integer nearest to [M / D] (ties upwards) is a nearest integer of
    every fraction [n / s] from which [M / D] is less than [1 / (2 s)] away. *)
Lemma nearest_transfer (n s M D : Z) :
  0 < s -> 0 < D ->
  - D < 2 * M * s - 2 * n * D < D ->
  - s <= 2 * ((2 * M + D) / (2 * D) * s - n) <= s.
Proof.
  intros Hs HD HX.
  pose proof (Z.div_mod (2 * M + D) (2 * D) ltac:(lia)) as Hdm.
  pose proof (Z.mod_pos_bound (2 * M + D) (2 * D) ltac:(lia)) as Hr.
  remember ((2 * M + D) / (2 * D)) as N eqn:EN.
  remember ((2 * M + D) mod (2 * D)) as r eqn:Er.
  split.
  - destruct (Z.le_gt_cases (- s) (2 * (N * s - n))) as [|Hlt]; [assumption|].
    exfalso.
    assert (H1 : (2 * N + 1) * s <= 2 * n - 1) by lia.
    assert (H2 : (2 * N + 1) * s * D <= (2 * n - 1) * D) by nia.
    assert (H3 : 2 * M * s < (2 * N + 1) * D * s) by nia.
    nia.
  - destruct (Z.le_gt_cases (2 * (N * s - n)) s) as [|Hgt]; [assumption|].
    exfalso.
    assert (H1 : 2 * n + 1 <= (2 * N - 1) * s) by lia.
    assert (H2 : (2 * n + 1) * D <= (2 * N - 1) * s * D) by nia.
    assert (H3 : (2 * N - 1) * D * s <= 2 * M * s) by nia.
    nia.
Qed.

(** The expression of [calculateElaboratePercentage] on a positive counter
    and a positive size: the number rounded by [round] is a nearest integer
    [N] of [10000 * c / s], and the result is the quotient of [N] by [100]
    in binary64. *)
Lemma percentage_expression (c s : Z) :
  0 < c <= INT_MAX -> 0 < s <= INT_MAX ->
  exists N : Z,
    - s <= 2 * (N * s - 10000 * c) <= s
    /\ 0 <= N
    /\ SF64div
         (Double.round
            (SF64mul (SF64div (Double.of_int c) (Double.of_int s))
               (Double.of_int 10000)))
         (Double.of_int 100)
       = SF64div (Double.canonical N) (Double.canonical 100).
Proof.
  unfold INT_MAX. intros Hc Hs.
  rewrite (of_int_canonical c), (of_int_canonical s)
    by (change (2 ^ 53) with 9007199254740992; lia).
  change (Double.of_int 10000) with (S754_finite false 5497558138880000 (-39)).
  change (Double.of_int 100) with (Double.canonical 100).
  destruct (div_canonical c s) as (M1 & E1 & Eq1 & -> & HM1 & HEq1 & HE1 & Hn1);
    [lia | change (2 ^ 53) with 9007199254740992; lia
     | change (2 ^ 53) with 9007199254740992; lia |].
  replace (c <? 0) with false by (symmetry; apply Z.ltb_ge; lia).
  rewrite Z.abs_eq in Hn1 by lia.
  change (2 ^ 52) with 4503599627370496 in HM1.
  change (2 ^ 53) with 9007199254740992 in HM1.
  pose proof (pow2_pos (E1 - Eq1) ltac:(lia)) as Hk1.
  pose proof (pow2_pos (- Eq1) ltac:(lia)) as HP1pos.
  assert (HEq1' : Eq1 <= -21).
  { remember (2 ^ (E1 - Eq1)) as k1 eqn:Ek1.
    assert (HV : 4503599627370496 <= Z.pos M1 * k1) by nia.
    remember (Z.pos M1 * k1) as V1 eqn:EV1.
    assert (9007199254740992 * s <= 2 * V1 * s) by nia.
    assert (2 * c * 2 ^ (- Eq1) <= 4294967294 * 2 ^ (- Eq1)) by nia.
    destruct (Z.le_gt_cases Eq1 (-21)) as [|Hgt]; [assumption|exfalso].
    assert (2 ^ (- Eq1) <= 2 ^ 20) by (apply Z.pow_le_mono_r; lia).
    change (2 ^ 20) with 1048576 in *. lia. }
  (* the quotient in terms of its own exponent *)
  pose proof (pow2_pos (- E1) ltac:(lia)) as HQ1.
  assert (HP1 : 2 ^ (- Eq1) = 2 ^ (E1 - Eq1) * 2 ^ (- E1))
    by (rewrite <- pow2_split by lia; f_equal; lia).
  rewrite HP1 in Hn1.
  assert (Hn1' : - s <= 2 * (Z.pos M1 * s - c * 2 ^ (- E1)) <= s).
  { remember (2 ^ (E1 - Eq1)) as k1 eqn:Ek1.
    replace (Z.pos M1 * k1 * s - c * (k1 * 2 ^ (- E1)))
      with (k1 * (Z.pos M1 * s - c * 2 ^ (- E1))) in Hn1 by ring.
    remember (Z.pos M1 * s - c * 2 ^ (- E1)) as Y eqn:EY.
    clear - Hn1 Hk1 Hs. nia. }
  destruct (mul_normal false false M1 5497558138880000 E1 (-39))
    as (M2 & E2 & T & -> & HM2 & HT & HE2 & Hn2);
    [change (2 ^ 52) with 4503599627370496;
     change (2 ^ 53) with 9007199254740992; lia
    | change (2 ^ 52) with 4503599627370496;
      change (2 ^ 53) with 9007199254740992; lia
    | lia | lia |].
  cbn [xorb] in *.
  pose proof (pow2_pos (E2 - (E1 + -39)) ltac:(lia)) as HA.
  assert (HTA : 2 ^ T <= 2 ^ (E2 - (E1 + -39)))
    by (apply Z.pow_le_mono_r; lia).
  assert (HA54 : 2 ^ (E2 - (E1 + -39)) <= 18014398509481984)
    by (change 18014398509481984 with (2 ^ 54); apply Z.pow_le_mono_r; lia).
  assert (HAD : 2 ^ (E2 - (E1 + -39)) * 2 ^ (- E2) = 549755813888 * 2 ^ (- E1)).
  { change 549755813888 with (2 ^ 39).
    rewrite <- !pow2_split by lia. f_equal. lia. }
  pose proof (pow2_pos (- E2) ltac:(lia)) as HD2.
  destruct (percentage_error c s (Z.pos M1) (2 ^ (- E1)) (Z.pos M2)
              (2 ^ (E2 - (E1 + -39))) (2 ^ (- E2)))
    as [_ Herr]; try assumption; try lia.
  exists (rounded_magnitude (Z.pos M2) E2).
  assert (Hnear : - s <= 2 * (rounded_magnitude (Z.pos M2) E2 * s - 10000 * c) <= s).
  { unfold rounded_magnitude.
    apply nearest_transfer; [lia | lia |]. lia. }
  assert (Hnonneg : 0 <= rounded_magnitude (Z.pos M2) E2).
  { unfold rounded_magnitude. apply Z.div_pos; lia. }
  split; [exact Hnear|]. split; [exact Hnonneg|].
  rewrite round_finite by lia.
  destruct (Z.eqb_spec (rounded_magnitude (Z.pos M2) E2) 0) as [->|_];
    reflexivity.
Qed.

End PercentageFacts.

Module SubstitutionFacts.
Import CxxFacts ScanFacts RemovalFacts.

(** A removal loop that returns has removed every element that matches an
    entry of its table, and nothing else. *)
Lemma removal_scan_returns {A B : Type} (eqb : A -> B -> bool)
    (table : list B) (l l' : list A) :
  Scan.removal_scan eqb table l = Ok l' ->
  table <> [] ->
  vec_size l < SIZE_MODULUS ->
  l' = Policy.removal eqb table l.
Proof.
  intros H Hne Hl.
  destruct (exists_last Hne) as (front & final & ->).
  rewrite removal_scan_spec in H by exact Hl.
  destruct (removal_reads_outside eqb front final l); congruence.
Qed.

(** The list the substitution leaves is no longer than the one it reads. *)
Lemma substitution_below_modulus (l : list string) :
  vec_size l <= INT_MAX ->
  vec_size (Policy.substitution 0 l) < SIZE_MODULUS.
Proof.
  intros H. pose proof (vegetarian_scan_policy l H) as E.
  apply vegetarian_scan_length in E. unfold vec_size in *.
  assert (INT_MAX < SIZE_MODULUS) by (vm_compute; reflexivity). lia.
Qed.

End SubstitutionFacts.

Module Claims.
Import CxxFacts ScanFacts RemovalFacts DishFacts BagFacts RecomputeFacts
  KitchenFacts SessionFacts ReleaseFacts Binary64Facts AverageFacts
  PercentageFacts SubstitutionFacts.

(** What the code keeps of the aggregates once [dietaryAdjustment] is among
    the calls: after every sequence of [newOrder], [serveDish] and
    [dietaryAdjustment] calls on a fresh kitchen, [getPrepTimeSum()] equals
    the sum of the preparation times recomputed over the dishes held, since
    no accommodation touches a preparation time; [elaborateDishCount()] is
    never below the recomputed number of elaborate dishes held, and equals it
    only as long as the sequence contains no [dietaryAdjustment]. *)
Theorem aggregates_after_adjustments
    (cap : nat) (rd : bool) (calls : list Session.call)
    (sigma sigma' : Kitchen.store) (k : Kitchen.t) :
  Session.run cap rd calls (sigma, Kitchen.empty) = Ok (sigma', k) ->
  Kitchen.getPrepTimeSum k = Recompute.prep_time_sum sigma' k
  /\ Recompute.elaborate_count sigma' k <= Kitchen.elaborateDishCount k
  /\ (forallb Session.is_order_or_serve calls = true ->
      Kitchen.elaborateDishCount k = Recompute.elaborate_count sigma' k).
Proof.
  intros H.
  apply run_invariants in H as (Hok & Hup & Hex); [|apply empty_total_ok].
  split; [apply getPrepTimeSum_recomputed; exact Hok|].
  split.
  - apply elaborateDishCount_upper, Hup.
    unfold Invariant.counter_upper. simpl. reflexivity.
  - intros Hall. destruct (Hex Hall) as [_ Hc].
    apply elaborateDishCount_recomputed, Hc, empty_counter_exact.
Qed.

Lemma aggregates_after_adjustments_witness :
  exists sigma' k,
    Session.run 10 false
      (Sample.three_orders ++ [Session.DietaryAdjustment Sample.everything])
      (Sample.pantry, Kitchen.empty) = Ok (sigma', k)
    /\ Kitchen.getPrepTimeSum k = Recompute.prep_time_sum sigma' k
    /\ Recompute.elaborate_count sigma' k <= Kitchen.elaborateDishCount k.
Proof.
  destruct (Session.run 10 false
              (Sample.three_orders
                 ++ [Session.DietaryAdjustment Sample.everything])
              (Sample.pantry, Kitchen.empty)) as [[sigma' k]| |] eqn:E;
    [|vm_compute in E; discriminate..].
  exists sigma', k. split; [reflexivity|].
  destruct (aggregates_after_adjustments 10 false _ _ _ _ E) as (Hs & Hc & _).
  split; assumption.
Defined.

(** C1.  The defect of [Kitchen::dietaryAdjustment]: the accommodations
    shorten ingredient lists in place and nothing updates [count_elaborate_].
    The order of an appetizer with five ingredients and 60 minutes leaves the
    counter and the recomputed count at 1; the vegetarian adjustment that
    follows leaves the appetizer four ingredients, and [elaborateDishCount()]
    still returns 1 while no dish held is elaborate, the recomputed count
    being 0.  [getPrepTimeSum()] stays the recomputed sum. *)
Theorem elaborate_count_stale :
  (exists sigma1 k1,
      Session.run 10 false [Session.NewOrder 1]
        (Sample.pantry, Kitchen.empty) = Ok (sigma1, k1)
      /\ Kitchen.elaborateDishCount k1 = 1
      /\ Recompute.elaborate_count sigma1 k1 = 1)
  /\ (exists sigma' k,
        Session.run 10 false
          [Session.NewOrder 1;
           Session.DietaryAdjustment Sample.vegetarian_only]
          (Sample.pantry, Kitchen.empty) = Ok (sigma', k)
        /\ sigma' !! 1%N
           = Some
               (AppetizerObj
                  (Appetizer.mk
                     (Dish.mk "Mixed Grill"
                        ["Beans"; "Mushrooms"; "Rice"; "Salt"] 60
                        (Double.of_int 18) Dish.AMERICAN)
                     Appetizer.PLATED 3 true))
        /\ ArrayBag.held (Kitchen.bag k) = [1%N]
        /\ Kitchen.elaborateDishCount k = 1
        /\ Recompute.elaborate_count sigma' k = 0
        /\ Kitchen.getPrepTimeSum k = 60
        /\ Recompute.prep_time_sum sigma' k = 60).
Proof.
  split.
  - destruct (Session.run 10 false [Session.NewOrder 1]
                (Sample.pantry, Kitchen.empty)) as [[sigma1 k1]| |] eqn:E;
      [|vm_compute in E; discriminate..].
    exists sigma1, k1. split; [reflexivity|].
    vm_compute in E. injection E as <- <-. split; vm_compute; reflexivity.
  - destruct (Session.run 10 false
                [Session.NewOrder 1;
                 Session.DietaryAdjustment Sample.vegetarian_only]
                (Sample.pantry, Kitchen.empty)) as [[sigma' k]| |] eqn:E;
      [|vm_compute in E; discriminate..].
    exists sigma', k. split; [reflexivity|].
    vm_compute in E. injection E as <- <-.
    repeat split; vm_compute; reflexivity.
Qed.

(** C1 as a statement about every sequence of operations is refuted by that
    session: the cached counter and the recomputed count differ after it. *)
Lemma stale_counter_after_adjustment :
  ~ (forall (cap : nat) (rd : bool) (calls : list Session.call)
            (sigma sigma' : Kitchen.store) (k : Kitchen.t),
        Session.run cap rd calls (sigma, Kitchen.empty) = Ok (sigma', k) ->
        Kitchen.getPrepTimeSum k = Recompute.prep_time_sum sigma' k
        /\ Kitchen.elaborateDishCount k = Recompute.elaborate_count sigma' k).
Proof.
  intros H.
  destruct (Session.run 10 false
              [Session.NewOrder 1;
               Session.DietaryAdjustment Sample.vegetarian_only]
              (Sample.pantry, Kitchen.empty)) as [[sigma' k]| |] eqn:E;
    [|vm_compute in E; discriminate..].
  destruct (H _ _ _ _ _ _ E) as [_ Hc].
  vm_compute in E. injection E as <- <-. vm_compute in Hc. discriminate.
Qed.


(** C5.  After every sequence of [newOrder] and [serveDish] calls on a fresh
    kitchen, whether the calls succeed or fail, [getPrepTimeSum()] equals the
    sum of the preparation times of the dishes held and
    [elaborateDishCount()] equals the number of held dishes with at least 5
    ingredients and at least 60 minutes of preparation; a further order or
    serve that fails leaves the kitchen, and so the total and the counter, as
    they were. *)
Theorem aggregates_after_orders_and_serves
    (cap : nat) (rd : bool) (calls : list Session.call)
    (sigma sigma' : Kitchen.store) (k : Kitchen.t) :
  forallb Session.is_order_or_serve calls = true ->
  Session.run cap rd calls (sigma, Kitchen.empty) = Ok (sigma', k) ->
  sigma' = sigma
  /\ Kitchen.getPrepTimeSum k = Recompute.prep_time_sum sigma k
  /\ Kitchen.elaborateDishCount k = Recompute.elaborate_count sigma k
  /\ (forall p k', Kitchen.newOrder cap rd sigma p k = Ok (k', false) ->
        Kitchen.total_prep_time_ k' = Kitchen.total_prep_time_ k
        /\ Kitchen.count_elaborate_ k' = Kitchen.count_elaborate_ k)
  /\ (forall p k', Kitchen.serveDish sigma p k = Ok (k', false) ->
        Kitchen.total_prep_time_ k' = Kitchen.total_prep_time_ k
        /\ Kitchen.count_elaborate_ k' = Kitchen.count_elaborate_ k).
Proof.
  intros Hall H.
  apply run_invariants in H as (Hok & _ & Hex); [|apply empty_total_ok].
  destruct (Hex Hall) as [-> Hc].
  split; [reflexivity|].
  split; [apply getPrepTimeSum_recomputed; exact Hok|].
  split; [apply elaborateDishCount_recomputed, Hc, empty_counter_exact|].
  split; intros p k' Hf.
  - apply newOrder_failed in Hf as ->. auto.
  - apply serveDish_failed in Hf as ->. auto.
Qed.

Lemma aggregates_after_orders_and_serves_witness :
  exists k,
    Session.run 2 true
      (Sample.three_orders
         ++ [Session.ServeDish 1; Session.ServeDish 7; Session.NewOrder 2])
      (Sample.pantry, Kitchen.empty) = Ok (Sample.pantry, k)
    /\ Kitchen.getPrepTimeSum k = Recompute.prep_time_sum Sample.pantry k
    /\ Kitchen.elaborateDishCount k = Recompute.elaborate_count Sample.pantry k.
Proof.
  destruct (Session.run 2 true
              (Sample.three_orders
                 ++ [Session.ServeDish 1; Session.ServeDish 7;
                     Session.NewOrder 2])
              (Sample.pantry, Kitchen.empty)) as [[sigma' k]| |] eqn:E;
    [|vm_compute in E; discriminate..].
  destruct (aggregates_after_orders_and_serves 2 true
              (Sample.three_orders
                 ++ [Session.ServeDish 1; Session.ServeDish 7;
                     Session.NewOrder 2])
              Sample.pantry sigma' k eq_refl E)
    as (-> & Hs & Hc & _).
  exists k. auto.
Defined.

(** C3.  From a kitchen whose running total is right,
    [releaseDishesBelowPrepTime(t)] removes every held dish whose
    preparation time is below [t] and no other, returns the number of dishes
    it removed, and leaves [getPrepTimeSum()] at its former value minus the
    preparation times of the dishes removed. *)
Theorem release_below_prep_time
    (sigma : Kitchen.store) (t : Z) (k k' : Kitchen.t) (n : Z) :
  Invariant.total_ok sigma k ->
  Kitchen.releaseDishesBelowPrepTime sigma t k = Ok (k', n) ->
  ArrayBag.held (Kitchen.bag k')
    ≡ₚ List.filter (fun p => negb (Recompute.below sigma t p))
         (ArrayBag.held (Kitchen.bag k))
  /\ n = Z.of_nat (length (List.filter (Recompute.below sigma t)
                             (ArrayBag.held (Kitchen.bag k))))
  /\ n = Kitchen.getCurrentSize k - Kitchen.getCurrentSize k'
  /\ Kitchen.getPrepTimeSum k'
     = Kitchen.getPrepTimeSum k
       - Recompute.prep_times sigma
           (List.filter (Recompute.below sigma t)
              (ArrayBag.held (Kitchen.bag k))).
Proof.
  intros Hok H. unfold Kitchen.releaseDishesBelowPrepTime in H.
  pose proof (Invariant.slots_ok _ _ Hok) as Hslots.
  apply (release_loop_spec sigma t (ArrayBag.items_ (Kitchen.bag k))
           (ArrayBag.item_count_ (Kitchen.bag k))) in H;
    [| lia | exact Hslots | exact Hok | reflexivity | reflexivity].
  destruct H as (Hok' & Hheld & Hn). simpl in Hn.
  fold (ArrayBag.held (Kitchen.bag k)) in Hheld, Hn.
  rewrite drop_0, Z.add_0_l in Hn.
  split; [exact Hheld|]. split; [exact Hn|].
  pose proof (List.filter_length (Recompute.below sigma t)
                (ArrayBag.held (Kitchen.bag k))) as Hlen.
  split.
  - unfold Kitchen.getCurrentSize, ArrayBag.getCurrentSize.
    rewrite <- (held_length _ Hslots), <- (held_length _ (Invariant.slots_ok _ _ Hok')).
    rewrite (Permutation_length Hheld). lia.
  - rewrite (getPrepTimeSum_recomputed _ _ Hok'),
      (getPrepTimeSum_recomputed _ _ Hok).
    unfold Recompute.prep_time_sum.
    rewrite (prep_times_perm _ _ _ Hheld).
    rewrite (prep_times_filter sigma (Recompute.below sigma t)
               (ArrayBag.held (Kitchen.bag k))). lia.
Qed.

Lemma release_below_prep_time_witness :
  Invariant.total_ok Sample.pantry Sample.stocked
  /\ exists k',
       Kitchen.releaseDishesBelowPrepTime Sample.pantry 70 Sample.stocked
       = Ok (k', 2)
       /\ ArrayBag.held (Kitchen.bag k') = [2%N]
       /\ Kitchen.getPrepTimeSum k' = Kitchen.getPrepTimeSum Sample.stocked - 80.
Proof.
  assert (Hok : Invariant.total_ok Sample.pantry Sample.stocked).
  { assert (E : Session.run 10 false Sample.three_orders
                  (Sample.pantry, Kitchen.empty)
                = Ok (Sample.pantry, Sample.stocked))
      by (vm_compute; reflexivity).
    apply run_invariants in E as (Hok & _); [exact Hok|apply empty_total_ok]. }
  split; [exact Hok|].
  destruct (Kitchen.releaseDishesBelowPrepTime Sample.pantry 70 Sample.stocked)
    as [[k' n]| |] eqn:E; [|vm_compute in E; discriminate..].
  destruct (release_below_prep_time _ _ _ _ _ Hok E) as (_ & _ & _ & Hsum).
  exists k'. vm_compute in E. injection E as <- <-.
  split; [reflexivity|]. split; [reflexivity|]. exact Hsum.
Defined.

(** C4.  The vegetarian block of [Appetizer::dietaryAccommodations] and of
    [MainCourse::dietaryAccommodations] always returns, and leaves the
    ingredient list the substitution policy gives: one scan from the left,
    one counter of matches with the non-vegetarian names, the first match
    "Beans", the second "Mushrooms", later ones deleted.  So on a request
    with the vegetarian flag the whole function, whenever it returns, leaves
    that list, less the gluten (appetizer) or the dairy and eggs (main
    course) if the request asks for their removal as well; on a request with
    no other flag the class handles it returns the dish with that list, the
    vegetarian flag set or the protein "Tofu", and nothing else changed.  The
    other flags are handled on the result of the substitution; Chicken, Rice,
    Beef, Fish become Beans, Rice, Mushrooms. *)
Theorem vegetarian_substitution
    (request : Dish.DietaryRequest) (a : Appetizer.t) (m : MainCourse.t) :
  Dish.vegetarian request = true ->
  vec_size (Dish.ingredients_ (Appetizer.dish a)) <= INT_MAX ->
  vec_size (Dish.ingredients_ (MainCourse.dish m)) <= INT_MAX ->
  (Appetizer.accommodate_vegetarian a
   = Ok (Appetizer.mk
           (Dish.setIngredients (Appetizer.dish a)
              (Policy.substitution 0 (Dish.ingredients_ (Appetizer.dish a))))
           (Appetizer.serving_style_ a) (Appetizer.spiciness_level_ a) true)
   /\ (forall a',
         Appetizer.dietaryAccommodations request a = Ok a' ->
         Dish.ingredients_ (Appetizer.dish a')
         = (if Dish.gluten_free request
            then Policy.removal String.eqb Scan.gluten_ingredients
                   (Policy.substitution 0
                      (Dish.ingredients_ (Appetizer.dish a)))
            else Policy.substitution 0
                   (Dish.ingredients_ (Appetizer.dish a)))
         /\ Appetizer.vegetarian_ a' = true)
   /\ (Dish.low_sodium request = false ->
       Dish.gluten_free request = false ->
       Appetizer.dietaryAccommodations request a
       = Ok (Appetizer.mk
               (Dish.setIngredients (Appetizer.dish a)
                  (Policy.substitution 0
                     (Dish.ingredients_ (Appetizer.dish a))))
               (Appetizer.serving_style_ a) (Appetizer.spiciness_level_ a)
               true))
   /\ Appetizer.dietaryAccommodations request a
      = Appetizer.dietaryAccommodations (Dish.without_vegetarian request)
          (Appetizer.mk
             (Dish.setIngredients (Appetizer.dish a)
                (Policy.substitution 0
                   (Dish.ingredients_ (Appetizer.dish a))))
             (Appetizer.serving_style_ a) (Appetizer.spiciness_level_ a)
             true))
  /\ (MainCourse.accommodate_vegetarian m
      = Ok (MainCourse.mk
              (Dish.setIngredients (MainCourse.dish m)
                 (Policy.substitution 0
                    (Dish.ingredients_ (MainCourse.dish m))))
              (MainCourse.cooking_method_ m) "Tofu"
              (MainCourse.side_dishes_ m) (MainCourse.gluten_free_ m))
      /\ (forall m',
            MainCourse.dietaryAccommodations request m = Ok m' ->
            Dish.ingredients_ (MainCourse.dish m')
            = (if Dish.vegan request
               then Policy.removal String.eqb Scan.dairy_egg_ingredients
                      (Policy.substitution 0
                         (Dish.ingredients_ (MainCourse.dish m)))
               else Policy.substitution 0
                      (Dish.ingredients_ (MainCourse.dish m)))
            /\ MainCourse.protein_type_ m' = "Tofu")
      /\ (Dish.vegan request = false ->
          Dish.gluten_free request = false ->
          MainCourse.dietaryAccommodations request m
          = Ok (MainCourse.mk
                  (Dish.setIngredients (MainCourse.dish m)
                     (Policy.substitution 0
                        (Dish.ingredients_ (MainCourse.dish m))))
                  (MainCourse.cooking_method_ m) "Tofu"
                  (MainCourse.side_dishes_ m) (MainCourse.gluten_free_ m)))
      /\ MainCourse.dietaryAccommodations request m
         = MainCourse.dietaryAccommodations (Dish.without_vegetarian request)
             (MainCourse.mk
                (Dish.setIngredients (MainCourse.dish m)
                   (Policy.substitution 0
                      (Dish.ingredients_ (MainCourse.dish m))))
                (MainCourse.cooking_method_ m) "Tofu"
                (MainCourse.side_dishes_ m) (MainCourse.gluten_free_ m)))
  /\ Scan.vegetarian_scan ["Chicken"; "Rice"; "Beef"; "Fish"]
     = Ok ["Beans"; "Rice"; "Mushrooms"].
Proof.
  intros Hv Ha Hm.
  assert (Ea : Appetizer.accommodate_vegetarian a
               = Ok (Appetizer.mk
                       (Dish.setIngredients (Appetizer.dish a)
                          (Policy.substitution 0
                             (Dish.ingredients_ (Appetizer.dish a))))
                       (Appetizer.serving_style_ a)
                       (Appetizer.spiciness_level_ a) true)).
  { unfold Appetizer.accommodate_vegetarian, Dish.getIngredients.
    rewrite vegetarian_scan_policy by exact Ha. reflexivity. }
  assert (Em : MainCourse.accommodate_vegetarian m
               = Ok (MainCourse.mk
                       (Dish.setIngredients (MainCourse.dish m)
                          (Policy.substitution 0
                             (Dish.ingredients_ (MainCourse.dish m))))
                       (MainCourse.cooking_method_ m) "Tofu"
                       (MainCourse.side_dishes_ m)
                       (MainCourse.gluten_free_ m))).
  { unfold MainCourse.accommodate_vegetarian, Dish.getIngredients.
    rewrite vegetarian_scan_policy by exact Hm. reflexivity. }
  split; [|split]; [split; [exact Ea|split; [|split]]
                   |split; [exact Em|split; [|split]] |reflexivity].
  - (* the appetizer, any request *)
    intros a' H. unfold Appetizer.dietaryAccommodations in H.
    rewrite Hv, Ea in H. cbn [Cxx.bind] in H.
    apply bind_Ok in H as (a2 & H2 & H).
    assert (E2 : Appetizer.dish a2
                 = Dish.setIngredients (Appetizer.dish a)
                     (Policy.substitution 0
                        (Dish.ingredients_ (Appetizer.dish a)))
                 /\ Appetizer.vegetarian_ a2 = true).
    { destruct (Dish.low_sodium request).
      - unfold Appetizer.accommodate_low_sodium in H2.
        apply bind_Ok in H2 as (level & _ & H2). injection H2 as <-.
        split; reflexivity.
      - injection H2 as <-. split; reflexivity. }
    destruct E2 as [Ed Ev].
    destruct (Dish.gluten_free request).
    + unfold Appetizer.accommodate_gluten_free, Dish.getIngredients in H.
      apply bind_Ok in H as (l & Hscan & H). injection H as <-.
      cbn [Appetizer.dish Appetizer.vegetarian_ Dish.setIngredients
             Dish.ingredients_].
      split; [|exact Ev]. rewrite Ed in Hscan.
      cbn [Dish.setIngredients Dish.ingredients_] in Hscan.
      apply removal_scan_returns in Hscan;
        [exact Hscan | discriminate |].
      apply substitution_below_modulus, Ha.
    + injection H as <-. rewrite Ed. split; [reflexivity | exact Ev].
  - (* the appetizer, no other flag *)
    intros Hs Hg. unfold Appetizer.dietaryAccommodations.
    rewrite Hv, Hs, Hg, Ea. reflexivity.
  - unfold Appetizer.dietaryAccommodations at 1. rewrite Hv, Ea.
    reflexivity.
  - (* the main course, any request *)
    intros m' H. unfold MainCourse.dietaryAccommodations in H.
    rewrite Hv, Em in H. cbn [Cxx.bind] in H.
    apply bind_Ok in H as (m2 & H2 & H).
    assert (E2 : Dish.ingredients_ (MainCourse.dish m2)
                 = (if Dish.vegan request
                    then Policy.removal String.eqb Scan.dairy_egg_ingredients
                           (Policy.substitution 0
                              (Dish.ingredients_ (MainCourse.dish m)))
                    else Policy.substitution 0
                           (Dish.ingredients_ (MainCourse.dish m)))
                 /\ MainCourse.protein_type_ m2 = "Tofu").
    { destruct (Dish.vegan request).
      - unfold MainCourse.accommodate_vegan, Dish.getIngredients in H2.
        apply bind_Ok in H2 as (l & Hscan & H2). injection H2 as <-.
        cbn [MainCourse.dish MainCourse.protein_type_ Dish.setIngredients
               Dish.ingredients_] in *.
        split; [|reflexivity].
        apply removal_scan_returns in Hscan;
          [exact Hscan | discriminate |].
        apply substitution_below_modulus, Hm.
      - injection H2 as <-. split; reflexivity. }
    destruct E2 as [Ei Ep].
    destruct (Dish.gluten_free request).
    + unfold MainCourse.accommodate_gluten_free in H.
      apply bind_Ok in H as (l & _ & H). injection H as <-.
      cbn [MainCourse.dish MainCourse.protein_type_].
      split; [exact Ei | exact Ep].
    + injection H as <-. split; [exact Ei | exact Ep].
  - (* the main course, no other flag *)
    intros Hn Hg. unfold MainCourse.dietaryAccommodations.
    rewrite Hv, Hn, Hg, Em. reflexivity.
  - unfold MainCourse.dietaryAccommodations at 1. rewrite Hv, Em.
    reflexivity.
Qed.

Lemma vegetarian_substitution_witness :
  Appetizer.dietaryAccommodations Sample.vegetarian_only Sample.mixed_grill
  = Ok (Appetizer.mk
          (Dish.mk "Mixed Grill" ["Beans"; "Mushrooms"; "Rice"; "Salt"] 60
             (Double.of_int 18) Dish.AMERICAN)
          Appetizer.PLATED 3 true)
  /\ MainCourse.dietaryAccommodations Sample.vegetarian_only Sample.stew
     = Ok (MainCourse.mk
             (Dish.mk "Stew" ["Beans"; "Rice"; "Mushrooms"] 90
                (Double.of_int 25) Dish.FRENCH)
             MainCourse.BOILED "Tofu" (MainCourse.side_dishes_ Sample.stew)
             false).
Proof.
  destruct (vegetarian_substitution Sample.vegetarian_only Sample.mixed_grill
              Sample.stew eq_refl)
    as ((_ & _ & Ha & _) & (_ & _ & Hm & _) & _);
    [vm_compute; discriminate..|].
  split; [exact (Ha eq_refl eq_refl) | exact (Hm eq_refl eq_refl)].
Defined.

(** C8.  Whenever the accommodation of an appetizer on a low-sodium request
    returns, the spiciness level is the former one less 2, or 0 where that is
    negative; whenever the accommodation of a dessert on a low-sugar request
    returns, the sweetness level is the former one less 3, or 0 where that is
    negative.  Neither level is negative afterwards. *)
Theorem levels_clamped :
  (forall request a a',
      Dish.low_sodium request = true ->
      Appetizer.dietaryAccommodations request a = Ok a' ->
      Appetizer.spiciness_level_ a'
      = Z.max 0 (Appetizer.spiciness_level_ a - 2)
      /\ 0 <= Appetizer.spiciness_level_ a')
  /\ (forall request d d',
      Dish.low_sugar request = true ->
      Dessert.dietaryAccommodations request d = Ok d' ->
      Dessert.sweetness_level_ d' = Z.max 0 (Dessert.sweetness_level_ d - 3)
      /\ 0 <= Dessert.sweetness_level_ d').
Proof.
  split.
  - intros request a a' Hl H. unfold Appetizer.dietaryAccommodations in H.
    rewrite Hl in H.
    apply bind_Ok in H as (a1 & H1 & H). apply bind_Ok in H as (a2 & H2 & H).
    assert (E1 : Appetizer.spiciness_level_ a1 = Appetizer.spiciness_level_ a).
    { destruct (Dish.vegetarian request).
      - apply appetizer_vegetarian_frame in H1 as (E & _). exact E.
      - inversion H1. reflexivity. }
    apply appetizer_low_sodium_level in H2 as [E2 _].
    assert (E3 : Appetizer.spiciness_level_ a' = Appetizer.spiciness_level_ a2).
    { destruct (Dish.gluten_free request).
      - apply appetizer_gluten_free_frame in H as (E & _). exact E.
      - inversion H. reflexivity. }
    rewrite E3, E2, E1. lia.
  - intros request d d' Hl H. unfold Dessert.dietaryAccommodations in H.
    rewrite Hl in H.
    apply bind_Ok in H as (d1 & H1 & H). apply bind_Ok in H as (d2 & H2 & H).
    assert (E1 : Dessert.sweetness_level_ d1 = Dessert.sweetness_level_ d).
    { destruct (Dish.nut_free request).
      - apply dessert_nut_free_frame in H1 as (E & _). exact E.
      - inversion H1. reflexivity. }
    apply dessert_low_sugar_level in H2 as [E2 _].
    assert (E3 : Dessert.sweetness_level_ d' = Dessert.sweetness_level_ d2).
    { destruct (Dish.vegan request).
      - apply dessert_vegan_frame in H as (E & _). exact E.
      - inversion H. reflexivity. }
    rewrite E3, E2, E1. lia.
Qed.

Lemma levels_clamped_witness :
  (exists a',
      Appetizer.dietaryAccommodations Sample.everything Sample.mixed_grill
      = Ok a'
      /\ Appetizer.spiciness_level_ a' = 1)
  /\ (exists d',
      Dessert.dietaryAccommodations Sample.everything Sample.sorbet = Ok d'
      /\ Dessert.sweetness_level_ d' = 0).
Proof.
  split.
  - destruct (Appetizer.dietaryAccommodations Sample.everything
                Sample.mixed_grill) as [a'| |] eqn:E;
      [|vm_compute in E; discriminate..].
    exists a'. split; [reflexivity|].
    destruct (proj1 levels_clamped Sample.everything Sample.mixed_grill a'
                eq_refl E) as [-> _]. reflexivity.
  - destruct (Dessert.dietaryAccommodations Sample.everything Sample.sorbet)
      as [d'| |] eqn:E; [|vm_compute in E; discriminate..].
    exists d'. split; [reflexivity|].
    destruct (proj2 levels_clamped Sample.everything Sample.sorbet d'
                eq_refl E) as [-> _]. reflexivity.
Defined.

(** C10.  Whenever [dietaryAccommodations] returns, for an appetizer, a main
    course or a dessert and for any request, the name, the preparation time,
    the price and the cuisine type of the dish are what they were. *)
Theorem accommodations_frame
    (request : Dish.DietaryRequest) (x x' : AnyDish) :
  dietaryAccommodations request x = Ok x' ->
  Dish.name_ (base x') = Dish.name_ (base x)
  /\ Dish.prep_time_ (base x') = Dish.prep_time_ (base x)
  /\ Dish.price_ (base x') = Dish.price_ (base x)
  /\ Dish.cuisine_type_ (base x') = Dish.cuisine_type_ (base x).
Proof.
  intros H. apply accommodations_base in H as [-> _]. repeat split.
Qed.

Lemma accommodations_frame_witness :
  exists x',
    dietaryAccommodations Sample.everything (MainCourseObj Sample.stew) = Ok x'
    /\ Dish.name_ (base x') = "Stew"
    /\ Dish.prep_time_ (base x') = 90
    /\ Dish.price_ (base x') = Double.of_int 25
    /\ Dish.cuisine_type_ (base x') = Dish.FRENCH.
Proof.
  destruct (dietaryAccommodations Sample.everything (MainCourseObj Sample.stew))
    as [x'| |] eqn:E; [|vm_compute in E; discriminate..].
  exists x'. split; [reflexivity|].
  exact (accommodations_frame _ _ _ E).
Defined.

(** C2, on the code: what [Dessert::display] writes after "Flavor Profile: "
    for the three flavor profiles it gets wrong.  SOUR writes two labels,
    SALTY writes "Umami", UMAMI writes nothing, not even the end of the
    line. *)
Theorem dessert_display_flavor_profile_defect
    (dish : Dish.t) (level : Z) (nuts : bool) :
  Dessert.display_flavor_profile (Dessert.mk dish Dessert.SOUR level nuts)
  = ("Flavor Profile: " ++ "Sour" ++ endl ++ "Salty" ++ endl)%string
  /\ Dessert.display_flavor_profile (Dessert.mk dish Dessert.SALTY level nuts)
     = ("Flavor Profile: " ++ "Umami" ++ endl)%string
  /\ Dessert.display_flavor_profile (Dessert.mk dish Dessert.UMAMI level nuts)
     = "Flavor Profile: ".
Proof. repeat split. Qed.

(** The two flavor profiles [Dessert::display] gets right. *)
Lemma dessert_display_flavor_profile_sweet_bitter
    (dish : Dish.t) (level : Z) (nuts : bool) :
  Dessert.display_flavor_profile (Dessert.mk dish Dessert.SWEET level nuts)
  = ("Flavor Profile: " ++ "Sweet" ++ endl)%string
  /\ Dessert.display_flavor_profile (Dessert.mk dish Dessert.BITTER level nuts)
     = ("Flavor Profile: " ++ "Bitter" ++ endl)%string.
Proof. repeat split. Qed.

(** C9.  A token that is none of the tokens a decoding chain recognises is
    decoded to the default of that chain: OTHER for a cuisine, PLATED for a
    serving style, GRILLED for a cooking method, SWEET for a flavor profile
    and GRAIN for a side-dish category. *)
Theorem unrecognized_tokens_fall_back
    (cuisine style method flavor category : string) :
  ~ In cuisine Ingestion.cuisine_tokens ->
  ~ In style Ingestion.serving_style_tokens ->
  ~ In method Ingestion.cooking_method_tokens ->
  ~ In flavor Ingestion.flavor_profile_tokens ->
  ~ In category Ingestion.category_tokens ->
  Ingestion.cuisine_type_enum cuisine = Dish.OTHER
  /\ Ingestion.serving_style_enum style = Appetizer.PLATED
  /\ Ingestion.cooking_method_enum method = MainCourse.GRILLED
  /\ Ingestion.flavor_profile_enum flavor = Dessert.SWEET
  /\ Ingestion.side_dishes_enum_category category = MainCourse.GRAIN.
Proof.
  intros Hc Hs Hm Hf Hg.
  assert (Hneq : forall (x y : string) (l : list string),
             ~ In x (y :: l) -> String.eqb x y = false /\ ~ In x l).
  { intros x y l H. split.
    - apply String.eqb_neq. intros ->. apply H. left. reflexivity.
    - intros Hin. apply H. right. exact Hin. }
  repeat split.
  - unfold Ingestion.cuisine_type_enum, Ingestion.cuisine_tokens in *.
    repeat (apply Hneq in Hc as [-> Hc]). reflexivity.
  - unfold Ingestion.serving_style_enum, Ingestion.serving_style_tokens in *.
    repeat (apply Hneq in Hs as [-> Hs]). reflexivity.
  - unfold Ingestion.cooking_method_enum, Ingestion.cooking_method_tokens in *.
    repeat (apply Hneq in Hm as [-> Hm]). reflexivity.
  - unfold Ingestion.flavor_profile_enum, Ingestion.flavor_profile_tokens in *.
    repeat (apply Hneq in Hf as [-> Hf]). reflexivity.
  - unfold Ingestion.side_dishes_enum_category, Ingestion.category_tokens in *.
    repeat (apply Hneq in Hg as [-> Hg]). reflexivity.
Qed.

(** Every string with a character no token has is unrecognised. *)
Lemma not_a_token (l : list string) (x : string) :
  forallb (fun y => negb (String.eqb x y)) l = true -> ~ In x l.
Proof.
  intros H Hin. rewrite forallb_forall in H. specialize (H x Hin).
  rewrite String.eqb_refl in H. discriminate.
Qed.

Lemma unrecognized_tokens_fall_back_witness :
  Ingestion.cuisine_type_enum "italian" = Dish.OTHER
  /\ Ingestion.serving_style_enum "FAMILY STYLE" = Appetizer.PLATED
  /\ Ingestion.cooking_method_enum "ROASTED" = MainCourse.GRILLED
  /\ Ingestion.flavor_profile_enum "VEGAN" = Dessert.SWEET
  /\ Ingestion.side_dishes_enum_category "Grain" = MainCourse.GRAIN.
Proof.
  apply (unrecognized_tokens_fall_back "italian" "FAMILY STYLE" "ROASTED"
           "VEGAN" "Grain"); apply not_a_token; reflexivity.
Defined.

(** C7.  For a kitchen holding at most 2^20 live dishes whose preparation
    times are [int]s, [calculateAvgPrepTime()] returns 0 when the kitchen is
    empty and otherwise the sum of the preparation times of the dishes held
    divided by their number, rounded to the nearest integer, halfway cases
    away from zero. *)
Theorem average_prep_time (sigma : Kitchen.store) (k : Kitchen.t) :
  Invariant.bag_ok (Kitchen.bag k) ->
  (forall p, p ∈ ArrayBag.held (Kitchen.bag k) -> is_Some (sigma !! p)) ->
  Forall (fun p => INT_MIN <= Recompute.prep_time_at sigma p <= INT_MAX)
    (ArrayBag.held (Kitchen.bag k)) ->
  Kitchen.getCurrentSize k <= 2 ^ 20 ->
  Kitchen.calculateAvgPrepTime sigma k
  = Ok (if Kitchen.getCurrentSize k =? 0 then 0
        else round_half_away (Recompute.prep_time_sum sigma k)
               (Kitchen.getCurrentSize k)).
Proof.
  intros Hok Hlive Hint Hcap.
  unfold Kitchen.calculateAvgPrepTime.
  destruct (Z.eqb_spec (Kitchen.getCurrentSize k) 0) as [E0|Hne];
    [reflexivity|].
  pose proof (prep_times_bounds _ _ Hint) as Hsum.
  rewrite (held_length _ Hok) in Hsum.
  fold (Recompute.prep_time_sum sigma k) in Hsum.
  fold (ArrayBag.getCurrentSize (Kitchen.bag k)) in Hsum.
  fold (Kitchen.getCurrentSize k) in Hsum.
  assert (Hpos : 0 < Kitchen.getCurrentSize k)
    by (unfold Kitchen.getCurrentSize, ArrayBag.getCurrentSize in *; lia).
  change (Double.of_int 0) with (Double.canonical 0).
  rewrite (sum_prep_times_spec sigma (ArrayBag.items_ (Kitchen.bag k))
             (ArrayBag.item_count_ (Kitchen.bag k))
             (ArrayBag.item_count_ (Kitchen.bag k)) 0%nat 0);
    [| lia | exact Hok | exact Hcap | exact Hlive | exact Hint | simpl; lia].
  cbn [Cxx.bind]. rewrite drop_0, Z.add_0_l.
  fold (ArrayBag.held (Kitchen.bag k)). fold (Recompute.prep_time_sum sigma k).
  generalize dependent (Kitchen.getCurrentSize k). intros n Hcap _.
  generalize (Recompute.prep_time_sum sigma k). intros total Hsum Hpos.
  unfold INT_MIN, INT_MAX in Hsum.
  change (2 ^ 31) with 2147483648 in Hsum.
  change (2 ^ 20) with 1048576 in Hcap.
  rewrite of_int_canonical
    by (change (2 ^ 53) with 9007199254740992; lia).
  rewrite div_round_to_int;
    [| change (2 ^ 51) with 2251799813685248; lia
     | change (2 ^ 53) with 9007199254740992; lia].
  apply int_result_in. apply round_half_away_bounds; [lia|].
  unfold INT_MIN, INT_MAX. change (2 ^ 31) with 2147483648. lia.
Qed.

Lemma average_prep_time_witness :
  Kitchen.calculateAvgPrepTime Sample.pantry Sample.stocked = Ok 57.
Proof.
  refine (eq_trans (average_prep_time Sample.pantry Sample.stocked _ _ _ _) _).
  - unfold Invariant.bag_ok. simpl. lia.
  - intros p Hp. vm_compute in Hp.
    repeat (apply elem_of_cons in Hp as [->|Hp]; [eexists; reflexivity|]).
    apply elem_of_nil in Hp. destruct Hp.
  - repeat (constructor; [vm_compute; split; discriminate|]). constructor.
  - vm_compute. discriminate.
  - reflexivity.
Defined.

(** C6.  [calculateElaboratePercentage()] returns 0 when the kitchen is
    empty or the counter of elaborate dishes is 0.  For a positive counter
    [c] and a size [s] it returns the binary64 quotient by 100 of an integer
    [N] that is a nearest integer of [10000 * c / s], which is what
    [round(c / s * 10000) / 100] evaluates to in binary64; with a counter
    of 7 and 13 dishes held, [N] is 5385 and the result is the binary64
    number nearest to 53.85. *)
Theorem elaborate_percentage (k : Kitchen.t) :
  (Kitchen.getCurrentSize k = 0 \/ Kitchen.count_elaborate_ k = 0 ->
   Kitchen.calculateElaboratePercentage k = Double.canonical 0)
  /\ (0 < Kitchen.count_elaborate_ k <= INT_MAX ->
      0 < Kitchen.getCurrentSize k <= INT_MAX ->
      exists N : Z,
        - Kitchen.getCurrentSize k
        <= 2 * (N * Kitchen.getCurrentSize k
                - 10000 * Kitchen.count_elaborate_ k)
        <= Kitchen.getCurrentSize k
        /\ 0 <= N <= 10000 * Kitchen.count_elaborate_ k
        /\ Kitchen.calculateElaboratePercentage k
           = SF64div (Double.canonical N) (Double.canonical 100))
  /\ (Kitchen.count_elaborate_ k = 7 -> Kitchen.getCurrentSize k = 13 ->
      Kitchen.calculateElaboratePercentage k
      = SF64div (Double.canonical 5385) (Double.canonical 100)
      /\ Kitchen.calculateElaboratePercentage k
         = S754_finite false 7578713747934413 (-47)).
Proof.
  unfold Kitchen.calculateElaboratePercentage.
  split; [|split].
  - intros [->| ->]; [reflexivity|]. rewrite orb_true_r. reflexivity.
  - intros Hc Hs.
    destruct (Z.eqb_spec (Kitchen.getCurrentSize k) 0) as [|_]; [lia|].
    destruct (Z.eqb_spec (Kitchen.count_elaborate_ k) 0) as [|_]; [lia|].
    cbn [orb].
    destruct (percentage_expression _ _ Hc Hs) as (N & Hnear & HN & Heq).
    exists N. split; [exact Hnear|]. split; [|exact Heq].
    split; [exact HN|].
    remember (Kitchen.getCurrentSize k) as s eqn:Es.
    remember (Kitchen.count_elaborate_ k) as c eqn:Ec.
    clear - Hc Hs Hnear HN.
    destruct (Z.le_gt_cases N (10000 * c)) as [|Hgt]; [assumption|exfalso].
    assert (2 * (10000 * c + 1) * s <= 2 * N * s) by nia.
    assert (20000 * c <= 20000 * c * s) by nia.
    lia.
  - intros -> ->. split; vm_compute; reflexivity.
Qed.

Lemma elaborate_percentage_witness :
  Kitchen.calculateElaboratePercentage
    (Kitchen.mk (ArrayBag.mk (repeat 1%N 13) 13) 0 7)
  = S754_finite false 7578713747934413 (-47).
Proof.
  apply (proj2 (proj2 (elaborate_percentage
                         (Kitchen.mk (ArrayBag.mk (repeat 1%N 13) 13) 0 7))));
    reflexivity.
Defined.

End Claims.

Module TallyFacts.
Import CxxFacts BagFacts KitchenFacts Invariant Kitchen Tally.

Lemma dishes_of_cons sigma c p l :
  dishes_of sigma c (p :: l)
  = (if has_cuisine sigma c p then 1 else 0) + dishes_of sigma c l.
Proof.
  unfold dishes_of. cbn [List.filter].
  destruct (has_cuisine sigma c p); cbn [length]; lia.
Qed.

Lemma dishes_of_app sigma c l1 l2 :
  dishes_of sigma c (l1 ++ l2) = dishes_of sigma c l1 + dishes_of sigma c l2.
Proof.
  unfold dishes_of. rewrite List.filter_app, length_app. lia.
Qed.

Lemma dishes_of_bounds sigma c l :
  0 <= dishes_of sigma c l <= Z.of_nat (length l).
Proof.
  unfold dishes_of.
  pose proof (List.filter_length_le (has_cuisine sigma c) l). lia.
Qed.

Lemma dishes_of_perm sigma c l1 l2 :
  l1 ≡ₚ l2 -> dishes_of sigma c l1 = dishes_of sigma c l2.
Proof.
  intros H. induction H as [|x l l' _ IH|x y l|l l' l'' _ IH1 _ IH2].
  - reflexivity.
  - rewrite !dishes_of_cons, IH. reflexivity.
  - rewrite !dishes_of_cons. lia.
  - congruence.
Qed.

(** The counting loop from slot [i] on. *)
Lemma tally_loop_spec sigma c (items : list N) (n : nat) :
  forall (m i : nat) (count : Z),
    (i + m = n)%nat ->
    (n <= length items)%nat ->
    Z.of_nat n <= INT_MAX ->
    (forall p, p ∈ take n items -> is_Some (sigma !! p)) ->
    0 <= count <= Z.of_nat i ->
    tally_loop sigma c items (seq i m) count
    = Ok (count + dishes_of sigma c (drop i (take n items))).
Proof.
  induction m as [|m IH]; intros i count Him Hn Hcap Hlive Hc; simpl.
  - rewrite drop_ge by (rewrite length_take; lia).
    unfold dishes_of. simpl. f_equal. lia.
  - assert (Hi : exists p, items !! i = Some p)
      by (apply lookup_lt_is_Some; lia).
    destruct Hi as [p Hp].
    assert (Hp' : take n items !! i = Some p)
      by (apply lookup_take_Some; split; [exact Hp | lia]).
    rewrite (drop_S _ _ _ Hp'), dishes_of_cons.
    unfold item_at. rewrite Hp. cbn [Cxx.bind].
    destruct (Hlive p) as [d Hd].
    { apply list_elem_of_lookup. exists i. exact Hp'. }
    unfold deref. rewrite Hd. cbn [Cxx.bind].
    unfold has_cuisine at 1. rewrite Hd.
    destruct (String.eqb (Dish.getCuisineType (base d)) c).
    + unfold int_add. rewrite int_result_in
        by (unfold INT_MIN, INT_MAX in *; lia).
      cbn [Cxx.bind]. rewrite IH by (try assumption; lia). f_equal. lia.
    + rewrite IH by (try assumption; lia). f_equal.
Qed.

(** Every dish has one of the seven cuisine strings. *)
Lemma getCuisineType_reported (d : Dish.t) :
  In (Dish.getCuisineType d) reported.
Proof.
  unfold Dish.getCuisineType, reported.
  destruct (Dish.cuisine_type_ d); simpl; auto 10.
Qed.

Lemma dishes_of_other sigma c l :
  ~ In c reported -> dishes_of sigma c l = 0.
Proof.
  intros Hc. induction l as [|p l IH]; [reflexivity|].
  rewrite dishes_of_cons, IH. unfold has_cuisine.
  destruct (sigma !! p) as [d|]; [|reflexivity].
  destruct (String.eqb_spec (Dish.getCuisineType (base d)) c) as [E|_];
    [|reflexivity].
  exfalso. apply Hc. rewrite <- E. apply getCuisineType_reported.
Qed.

Lemma dishes_of_reported sigma l :
  (forall p, p ∈ l -> is_Some (sigma !! p)) ->
  foldr Z.add 0 (map (fun c => dishes_of sigma c l) reported)
  = Z.of_nat (length l).
Proof.
  induction l as [|p l IH]; intros Hlive; [reflexivity|].
  assert (IH' := IH (fun q Hq => Hlive q (list_elem_of_further _ _ _ Hq))).
  destruct (Hlive p) as [d Hd]; [left|].
  cbn [map reported foldr] in *. rewrite !dishes_of_cons.
  unfold has_cuisine. rewrite Hd. unfold Dish.getCuisineType.
  destruct (Dish.cuisine_type_ (base d)); cbn [String.eqb Ascii.eqb Bool.eqb];
    cbn [length]; lia.
Qed.

End TallyFacts.

Module ServeFacts.
Import CxxFacts BagFacts RecomputeFacts KitchenFacts Recompute Invariant
  Kitchen Ranges.

Lemma prep_times_nonneg sigma l :
  Forall (fun p => 0 <= prep_time_at sigma p) l -> 0 <= prep_times sigma l.
Proof.
  induction 1 as [|p l Hp _ IH]; simpl; lia.
Qed.

(** Serving a dish that is held returns, with [true], and keeps a sound
    kitchen sound. *)
Lemma serveDish_returns sigma p k :
  sound sigma k ->
  p ∈ ArrayBag.held (bag k) ->
  exists k',
    serveDish sigma p k = Ok (k', true)
    /\ sound sigma k'
    /\ ArrayBag.held (bag k) ≡ₚ p :: ArrayBag.held (bag k').
Proof.
  intros [Hok Hup Hr] Hin.
  pose proof (slots_ok _ _ Hok) as Hbag.
  destruct (held_live _ _ Hok p Hin) as [d Hd].
  assert (Hsize : (getCurrentSize k =? 0) = false).
  { apply Z.eqb_neq. unfold getCurrentSize, ArrayBag.getCurrentSize.
    pose proof (held_length _ Hbag) as Hlen.
    destruct (ArrayBag.held (bag k)); [inversion Hin|]. simpl in Hlen. lia. }
  destruct (serveDish sigma p k) as [[k' r]| |] eqn:E.
  - pose proof (serveDish_total_ok _ _ _ _ _ E Hok) as Hok'.
    pose proof (serveDish_counter _ _ _ _ _ E Hbag) as Hc.
    apply serveDish_spec in E; [|exact Hbag].
    destruct E as [(_ & _ & Hnot)
                  |(-> & d1 & idx & Hd1 & _ & Hperm & _ & Hcount & _ & _
                    & Htot & Hcnt)]; [contradiction|].
    exists k'. split; [reflexivity|]. split; [|exact Hperm].
    assert (Hnn : Forall (fun q => 0 <= prep_time_at sigma q)
                    (p :: ArrayBag.held (bag k'))).
    { rewrite <- Hperm. apply Hr. }
    apply Forall_cons in Hnn as [Hp Hnn'].
    split; [exact Hok' | |].
    + unfold counter_upper in *. lia.
    + pose proof (elaborate_dishes_nonneg sigma (ArrayBag.held (bag k'))).
      rewrite Hd in Hd1. injection Hd1 as <-.
      unfold prep_time_at in Hp. rewrite Hd in Hp.
      split; [exact Hnn' | | |].
      * pose proof (total_small _ _ Hr). lia.
      * pose proof (counter_small _ _ Hr).
        destruct (is_elaborate (base d)); lia.
      * pose proof (size_small _ _ Hr).
        unfold getCurrentSize, ArrayBag.getCurrentSize in *. lia.
  - exfalso. revert E. unfold serveDish. rewrite Hsize.
    destruct (ArrayBag.remove p (bag k)) as [b r] eqn:Er.
    apply remove_spec in Er; [|exact Hbag].
    destruct Er as [(_ & _ & Hnot)|(-> & idx & _ & Hperm & _)];
      [contradiction|].
    unfold deref. rewrite Hd. cbn [Cxx.bind].
    assert (Hsum : prep_time_sum sigma k
                   = prep_time_at sigma p
                     + prep_times sigma (ArrayBag.held b)).
    { unfold prep_time_sum. rewrite (prep_times_perm _ _ _ Hperm).
      reflexivity. }
    assert (Hnn : Forall (fun q => 0 <= prep_time_at sigma q)
                    (p :: ArrayBag.held b)).
    { rewrite <- Hperm. apply Hr. }
    apply Forall_cons in Hnn as [Hp Hnn'].
    pose proof (prep_times_nonneg _ _ Hnn') as Hrest.
    pose proof (total_is_sum _ _ Hok) as Htot.
    pose proof (total_small _ _ Hr) as Hsmall.
    unfold prep_time_at in Hsum, Hp. rewrite Hd in Hsum, Hp.
    unfold int_sub at 1.
    rewrite int_result_in by (unfold INT_MIN, INT_MAX in *; lia).
    cbn [Cxx.bind].
    destruct (is_elaborate (base d)) eqn:He.
    + assert (Hec : 1 <= elaborate_count sigma k).
      { unfold elaborate_count.
        rewrite (elaborate_dishes_perm _ _ _ Hperm), elaborate_dishes_cons.
        unfold elaborate_at. rewrite Hd, He.
        pose proof (elaborate_dishes_nonneg sigma (ArrayBag.held b)). lia. }
      pose proof (counter_small _ _ Hr).
      unfold counter_upper in Hup. unfold int_sub.
      rewrite int_result_in by (unfold INT_MIN, INT_MAX in *; lia).
      discriminate.
    + discriminate.
  - exfalso. revert E. unfold serveDish. rewrite Hsize.
    destruct (ArrayBag.remove p (bag k)) as [b [|]].
    + unfold deref. rewrite Hd. cbn [Cxx.bind].
      unfold int_sub, int_result.
      destruct (in_int _); cbn [Cxx.bind]; [|discriminate].
      destruct (is_elaborate _); [|discriminate].
      destruct (in_int _); discriminate.
    + discriminate.
Qed.

End ServeFacts.

Module CuisineReleaseFacts.
Import CxxFacts BagFacts RecomputeFacts KitchenFacts Recompute Invariant
  Kitchen Ranges Tally TallyFacts ServeFacts.

(** The slot [i] of a kitchen, below its size, is held. *)
Lemma slot_held (k : t) (i : nat) :
  bag_ok (bag k) -> (i < ArrayBag.item_count_ (bag k))%nat ->
  exists p, ArrayBag.items_ (bag k) !! i = Some p
            /\ p ∈ ArrayBag.held (bag k).
Proof.
  intros Hbag Hi.
  destruct (lookup_lt_is_Some_2 (ArrayBag.items_ (bag k)) i) as [p Hp];
    [unfold bag_ok in Hbag; lia|].
  exists p. split; [exact Hp|].
  apply list_elem_of_lookup. exists i. apply held_lookup. auto.
Qed.

(** The loop returns from every sound kitchen: it takes out dishes of the
    cuisine only, counts them, and leaves a sound kitchen. *)
Lemma release_cuisine_loop_returns sigma c :
  forall (fuel i : nat) (k : t) (count : Z),
    (ArrayBag.item_count_ (bag k) - i <= fuel)%nat ->
    sound sigma k ->
    0 <= count <= Z.of_nat i ->
    exists k' removed,
      release_cuisine_loop fuel sigma c i k count
      = Ok (k', count + Z.of_nat (length removed))
      /\ sound sigma k'
      /\ ArrayBag.held (bag k) ≡ₚ removed ++ ArrayBag.held (bag k')
      /\ Forall (fun p => has_cuisine sigma c p = true) removed
      /\ (removed = [] -> k' = k).
Proof.
  induction fuel as [|fuel IH]; intros i k count Hfuel Hs Hc.
  - exists k, []. simpl.
    destruct (Nat.ltb_spec i (ArrayBag.item_count_ (bag k))); [lia|].
    rewrite Z.add_0_r.
    split; [reflexivity|]. split; [exact Hs|]. split; [reflexivity|].
    split; [constructor | reflexivity].
  - cbn [release_cuisine_loop].
    destruct (Nat.ltb_spec i (ArrayBag.item_count_ (bag k))) as [Hi|Hi].
    2:{ exists k, []. simpl. rewrite Z.add_0_r.
        split; [reflexivity|]. split; [exact Hs|]. split; [reflexivity|].
        split; [constructor | reflexivity]. }
    pose proof (slots_ok _ _ (sound_total _ _ Hs)) as Hbag.
    destruct (slot_held k i Hbag Hi) as (p & Hp & Hin).
    unfold item_at. rewrite Hp. cbn [Cxx.bind].
    destruct (held_live _ _ (sound_total _ _ Hs) p Hin) as [d Hd].
    unfold deref. rewrite Hd. cbn [Cxx.bind].
    destruct (String.eqb (Dish.getCuisineType (base d)) c) eqn:Hm.
    + pose proof (size_small _ _ (sound_range _ _ Hs)) as Hsz.
      unfold getCurrentSize, ArrayBag.getCurrentSize in Hsz.
      unfold int_add. rewrite int_result_in
        by (unfold INT_MIN, INT_MAX in *; lia).
      cbn [Cxx.bind].
      destruct (serveDish_returns sigma p k Hs Hin) as (k1 & -> & Hs1 & Hperm).
      cbn [Cxx.bind].
      assert (Hcount1 : S (ArrayBag.item_count_ (bag k1))
                        = ArrayBag.item_count_ (bag k)).
      { pose proof (held_length _ Hbag) as H1.
        pose proof (held_length _ (slots_ok _ _ (sound_total _ _ Hs1))) as H2.
        apply Permutation_length in Hperm. simpl in Hperm. lia. }
      destruct (IH (S i) k1 (count + 1)) as (k' & removed & -> & Hs' & Hp' & Hall & _);
        [lia | exact Hs1 | lia |].
      exists k', (p :: removed). split; [f_equal; f_equal; simpl; lia|].
      split; [exact Hs'|]. split.
      * rewrite Hperm, Hp'. reflexivity.
      * split; [|discriminate]. constructor; [|exact Hall].
        unfold has_cuisine. rewrite Hd. exact Hm.
    + destruct (IH (S i) k count) as (k' & removed & -> & Hrest);
        [lia | exact Hs | lia |].
      exists k', removed. split; [reflexivity | exact Hrest].
Qed.

(** With nothing but dishes of the cuisine held, every round removes the
    dish at [i] and steps over the dish moved into its slot: half of what
    is left from [i] on, rounded up, is removed. *)
Lemma release_cuisine_loop_all sigma c :
  forall (fuel i : nat) (k : t) (count : Z) (k' : t) (count' : Z),
    release_cuisine_loop fuel sigma c i k count = Ok (k', count') ->
    bag_ok (bag k) ->
    Forall (fun p => has_cuisine sigma c p = true) (ArrayBag.held (bag k)) ->
    count' = count + (Z.of_nat (ArrayBag.item_count_ (bag k) - i) + 1) / 2
    /\ Z.of_nat (ArrayBag.item_count_ (bag k'))
       = Z.of_nat (ArrayBag.item_count_ (bag k))
         - (Z.of_nat (ArrayBag.item_count_ (bag k) - i) + 1) / 2.
Proof.
  induction fuel as [|fuel IH]; intros i k count k' count' H Hbag Hall;
    cbn [release_cuisine_loop] in H;
    destruct (Nat.ltb_spec i (ArrayBag.item_count_ (bag k))) as [Hlt|Hge];
    try discriminate.
  - injection H as <- <-.
    replace (ArrayBag.item_count_ (bag k) - i)%nat with 0%nat by lia.
    change ((Z.of_nat 0 + 1) / 2) with 0. lia.
  - destruct (slot_held k i Hbag Hlt) as (p & Hp & Hin).
    unfold item_at in H. rewrite Hp in H. cbn [Cxx.bind] in H.
    apply bind_Ok in H as (d & Hd & H). apply deref_Ok in Hd.
    rewrite Forall_forall in Hall. pose proof (Hall p Hin) as Hm.
    unfold has_cuisine in Hm. rewrite Hd in Hm. rewrite Hm in H.
    apply bind_Ok in H as (c1 & Hc1 & H).
    apply int_result_Ok in Hc1 as [-> _].
    apply bind_Ok in H as ([k1 r1] & Hsv & H).
    apply serveDish_spec in Hsv; [|exact Hbag].
    destruct Hsv as [(_ & _ & Hnot)
                    |(_ & d1 & idx & _ & _ & Hperm & Hbag1 & Hcount & _)];
      [contradiction|].
    apply IH in H; [| exact Hbag1 |].
    + destruct H as [-> Hk']. rewrite Hk'. clear Hk'.
      destruct (Nat.eq_dec (ArrayBag.item_count_ (bag k) - i)%nat 1%nat)
        as [E1|E1].
      * rewrite E1.
        replace (ArrayBag.item_count_ (bag k1) - S i)%nat with 0%nat by lia.
        change ((Z.of_nat 0 + 1) / 2) with 0.
        change ((Z.of_nat 1 + 1) / 2) with 1. lia.
      * replace (ArrayBag.item_count_ (bag k) - i)%nat
          with (S (S (ArrayBag.item_count_ (bag k1) - S i)))%nat by lia.
        set (r := (ArrayBag.item_count_ (bag k1) - S i)%nat).
        replace (Z.of_nat (S (S r)) + 1) with (Z.of_nat r + 1 + 1 * 2) by lia.
        rewrite Z.div_add by lia. lia.
    + apply Forall_forall. intros q Hq. apply Hall.
      rewrite Hperm. right. exact Hq.
  - injection H as <- <-.
    replace (ArrayBag.item_count_ (bag k) - i)%nat with 0%nat by lia.
    change ((Z.of_nat 0 + 1) / 2) with 0. lia.
Qed.

End CuisineReleaseFacts.

Module ReleaseReturns.
Import CxxFacts BagFacts RecomputeFacts KitchenFacts Recompute Invariant
  Kitchen Ranges ServeFacts.

(** The loop of [releaseDishesBelowPrepTime] returns from every sound
    kitchen: the slot it reads next holds a dish that is still held, although
    the loop runs up to the size it read before the first removal. *)
Lemma release_loop_returns sigma prep_time (items0 : list N) (n0 : nat) :
  forall (m i : nat) (k : t) (c : Z),
    (i + m = n0)%nat ->
    (n0 <= length items0)%nat ->
    Z.of_nat n0 <= INT_MAX ->
    sound sigma k ->
    (forall j, (i <= j)%nat -> ArrayBag.items_ (bag k) !! j = items0 !! j) ->
    ArrayBag.held (bag k)
      ≡ₚ List.filter (fun p => negb (below sigma prep_time p))
           (take i (take n0 items0))
         ++ drop i (take n0 items0) ->
    0 <= c <= Z.of_nat i ->
    exists k' c', release_loop sigma prep_time (seq i m) k c = Ok (k', c').
Proof.
  induction m as [|m IH]; intros i k c Him Hn0 Hcap Hs Hslots Hheld Hc;
    cbn [seq release_loop].
  - eauto.
  - assert (Hi : exists p, items0 !! i = Some p)
      by (apply lookup_lt_is_Some; lia).
    destruct Hi as [p Hp].
    assert (Hp' : take n0 items0 !! i = Some p)
      by (apply lookup_take_Some; split; [exact Hp | lia]).
    assert (Hdrop : drop i (take n0 items0) = p :: drop (S i) (take n0 items0))
      by (apply drop_S; exact Hp').
    assert (Htake : take (S i) (take n0 items0)
                    = take i (take n0 items0) ++ [p])
      by (apply take_S_r; exact Hp').
    assert (Hin : p ∈ ArrayBag.held (bag k)).
    { rewrite Hheld, Hdrop. apply elem_of_app. right. left. }
    pose proof (slots_ok _ _ (sound_total _ _ Hs)) as Hbag.
    unfold item_at. rewrite (Hslots i), Hp by lia. cbn [Cxx.bind].
    destruct (held_live _ _ (sound_total _ _ Hs) p Hin) as [d Hd].
    unfold deref. rewrite Hd. cbn [Cxx.bind].
    assert (Hb : (Dish.getPrepTime (base d) <? prep_time)
                 = below sigma prep_time p).
    { unfold below, prep_time_at. rewrite Hd. reflexivity. }
    rewrite Hb.
    destruct (below sigma prep_time p) eqn:Hbelow.
    + unfold int_add. rewrite int_result_in
        by (unfold INT_MIN, INT_MAX in *; lia).
      cbn [Cxx.bind].
      destruct (serveDish_returns sigma p k Hs Hin) as (k1 & Hsv & Hs1 & Hperm).
      rewrite Hsv. cbn [Cxx.bind].
      apply serveDish_spec in Hsv; [|exact Hbag].
      destruct Hsv as [(Hf & _)
                      |(_ & d1 & idx & _ & Hidx & _ & _ & _ & _ & Hother & _)];
        [discriminate|].
      apply getIndexOf_Some in Hidx as [Hidx Hfirst].
      assert (Hle : (idx <= i)%nat).
      { destruct (le_lt_dec idx i) as [|Hlt]; [assumption|exfalso].
        apply (Hfirst i p); [|exact Hlt|reflexivity].
        apply held_lookup in Hidx as [_ Hcount].
        apply held_lookup. split; [|lia]. rewrite Hslots by lia. exact Hp. }
      apply (IH (S i) k1 (c + 1)); [lia | exact Hn0 | exact Hcap | exact Hs1
                                   | | | lia].
      * intros j Hj. rewrite Hother by lia. apply Hslots. lia.
      * rewrite Htake, List.filter_app. cbn [List.filter]. rewrite Hbelow.
        cbn [negb]. rewrite app_nil_r.
        rewrite Hheld, Hdrop in Hperm.
        rewrite <- Permutation_middle in Hperm.
        apply Permutation_cons_inv in Hperm. symmetry. exact Hperm.
    + apply (IH (S i) k c); [lia | exact Hn0 | exact Hcap | exact Hs | | | lia].
      * intros j Hj. apply Hslots. lia.
      * rewrite Htake, List.filter_app. cbn [List.filter]. rewrite Hbelow.
        cbn [negb]. rewrite <- app_assoc. cbn [app].
        rewrite Hheld, Hdrop. reflexivity.
Qed.

End ReleaseReturns.

Module AdjustFacts.
Import CxxFacts BagFacts RecomputeFacts KitchenFacts Recompute Invariant
  Kitchen.

(** Serving a held, live dish returns [true] as soon as the two subtractions
    stay within [int]. *)
Lemma serveDish_defined sigma p k d :
  bag_ok (bag k) ->
  p ∈ ArrayBag.held (bag k) ->
  sigma !! p = Some d ->
  INT_MIN <= total_prep_time_ k - Dish.getPrepTime (base d) <= INT_MAX ->
  (is_elaborate (base d) = true ->
   INT_MIN <= count_elaborate_ k - 1 <= INT_MAX) ->
  exists k', serveDish sigma p k = Ok (k', true).
Proof.
  intros Hbag Hin Hd Ht Hc. unfold serveDish.
  assert (Hsize : (getCurrentSize k =? 0) = false).
  { apply Z.eqb_neq. unfold getCurrentSize, ArrayBag.getCurrentSize.
    pose proof (held_length _ Hbag) as Hlen.
    destruct (ArrayBag.held (bag k)); [inversion Hin|]. simpl in Hlen. lia. }
  rewrite Hsize.
  destruct (ArrayBag.remove p (bag k)) as [b r] eqn:Er.
  apply remove_spec in Er; [|exact Hbag].
  destruct Er as [(_ & _ & Hnot)|(-> & _)]; [contradiction|].
  unfold deref. rewrite Hd. cbn [Cxx.bind].
  unfold int_sub at 1. rewrite int_result_in by exact Ht. cbn [Cxx.bind].
  destruct (is_elaborate (base d)).
  - unfold int_sub. rewrite int_result_in by (apply Hc; reflexivity).
    cbn [Cxx.bind]. eauto.
  - cbn [Cxx.bind]. eauto.
Qed.

(** The loop of [dietaryAdjustment] over distinct pointers: each dish from
    slot [i] on is accommodated once, every other object is left alone. *)
Lemma adjust_loop_pointwise request (items : list N) (n : nat) :
  forall (m i : nat) (sigma sigma' : store),
    (i + m = n)%nat ->
    (n <= length items)%nat ->
    NoDup (take n items) ->
    adjust_loop request items (seq i m) sigma = Ok sigma' ->
    (forall p, p ∈ drop i (take n items) ->
       exists d d', sigma !! p = Some d
                    /\ dietaryAccommodations request d = Ok d'
                    /\ sigma' !! p = Some d')
    /\ (forall p, p ∉ drop i (take n items) -> sigma' !! p = sigma !! p).
Proof.
  induction m as [|m IH]; intros i sigma sigma' Him Hn Hnd H;
    cbn [seq adjust_loop] in H.
  - injection H as <-.
    rewrite drop_ge by (rewrite length_take; lia).
    split; [intros p Hp; inversion Hp | reflexivity].
  - assert (Hi : exists p, items !! i = Some p)
      by (apply lookup_lt_is_Some; lia).
    destruct Hi as [p Hp].
    assert (Hp' : take n items !! i = Some p)
      by (apply lookup_take_Some; split; [exact Hp | lia]).
    assert (Hdrop : drop i (take n items) = p :: drop (S i) (take n items))
      by (apply drop_S; exact Hp').
    unfold item_at in H. rewrite Hp in H. cbn [Cxx.bind] in H.
    apply bind_Ok in H as (d & Hd & H). apply deref_Ok in Hd.
    apply bind_Ok in H as (d' & Hd' & H).
    apply IH in H; [| lia | exact Hn | exact Hnd].
    destruct H as [Hin Hout].
    assert (Hfresh : p ∉ drop (S i) (take n items)).
    { pose proof Hnd as Hnd'.
      rewrite <- (take_drop i (take n items)), Hdrop in Hnd'.
      apply NoDup_app in Hnd' as (_ & _ & Hnd').
      apply NoDup_cons in Hnd' as [Hnot _]. exact Hnot. }
    rewrite Hdrop. split.
    + intros q Hq. apply elem_of_cons in Hq as [->|Hq].
      * exists d, d'. split; [exact Hd|]. split; [exact Hd'|].
        rewrite (Hout p Hfresh). apply lookup_insert_eq.
      * destruct (Hin q Hq) as (dq & dq' & Hdq & Hacc & Hq').
        assert (Hne : p <> q) by (intros ->; contradiction).
        rewrite lookup_insert_ne in Hdq by exact Hne.
        exists dq, dq'. auto.
    + intros q Hq. apply not_elem_of_cons in Hq as [Hne Hq].
      rewrite (Hout q Hq). apply lookup_insert_ne. congruence.
Qed.

(** The loop returns when every accommodation it makes returns. *)
Lemma adjust_loop_returns request (items : list N) (n : nat) :
  forall (m i : nat) (sigma : store),
    (i + m = n)%nat ->
    (n <= length items)%nat ->
    NoDup (take n items) ->
    (forall p, p ∈ drop i (take n items) ->
       exists d d', sigma !! p = Some d
                    /\ dietaryAccommodations request d = Ok d') ->
    exists sigma', adjust_loop request items (seq i m) sigma = Ok sigma'.
Proof.
  induction m as [|m IH]; intros i sigma Him Hn Hnd Hall;
    cbn [seq adjust_loop].
  - eauto.
  - assert (Hi : exists p, items !! i = Some p)
      by (apply lookup_lt_is_Some; lia).
    destruct Hi as [p Hp].
    assert (Hp' : take n items !! i = Some p)
      by (apply lookup_take_Some; split; [exact Hp | lia]).
    assert (Hdrop : drop i (take n items) = p :: drop (S i) (take n items))
      by (apply drop_S; exact Hp').
    assert (Hfresh : p ∉ drop (S i) (take n items)).
    { pose proof Hnd as Hnd'.
      rewrite <- (take_drop i (take n items)), Hdrop in Hnd'.
      apply NoDup_app in Hnd' as (_ & _ & Hnd').
      apply NoDup_cons in Hnd' as [Hnot _]. exact Hnot. }
    unfold item_at. rewrite Hp. cbn [Cxx.bind].
    destruct (Hall p) as (d & d' & Hd & Hd').
    { rewrite Hdrop. left. }
    unfold deref. rewrite Hd. cbn [Cxx.bind]. rewrite Hd'. cbn [Cxx.bind].
    apply (IH (S i)); [lia | exact Hn | exact Hnd |].
    intros q Hq. destruct (Hall q) as (dq & dq' & Hdq & Hacc).
    { rewrite Hdrop. right. exact Hq. }
    exists dq, dq'. split; [|exact Hacc].
    rewrite lookup_insert_ne; [exact Hdq|]. intros ->. contradiction.
Qed.

End AdjustFacts.

Module SampleFacts.
Import KitchenFacts SessionFacts Invariant Ranges.

(** The sample kitchen is sound. *)
Lemma stocked_sound : sound Sample.pantry Sample.stocked.
Proof.
  assert (E : Session.run 10 false Sample.three_orders
                (Sample.pantry, Kitchen.empty)
              = Ok (Sample.pantry, Sample.stocked))
    by (vm_compute; reflexivity).
  apply run_invariants in E as (Hok & Hup & _); [|apply empty_total_ok].
  split; [exact Hok | |].
  - apply Hup. unfold counter_upper. vm_compute. discriminate.
  - split.
    + unfold ArrayBag.held. cbn.
      repeat (constructor; [vm_compute; discriminate|]). constructor.
    + vm_compute. discriminate.
    + vm_compute. discriminate.
    + vm_compute. discriminate.
Qed.

(** So is the kitchen of one cuisine. *)
Lemma trattoria_sound : sound Trattoria.pantry Trattoria.stocked.
Proof.
  assert (E : Session.run 10 false Sample.three_orders
                (Trattoria.pantry, Kitchen.empty)
              = Ok (Trattoria.pantry, Trattoria.stocked))
    by (vm_compute; reflexivity).
  apply run_invariants in E as (Hok & Hup & _); [|apply empty_total_ok].
  split; [exact Hok | |].
  - apply Hup. unfold counter_upper. vm_compute. discriminate.
  - split.
    + unfold ArrayBag.held. cbn.
      repeat (constructor; [vm_compute; discriminate|]). constructor.
    + vm_compute. discriminate.
    + vm_compute. discriminate.
    + vm_compute. discriminate.
Qed.

End SampleFacts.

Module KitchenProperties.
Import CxxFacts BagFacts RecomputeFacts KitchenFacts Recompute Invariant
  Ranges Tally TallyFacts ServeFacts CuisineReleaseFacts ReleaseReturns
  AdjustFacts SampleFacts.

(** [tallyCuisineTypes(cuisine_type)], on a kitchen of at most [INT_MAX]
    live dishes, returns the number of dishes held whose cuisine string is
    [cuisine_type]. *)
Theorem tally_counts_cuisine
    (sigma : Kitchen.store) (cuisine_type : string) (k : Kitchen.t) :
  bag_ok (Kitchen.bag k) ->
  (forall p, p ∈ ArrayBag.held (Kitchen.bag k) -> is_Some (sigma !! p)) ->
  Kitchen.getCurrentSize k <= INT_MAX ->
  Kitchen.tallyCuisineTypes sigma cuisine_type k
  = Ok (cuisine_count sigma cuisine_type k).
Proof.
  intros Hbag Hlive Hcap. unfold Kitchen.tallyCuisineTypes.
  rewrite (tally_loop_spec sigma cuisine_type (ArrayBag.items_ (Kitchen.bag k))
             (ArrayBag.item_count_ (Kitchen.bag k))
             (ArrayBag.item_count_ (Kitchen.bag k)) 0%nat 0);
    [| lia | exact Hbag | exact Hcap | exact Hlive | simpl; lia].
  rewrite drop_0, Z.add_0_l. reflexivity.
Qed.

Lemma tally_counts_cuisine_witness :
  Kitchen.tallyCuisineTypes Sample.pantry "FRENCH" Sample.stocked = Ok 1.
Proof.
  refine (eq_trans (tally_counts_cuisine Sample.pantry "FRENCH" Sample.stocked
                      _ _ _) _).
  - apply stocked_sound.
  - apply stocked_sound.
  - vm_compute. discriminate.
  - reflexivity.
Defined.

(** The seven tallies [kitchenReport] prints add up to the number of dishes
    held, and [tallyCuisineTypes] returns 0 for every other string. *)
Theorem tallies_partition (sigma : Kitchen.store) (k : Kitchen.t) :
  bag_ok (Kitchen.bag k) ->
  (forall p, p ∈ ArrayBag.held (Kitchen.bag k) -> is_Some (sigma !! p)) ->
  Kitchen.getCurrentSize k <= INT_MAX ->
  (forall cuisine_type,
      ~ In cuisine_type reported ->
      Kitchen.tallyCuisineTypes sigma cuisine_type k = Ok 0)
  /\ exists tallies : list Z,
       Forall2 (fun c n => Kitchen.tallyCuisineTypes sigma c k = Ok n)
         reported tallies
       /\ foldr Z.add 0 tallies = Kitchen.getCurrentSize k.
Proof.
  intros Hbag Hlive Hcap.
  assert (Htally : forall c,
             Kitchen.tallyCuisineTypes sigma c k
             = Ok (cuisine_count sigma c k)).
  { intros c. unfold Kitchen.tallyCuisineTypes.
    rewrite (tally_loop_spec sigma c (ArrayBag.items_ (Kitchen.bag k))
               (ArrayBag.item_count_ (Kitchen.bag k))
               (ArrayBag.item_count_ (Kitchen.bag k)) 0%nat 0);
      [| lia | exact Hbag | exact Hcap | exact Hlive | simpl; lia].
    rewrite drop_0, Z.add_0_l. reflexivity. }
  split.
  - intros c Hc. rewrite Htally. unfold cuisine_count.
    rewrite dishes_of_other by exact Hc. reflexivity.
  - exists (map (fun c => cuisine_count sigma c k) reported). split.
    + apply Forall2_fmap_r, Forall_Forall2_diag, Forall_forall.
      intros c _. apply Htally.
    + unfold cuisine_count. rewrite dishes_of_reported by exact Hlive.
      rewrite (held_length _ Hbag). reflexivity.
Qed.

Lemma tallies_partition_witness :
  Kitchen.tallyCuisineTypes Sample.pantry "Italian" Sample.stocked = Ok 0.
Proof.
  apply (tallies_partition Sample.pantry Sample.stocked).
  - apply stocked_sound.
  - apply stocked_sound.
  - vm_compute. discriminate.
  - vm_compute. intros H. decompose [or] H; discriminate || assumption.
Defined.

(** From a sound kitchen [releaseDishesOfCuisineType(cuisine_type)] returns.
    The dishes it takes out all have the cuisine, their number is the value
    returned, [getPrepTimeSum()] drops by their preparation times, and the
    kitchen stays sound; when no dish held has the cuisine the kitchen is
    left as it was and 0 is returned. *)
Theorem release_cuisine_removes_matching
    (sigma : Kitchen.store) (cuisine_type : string) (k : Kitchen.t) :
  sound sigma k ->
  exists (k' : Kitchen.t) (removed : list N),
    Kitchen.releaseDishesOfCuisineType sigma cuisine_type k
    = Ok (k', Z.of_nat (length removed))
    /\ sound sigma k'
    /\ ArrayBag.held (Kitchen.bag k) ≡ₚ removed ++ ArrayBag.held (Kitchen.bag k')
    /\ Forall (fun p => has_cuisine sigma cuisine_type p = true) removed
    /\ Kitchen.getPrepTimeSum k'
       = Kitchen.getPrepTimeSum k - prep_times sigma removed
    /\ (Forall (fun p => has_cuisine sigma cuisine_type p = false)
          (ArrayBag.held (Kitchen.bag k)) ->
        k' = k /\ removed = []).
Proof.
  intros Hs. unfold Kitchen.releaseDishesOfCuisineType.
  destruct (release_cuisine_loop_returns sigma cuisine_type
              (ArrayBag.item_count_ (Kitchen.bag k)) 0 k 0)
    as (k' & removed & E & Hs' & Hperm & Hall & Hsame);
    [lia | exact Hs | simpl; lia |].
  exists k', removed. rewrite E, Z.add_0_l.
  split; [reflexivity|]. split; [exact Hs'|]. split; [exact Hperm|].
  split; [exact Hall|]. split.
  - rewrite (getPrepTimeSum_recomputed _ _ (sound_total _ _ Hs')),
      (getPrepTimeSum_recomputed _ _ (sound_total _ _ Hs)).
    unfold prep_time_sum.
    rewrite (prep_times_perm _ _ _ Hperm), prep_times_app. lia.
  - intros Hnone.
    assert (Hnil : removed = []).
    { destruct removed as [|p removed]; [reflexivity|exfalso].
      apply Forall_cons in Hall as [Hp _].
      rewrite Forall_forall in Hnone.
      rewrite (Hnone p) in Hp; [discriminate|].
      rewrite Hperm. left. }
    split; [apply Hsame, Hnil | exact Hnil].
Qed.

Lemma release_cuisine_removes_matching_witness :
  exists k',
    Kitchen.releaseDishesOfCuisineType Sample.pantry "FRENCH" Sample.stocked
    = Ok (k', 1)
    /\ Kitchen.getPrepTimeSum k' = 80.
Proof.
  destruct (release_cuisine_removes_matching Sample.pantry "FRENCH"
              Sample.stocked stocked_sound)
    as (k' & removed & E & _ & _ & _ & _ & _).
  exists k'. pose proof E as E'. vm_compute in E'. injection E' as Hk Hn.
  assert (Hn' : Z.of_nat (length removed) = 1) by (symmetry; exact Hn).
  rewrite E, Hn', <- Hk. split; reflexivity.
Defined.

(** When every dish held has the cuisine, [releaseDishesOfCuisineType]
    removes only every other one: of [n] dishes it takes out [(n + 1) / 2]
    and leaves [n / 2] in the kitchen, because after a removal the loop
    steps over the dish moved into the freed slot. *)
Theorem release_cuisine_leaves_half
    (sigma : Kitchen.store) (cuisine_type : string) (k : Kitchen.t) :
  sound sigma k ->
  Forall (fun p => has_cuisine sigma cuisine_type p = true)
    (ArrayBag.held (Kitchen.bag k)) ->
  exists k' : Kitchen.t,
    Kitchen.releaseDishesOfCuisineType sigma cuisine_type k
    = Ok (k', (Kitchen.getCurrentSize k + 1) / 2)
    /\ Kitchen.getCurrentSize k' = Kitchen.getCurrentSize k / 2
    /\ Forall (fun p => has_cuisine sigma cuisine_type p = true)
         (ArrayBag.held (Kitchen.bag k')).
Proof.
  intros Hs Hall. unfold Kitchen.releaseDishesOfCuisineType.
  destruct (release_cuisine_loop_returns sigma cuisine_type
              (ArrayBag.item_count_ (Kitchen.bag k)) 0 k 0)
    as (k' & removed & E & _ & Hperm & _);
    [lia | exact Hs | simpl; lia |].
  pose proof E as E'.
  apply release_cuisine_loop_all in E';
    [| apply (sound_total _ _ Hs) | exact Hall].
  destruct E' as [Hcount Hsize].
  rewrite Nat.sub_0_r in Hcount, Hsize.
  exists k'. rewrite E, Hcount, Z.add_0_l.
  unfold Kitchen.getCurrentSize, ArrayBag.getCurrentSize.
  split; [reflexivity|]. split.
  - rewrite Hsize.
    pose proof (Z.div_mod (Z.of_nat (ArrayBag.item_count_ (Kitchen.bag k))) 2
                  ltac:(lia)) as Hdm.
    pose proof (Z.mod_pos_bound
                  (Z.of_nat (ArrayBag.item_count_ (Kitchen.bag k))) 2
                  ltac:(lia)) as Hm.
    remember (Z.of_nat (ArrayBag.item_count_ (Kitchen.bag k))) as n eqn:En.
    assert (Hhalf : (n + 1) / 2 = n / 2 + n mod 2).
    { destruct (Z.eq_dec (n mod 2) 0) as [E0|E0].
      - rewrite E0, Z.add_0_r.
        symmetry. apply Z.div_unique with (r := 1); lia.
      - symmetry. apply Z.div_unique with (r := 0); lia. }
    lia.
  - apply Forall_forall. intros p Hp.
    rewrite Forall_forall in Hall. apply Hall.
    rewrite Hperm. apply elem_of_app. right. exact Hp.
Qed.

Lemma release_cuisine_leaves_half_witness :
  exists k',
    Kitchen.releaseDishesOfCuisineType Trattoria.pantry "ITALIAN"
      Trattoria.stocked = Ok (k', 2)
    /\ Kitchen.getCurrentSize k' = 1
    /\ Forall (fun p => has_cuisine Trattoria.pantry "ITALIAN" p = true)
         (ArrayBag.held (Kitchen.bag k')).
Proof.
  apply (release_cuisine_leaves_half Trattoria.pantry "ITALIAN"
           Trattoria.stocked trattoria_sound).
  unfold ArrayBag.held. cbn.
  repeat (constructor; [vm_compute; reflexivity|]). constructor.
Defined.

(** From a sound kitchen [releaseDishesBelowPrepTime] returns: every slot
    it reads holds a pointer to a live dish, although it reads the slots up
    to the size the kitchen had before the first removal, and no [int]
    overflows. *)
Theorem release_below_prep_time_returns
    (sigma : Kitchen.store) (prep_time : Z) (k : Kitchen.t) :
  sound sigma k ->
  exists (k' : Kitchen.t) (count : Z),
    Kitchen.releaseDishesBelowPrepTime sigma prep_time k = Ok (k', count).
Proof.
  intros Hs. unfold Kitchen.releaseDishesBelowPrepTime.
  apply (release_loop_returns sigma prep_time
           (ArrayBag.items_ (Kitchen.bag k))
           (ArrayBag.item_count_ (Kitchen.bag k))).
  - lia.
  - apply (sound_total _ _ Hs).
  - apply (size_small _ _ (sound_range _ _ Hs)).
  - exact Hs.
  - reflexivity.
  - rewrite take_0, drop_0. reflexivity.
  - simpl. lia.
Qed.

Lemma release_below_prep_time_returns_witness :
  exists k' count,
    Kitchen.releaseDishesBelowPrepTime Sample.pantry 70 Sample.stocked
    = Ok (k', count).
Proof.
  exact (release_below_prep_time_returns Sample.pantry 70 Sample.stocked
           stocked_sound).
Defined.

(** An order that succeeds and a serve of the same dish cancel: the serve
    returns [true], and the running total, the counter of elaborate dishes
    and the dishes held are what they were before the order. *)
Theorem order_then_serve
    (cap : nat) (rd : bool) (sigma : Kitchen.store) (p : N)
    (k k1 : Kitchen.t) :
  bag_ok (Kitchen.bag k) ->
  INT_MIN <= Kitchen.total_prep_time_ k <= INT_MAX ->
  INT_MIN <= Kitchen.count_elaborate_ k <= INT_MAX ->
  Kitchen.newOrder cap rd sigma p k = Ok (k1, true) ->
  exists k2 : Kitchen.t,
    Kitchen.serveDish sigma p k1 = Ok (k2, true)
    /\ Kitchen.total_prep_time_ k2 = Kitchen.total_prep_time_ k
    /\ Kitchen.count_elaborate_ k2 = Kitchen.count_elaborate_ k
    /\ ArrayBag.held (Kitchen.bag k2) ≡ₚ ArrayBag.held (Kitchen.bag k)
    /\ Kitchen.getCurrentSize k2 = Kitchen.getCurrentSize k.
Proof.
  intros Hbag Ht Hc H.
  apply newOrder_spec in H; [|exact Hbag].
  destruct H as [(Hf & _)|(_ & d & Hd & Hheld & Hbag1 & Htot & Hcnt)];
    [discriminate|].
  assert (Hin : p ∈ ArrayBag.held (Kitchen.bag k1)).
  { rewrite Hheld. apply elem_of_app. right. left. }
  destruct (Kitchen.serveDish sigma p k1) as [[k2 r]| |] eqn:E.
  - apply serveDish_spec in E; [|exact Hbag1].
    destruct E as [(_ & _ & Hnot)
                  |(-> & d2 & idx & Hd2 & _ & Hperm & Hbag2 & Hcount & _ & _
                    & Htot2 & Hcnt2)]; [contradiction|].
    rewrite Hd in Hd2. injection Hd2 as <-.
    exists k2. split; [reflexivity|]. split; [lia|]. split; [lia|].
    assert (Hp : ArrayBag.held (Kitchen.bag k2)
                 ≡ₚ ArrayBag.held (Kitchen.bag k)).
    { rewrite Hheld in Hperm.
      rewrite <- Permutation_cons_append in Hperm.
      apply Permutation_cons_inv in Hperm. symmetry. exact Hperm. }
    split; [exact Hp|].
    unfold Kitchen.getCurrentSize, ArrayBag.getCurrentSize.
    rewrite <- (held_length _ Hbag2), <- (held_length _ Hbag).
    rewrite (Permutation_length Hp). reflexivity.
  - exfalso.
    destruct (serveDish_defined sigma p k1 d Hbag1 Hin Hd) as [k' E'].
    + lia.
    + intros He. rewrite He in Hcnt. lia.
    + congruence.
  - exfalso. revert E. unfold Kitchen.serveDish.
    destruct (Kitchen.getCurrentSize k1 =? 0); [discriminate|].
    destruct (ArrayBag.remove p (Kitchen.bag k1)) as [b [|]]; [|discriminate].
    unfold Kitchen.deref. rewrite Hd. cbn [Cxx.bind].
    unfold int_sub, int_result.
    destruct (in_int _); cbn [Cxx.bind]; [|discriminate].
    destruct (Kitchen.is_elaborate _); [|discriminate].
    destruct (in_int _); discriminate.
Qed.

Lemma order_then_serve_witness :
  exists k1 k2,
    Kitchen.newOrder 10 false Sample.pantry 1 Kitchen.empty = Ok (k1, true)
    /\ Kitchen.serveDish Sample.pantry 1 k1 = Ok (k2, true)
    /\ Kitchen.total_prep_time_ k2 = 0
    /\ Kitchen.count_elaborate_ k2 = 0.
Proof.
  assert (E : Kitchen.newOrder 10 false Sample.pantry 1 Kitchen.empty
              = Ok (Kitchen.mk (ArrayBag.mk [1%N] 1) 60 1, true))
    by (vm_compute; reflexivity).
  destruct (order_then_serve 10 false Sample.pantry 1 Kitchen.empty _
              ltac:(unfold bag_ok; simpl; lia)
              ltac:(vm_compute; split; discriminate)
              ltac:(vm_compute; split; discriminate) E)
    as (k2 & Hs & Ht & Hc & _).
  exists (Kitchen.mk (ArrayBag.mk [1%N] 1) 60 1), k2.
  split; [exact E|]. split; [exact Hs|]. split; [exact Ht | exact Hc].
Defined.

(** On a kitchen that holds no pointer twice, [dietaryAdjustment(request)]
    returns exactly when the accommodation of every dish held returns; it
    then replaces each dish held by its accommodated version and leaves
    every other object as it was. *)
Theorem dietary_adjustment_pointwise
    (request : Dish.DietaryRequest) (sigma : Kitchen.store) (k : Kitchen.t) :
  bag_ok (Kitchen.bag k) ->
  NoDup (ArrayBag.held (Kitchen.bag k)) ->
  (forall sigma',
      Kitchen.dietaryAdjustment request k sigma = Ok sigma' ->
      (forall p, p ∈ ArrayBag.held (Kitchen.bag k) ->
         exists d d', sigma !! p = Some d
                      /\ dietaryAccommodations request d = Ok d'
                      /\ sigma' !! p = Some d')
      /\ (forall p, p ∉ ArrayBag.held (Kitchen.bag k) ->
            sigma' !! p = sigma !! p))
  /\ ((forall p, p ∈ ArrayBag.held (Kitchen.bag k) ->
         exists d d', sigma !! p = Some d
                      /\ dietaryAccommodations request d = Ok d') ->
      exists sigma', Kitchen.dietaryAdjustment request k sigma = Ok sigma').
Proof.
  intros Hbag Hnd. unfold Kitchen.dietaryAdjustment, ArrayBag.held in *.
  split.
  - intros sigma' H.
    apply (adjust_loop_pointwise request (ArrayBag.items_ (Kitchen.bag k))
             (ArrayBag.item_count_ (Kitchen.bag k))) in H;
      [| lia | exact Hbag | exact Hnd].
    rewrite drop_0 in H. exact H.
  - intros Hall.
    apply (adjust_loop_returns request (ArrayBag.items_ (Kitchen.bag k))
             (ArrayBag.item_count_ (Kitchen.bag k)));
      [lia | exact Hbag | exact Hnd |].
    rewrite drop_0. exact Hall.
Qed.

Lemma dietary_adjustment_pointwise_witness :
  exists sigma',
    Kitchen.dietaryAdjustment Sample.vegetarian_only Sample.stocked
      Sample.pantry = Ok sigma'
    /\ sigma' !! 7%N = None
    /\ sigma' !! 3%N = Some (DessertObj Sample.sorbet).
Proof.
  destruct (dietary_adjustment_pointwise Sample.vegetarian_only Sample.pantry
              Sample.stocked) as [Hpoint _].
  - unfold bag_ok. simpl. lia.
  - apply (bool_decide_unpack _). vm_compute. reflexivity.
  - destruct (Kitchen.dietaryAdjustment Sample.vegetarian_only Sample.stocked
                Sample.pantry) as [sigma'| |] eqn:E;
      [|vm_compute in E; discriminate..].
    destruct (Hpoint sigma' eq_refl) as [Hin Hout].
    exists sigma'. split; [reflexivity|]. split.
    + apply Hout. apply (bool_decide_unpack _). vm_compute. reflexivity.
    + destruct (Hin 3%N) as (d & d' & Hd & Hacc & ->).
      { apply (bool_decide_unpack _). vm_compute. reflexivity. }
      vm_compute in Hd. injection Hd as <-.
      vm_compute in Hacc. injection Hacc as <-. reflexivity.
Defined.

End KitchenProperties.

Module PolicyFacts.
Import CxxFacts ScanFacts RemovalFacts Scan Accommodated.

Section Removal.
Context {A B : Type} (eqb : A -> B -> bool).

(** Nothing the removal policy keeps matches the table. *)
Lemma removal_clean (table : list B) (l : list A) :
  Forall (fun x => existsb (eqb x) table = false)
    (Policy.removal eqb table l).
Proof.
  unfold Policy.removal. induction l as [|x l IH]; [constructor|].
  cbn [List.filter]. destruct (existsb (eqb x) table) eqn:E; cbn [negb].
  - exact IH.
  - constructor; assumption.
Qed.

(** The removal policy keeps what holds of every element. *)
Lemma removal_Forall (P : A -> Prop) (table : list B) (l : list A) :
  Forall P l -> Forall P (Policy.removal eqb table l).
Proof.
  unfold Policy.removal. induction 1 as [|x l Hx _ IH]; [constructor|].
  cbn [List.filter]. destruct (negb (existsb (eqb x) table));
    [constructor; assumption | exact IH].
Qed.

(** It changes nothing in a list that has no match. *)
Lemma removal_id (table : list B) (l : list A) :
  Forall (fun x => existsb (eqb x) table = false) l ->
  Policy.removal eqb table l = l.
Proof.
  unfold Policy.removal. induction 1 as [|x l Hx _ IH]; [reflexivity|].
  cbn [List.filter]. rewrite Hx. cbn [negb]. rewrite IH. reflexivity.
Qed.

Lemma removal_length (table : list B) (l : list A) :
  (length (Policy.removal eqb table l) <= length l)%nat.
Proof. apply List.filter_length_le. Qed.

(** The removal loop stays inside a vector that has no match. *)
Lemma reads_outside_clean (front : list B) (final : B) (l : list A) :
  Forall (fun x => existsb (eqb x) (front ++ [final]) = false) l ->
  removal_reads_outside eqb front final l = false.
Proof.
  intros H. destruct H as [|x l Hx _]; [reflexivity|].
  rewrite existsb_app in Hx. apply orb_false_iff in Hx as [Hf Hl].
  cbn [existsb] in Hl. rewrite orb_false_r in Hl.
  cbn [removal_reads_outside]. rewrite Hf, Hl. reflexivity.
Qed.
End Removal.

Lemma substitution_clean (l : list string) :
  forall n, free_of nonVegIngredients (Policy.substitution n l).
Proof.
  unfold free_of. induction l as [|x l IH]; intros n; [constructor|].
  cbn [Policy.substitution].
  destruct (Policy.is_in nonVegIngredients x) eqn:E.
  - destruct n as [|[|n]]; [constructor | constructor | apply IH];
      [reflexivity | apply IH | reflexivity | apply IH].
  - constructor; [exact E | apply IH].
Qed.

Lemma substitution_id (l : list string) :
  free_of nonVegIngredients l ->
  forall n, Policy.substitution n l = l.
Proof.
  unfold free_of. induction 1 as [|x l Hx _ IH]; intros n; [reflexivity|].
  cbn [Policy.substitution]. rewrite Hx, IH. reflexivity.
Qed.

Lemma substitution_length (l : list string) :
  forall n, (length (Policy.substitution n l) <= length l)%nat.
Proof.
  induction l as [|x l IH]; intros n; [reflexivity|].
  cbn [Policy.substitution].
  destruct (Policy.is_in nonVegIngredients x).
  - destruct n as [|[|n]]; cbn [length];
      [specialize (IH 1%nat) | specialize (IH 2%nat)
       | specialize (IH (S (S (S n))))]; lia.
  - cbn [length]. specialize (IH n). lia.
Qed.

(** The removal loop over a table of names. *)
Lemma removal_scan_names (table : list string) (l : list string) :
  table <> [] ->
  vec_size l < SIZE_MODULUS ->
  removal_scan String.eqb table l
  = if scan_reads_outside table l then Undefined
    else Ok (Policy.removal String.eqb table l).
Proof.
  intros Hne Hl. unfold scan_reads_outside.
  pose proof (app_removelast_last EmptyString Hne) as E.
  set (front := removelast table) in *.
  set (final := List.last table EmptyString) in *.
  clearbody front final. subst table.
  apply removal_scan_spec. exact Hl.
Qed.

Lemma clamp_max (z : Z) : (if z <? 0 then 0 else z) = Z.max 0 z.
Proof. destruct (Z.ltb_spec z 0); lia. Qed.

Lemma substituted_length request l :
  (length (substituted request l) <= length l)%nat.
Proof.
  unfold substituted. destruct (Dish.vegetarian request); [|lia].
  apply substitution_length.
Qed.

Lemma without_length flag table l :
  (length (without flag table l) <= length l)%nat.
Proof.
  unfold without. destruct flag; [apply removal_length | lia].
Qed.

End PolicyFacts.

Module HandlerFacts.
Import CxxFacts ScanFacts RemovalFacts Scan Accommodated PolicyFacts.

Lemma size_modulus_above {A : Type} (l : list A) :
  vec_size l <= INT_MAX -> vec_size l < SIZE_MODULUS.
Proof.
  unfold INT_MAX, SIZE_MODULUS.
  change (2 ^ 31) with 2147483648. change (2 ^ 64) with 18446744073709551616.
  lia.
Qed.

Lemma substitution_size (l : list string) (n : nat) :
  vec_size l <= INT_MAX -> vec_size (Policy.substitution n l) <= INT_MAX.
Proof.
  intros H. pose proof (substitution_length l n). unfold vec_size in *. lia.
Qed.

Lemma removal_size {A B : Type} (eqb : A -> B -> bool) table (l : list A) :
  vec_size l <= INT_MAX -> vec_size (Policy.removal eqb table l) <= INT_MAX.
Proof.
  intros H. pose proof (removal_length eqb table l). unfold vec_size in *. lia.
Qed.

(** A removal loop over names, on a vector an [int] can count. *)
Lemma removal_scan_int (table l : list string) :
  table <> [] ->
  vec_size l <= INT_MAX ->
  removal_scan String.eqb table l
  = if scan_reads_outside table l then Undefined
    else Ok (Policy.removal String.eqb table l).
Proof.
  intros Hne Hl. apply removal_scan_names; [exact Hne|].
  apply size_modulus_above, Hl.
Qed.

(** The removal loop over the side dishes. *)
Lemma removal_scan_side_dishes (l : list MainCourse.SideDish) :
  vec_size l <= INT_MAX ->
  removal_scan MainCourse.side_dish_is MainCourse.gluten_side_dishes_category l
  = if removal_reads_outside MainCourse.side_dish_is
         [MainCourse.GRAIN; MainCourse.PASTA; MainCourse.BREAD]
         MainCourse.STARCHES l
    then Undefined
    else Ok (Policy.removal MainCourse.side_dish_is
               MainCourse.gluten_side_dishes_category l).
Proof.
  intros Hl.
  change MainCourse.gluten_side_dishes_category
    with ([MainCourse.GRAIN; MainCourse.PASTA; MainCourse.BREAD]
          ++ [MainCourse.STARCHES]).
  apply removal_scan_spec, size_modulus_above, Hl.
Qed.

End HandlerFacts.

(** Simplification of the records and the monad only, leaving the scans and
    the policies folded. *)
Ltac step_handlers :=
  cbn [Cxx.bind andb orb negb
       Dish.vegetarian Dish.vegan Dish.gluten_free Dish.nut_free
       Dish.low_sodium Dish.low_sugar
       Dish.name_ Dish.ingredients_ Dish.prep_time_ Dish.price_
       Dish.cuisine_type_
       Appetizer.dish Appetizer.serving_style_ Appetizer.spiciness_level_
       Appetizer.vegetarian_
       MainCourse.dish MainCourse.cooking_method_ MainCourse.protein_type_
       MainCourse.side_dishes_ MainCourse.gluten_free_
       Dessert.dish Dessert.flavor_profile_ Dessert.sweetness_level_
       Dessert.contains_nuts_].

Module HandlersInFull.
Import CxxFacts ScanFacts RemovalFacts Scan Accommodated PolicyFacts
  HandlerFacts.

(** [Appetizer::dietaryAccommodations] in full, for an appetizer of at most
    [INT_MAX] ingredients: it fails to return exactly when the low-sodium
    subtraction leaves [int] or the gluten loop reads outside the vector,
    and otherwise leaves the appetizer [Accommodated.appetizer] gives:
    ingredients substituted, then gluten removed; the level
    reduced by 2 and clamped at 0; the vegetarian flag set. *)
Lemma appetizer_handlers
    (request : Dish.DietaryRequest) (a : Appetizer.t) :
  vec_size (Dish.ingredients_ (Appetizer.dish a)) <= INT_MAX ->
  Appetizer.dietaryAccommodations request a
  = if appetizer_returns request a then Ok (appetizer request a)
    else Undefined.
Proof.
  intros Hl. destruct a as [[name l prep price cuisine] style level veg].
  cbn [Appetizer.dish Dish.ingredients_] in Hl.
  pose proof (substitution_size l 0 Hl) as Hl'.
  unfold Appetizer.dietaryAccommodations, appetizer_returns, appetizer,
    Appetizer.accommodate_vegetarian, Appetizer.accommodate_low_sodium,
    Appetizer.accommodate_gluten_free, Dish.getIngredients,
    Dish.setIngredients, substituted, without, reduced, int_sub, int_result.
  destruct request as [rveg rvegan rgf rnf rls rlsu].
  destruct rveg, rls, rgf; step_handlers;
    rewrite ?(vegetarian_scan_policy l Hl); step_handlers;
    try (destruct (in_int (level - 2)); step_handlers; [|reflexivity]);
    rewrite ?(removal_scan_int gluten_ingredients l ltac:(discriminate) Hl),
      ?(removal_scan_int gluten_ingredients (Policy.substitution 0 l)
          ltac:(discriminate) Hl');
    try (destruct (scan_reads_outside gluten_ingredients _);
         step_handlers);
    rewrite ?clamp_max; reflexivity.
Qed.

(** [MainCourse::dietaryAccommodations] in full, for a main course of at
    most [INT_MAX] ingredients and side dishes: it fails to return exactly
    when the dairy loop or the side-dish loop reads outside its vector, and
    otherwise leaves the main course the policies describe: ingredients
    substituted, then dairy and eggs removed; the protein "Tofu" on a
    vegetarian or vegan request; the side dishes of the four gluten
    categories removed and the gluten-free flag set. *)
Lemma main_course_handlers
    (request : Dish.DietaryRequest) (m : MainCourse.t) :
  vec_size (Dish.ingredients_ (MainCourse.dish m)) <= INT_MAX ->
  vec_size (MainCourse.side_dishes_ m) <= INT_MAX ->
  MainCourse.dietaryAccommodations request m
  = if main_course_returns request m then Ok (main_course request m)
    else Undefined.
Proof.
  intros Hl Hs.
  destruct m as [[name l prep price cuisine] method protein sides gf].
  cbn [MainCourse.dish Dish.ingredients_ MainCourse.side_dishes_] in Hl, Hs.
  pose proof (substitution_size l 0 Hl) as Hl'.
  unfold MainCourse.dietaryAccommodations, main_course_returns, main_course,
    MainCourse.accommodate_vegetarian, MainCourse.accommodate_vegan,
    MainCourse.accommodate_gluten_free, MainCourse.getSideDishes,
    Dish.getIngredients, Dish.setIngredients, substituted, without.
  destruct request as [rveg rvegan rgf rnf rls rlsu].
  destruct rveg, rvegan, rgf; step_handlers;
    rewrite ?(vegetarian_scan_policy l Hl); step_handlers;
    rewrite ?(removal_scan_int dairy_egg_ingredients l ltac:(discriminate) Hl),
      ?(removal_scan_int dairy_egg_ingredients (Policy.substitution 0 l)
          ltac:(discriminate) Hl');
    try (destruct (scan_reads_outside dairy_egg_ingredients _);
         step_handlers; [reflexivity|]);
    rewrite ?(removal_scan_side_dishes sides Hs);
    try (destruct (removal_reads_outside MainCourse.side_dish_is _ _ _);
         step_handlers);
    reflexivity.
Qed.

(** [Dessert::dietaryAccommodations] in full, for a dessert of at most
    [INT_MAX] ingredients: it fails to return exactly when the nut loop or
    the dairy loop reads outside the vector or the low-sugar subtraction
    leaves [int], and otherwise leaves the dessert the policies describe:
    nuts removed, then dairy and eggs; the level reduced by 3 and clamped at
    0; the contains-nuts flag cleared on a nut-free request. *)
Lemma dessert_handlers
    (request : Dish.DietaryRequest) (d : Dessert.t) :
  vec_size (Dish.ingredients_ (Dessert.dish d)) <= INT_MAX ->
  Dessert.dietaryAccommodations request d
  = if dessert_returns request d then Ok (dessert request d)
    else Undefined.
Proof.
  intros Hl. destruct d as [[name l prep price cuisine] flavor level nuts].
  cbn [Dessert.dish Dish.ingredients_] in Hl.
  pose proof (removal_size String.eqb nuts_ingredients l Hl) as Hl'.
  unfold Dessert.dietaryAccommodations, dessert_returns, dessert,
    Dessert.accommodate_nut_free, Dessert.accommodate_low_sugar,
    Dessert.accommodate_vegan, Dish.getIngredients, Dish.setIngredients,
    without, reduced, int_sub, int_result.
  destruct request as [rveg rvegan rgf rnf rls rlsu].
  destruct rnf, rlsu, rvegan; step_handlers;
    rewrite ?(removal_scan_int nuts_ingredients l ltac:(discriminate) Hl);
    try (destruct (scan_reads_outside nuts_ingredients _);
         step_handlers; [reflexivity|]);
    try (destruct (in_int (level - 3)); step_handlers; [|reflexivity]);
    rewrite ?(removal_scan_int dairy_egg_ingredients l ltac:(discriminate) Hl),
      ?(removal_scan_int dairy_egg_ingredients
          (Policy.removal String.eqb nuts_ingredients l)
          ltac:(discriminate) Hl');
    try (destruct (scan_reads_outside dairy_egg_ingredients _);
         step_handlers);
    rewrite ?clamp_max; reflexivity.
Qed.

End HandlersInFull.

Module MetFacts.
Import CxxFacts Scan Accommodated PolicyFacts HandlerFacts.

Lemma without_clean (table l : list string) :
  free_of table (without true table l).
Proof. apply (removal_clean String.eqb). Qed.

Lemma without_free flag (table table' l : list string) :
  free_of table l -> free_of table (without flag table' l).
Proof.
  unfold without. destruct flag; [|auto].
  apply (removal_Forall String.eqb).
Qed.

Lemma without_id flag (table l : list string) :
  free_of table l -> without flag table l = l.
Proof.
  unfold without. destruct flag; [|reflexivity].
  apply (removal_id String.eqb).
Qed.

Lemma substituted_id request (l : list string) :
  (Dish.vegetarian request = true -> free_of nonVegIngredients l) ->
  substituted request l = l.
Proof.
  unfold substituted. destruct (Dish.vegetarian request); [|reflexivity].
  intros H. apply substitution_id, H. reflexivity.
Qed.

Lemma substituted_clean request (l : list string) :
  Dish.vegetarian request = true ->
  free_of nonVegIngredients (substituted request l).
Proof.
  unfold substituted. intros ->. apply substitution_clean.
Qed.

(** The loop over names stays inside a vector free of them. *)
Lemma scan_stays_inside (table l : list string) :
  table <> [] -> free_of table l -> scan_reads_outside table l = false.
Proof.
  intros Hne H. unfold scan_reads_outside.
  apply reads_outside_clean.
  rewrite <- (app_removelast_last EmptyString Hne). exact H.
Qed.

End MetFacts.

Module DishProperties.
Import CxxFacts ScanFacts RemovalFacts Scan Accommodated PolicyFacts
  HandlerFacts HandlersInFull MetFacts.

(** Each of the five removal loops (gluten, dairy and eggs twice, nuts,
    side-dish categories), on a vector shorter than [2^64]: when the
    elements at the front that match the last table entry are followed by an
    element that matches an earlier entry, the loop erases at index 0, wraps
    [i] around and reads [v[2^64 - 1]]; in every other case it returns the
    vector without the elements that match an entry, the others in their
    order. *)
Theorem removal_loop_in_full {A B : Type} (eqb : A -> B -> bool)
    (front : list B) (final : B) (v : list A) :
  vec_size v < SIZE_MODULUS ->
  removal_scan eqb (front ++ [final]) v
  = if removal_reads_outside eqb front final v then Undefined
    else Ok (List.filter (fun x => negb (existsb (eqb x) (front ++ [final])))
               v).
Proof.
  intros Hv. unfold removal_scan.
  rewrite removal_outer_begin by (try lia; exact Hv).
  reflexivity.
Qed.

Lemma removal_loop_in_full_witness :
  removal_scan String.eqb gluten_ingredients ["Wheat"; "Salt"] = Undefined
  /\ removal_scan String.eqb gluten_ingredients ["Salt"; "Wheat"]
     = Ok ["Salt"]
  /\ removal_scan String.eqb gluten_ingredients ["Crust"; "Salt"]
     = Ok ["Salt"].
Proof.
  split; [|split].
  - exact (removal_loop_in_full String.eqb
             ["Wheat"; "Flour"; "Bread"; "Pasta"; "Barley"; "Rye"; "Oats"]
             "Crust" ["Wheat"; "Salt"] ltac:(vm_compute; reflexivity)).
  - exact (removal_loop_in_full String.eqb
             ["Wheat"; "Flour"; "Bread"; "Pasta"; "Barley"; "Rye"; "Oats"]
             "Crust" ["Salt"; "Wheat"] ltac:(vm_compute; reflexivity)).
  - exact (removal_loop_in_full String.eqb
             ["Wheat"; "Flour"; "Bread"; "Pasta"; "Barley"; "Rye"; "Oats"]
             "Crust" ["Crust"; "Salt"] ltac:(vm_compute; reflexivity)).
Defined.

(** [dietaryAccommodations] in full, for each of the three classes and a
    dish whose vectors an [int] can count.  The call fails to return
    exactly when a level subtraction leaves [int] or a removal loop reads
    outside its vector; otherwise the dish is left as [Accommodated.dish]
    gives it in closed form, the handlers applied in the order of the code:
    substitution before removal, nuts before dairy, levels clamped at 0,
    flags set, "Tofu" for the protein. *)
Theorem accommodations_in_full (request : Dish.DietaryRequest) (x : AnyDish) :
  countable x ->
  dietaryAccommodations request x
  = if returns request x then Ok (dish request x) else Undefined.
Proof.
  intros [Hl Hs]. destruct x as [a|m|d]; cbn [dietaryAccommodations base] in *.
  - rewrite (appetizer_handlers request a Hl). cbn [returns dish].
    destruct (appetizer_returns request a); reflexivity.
  - rewrite (main_course_handlers request m Hl Hs). cbn [returns dish].
    destruct (main_course_returns request m); reflexivity.
  - rewrite (dessert_handlers request d Hl). cbn [returns dish].
    destruct (dessert_returns request d); reflexivity.
Qed.

Lemma accommodations_in_full_witness :
  dietaryAccommodations Sample.everything (AppetizerObj Sample.mixed_grill)
  = Ok (AppetizerObj
          (Appetizer.mk
             (Dish.mk "Mixed Grill" ["Beans"; "Mushrooms"; "Rice"; "Salt"] 60
                (Double.of_int 18) Dish.AMERICAN)
             Appetizer.PLATED 1 true)).
Proof.
  exact (accommodations_in_full Sample.everything
           (AppetizerObj Sample.mixed_grill)
           ltac:(split; [vm_compute; discriminate | exact I])).
Defined.

(** Whenever [dietaryAccommodations] returns, the request is met: for every
    flag the class handles, no ingredient (or side dish) of the offending
    set is left and the member that records it is set, whatever the other
    flags of the request did afterwards. *)
Theorem accommodations_meet_request
    (request : Dish.DietaryRequest) (x x' : AnyDish) :
  countable x ->
  dietaryAccommodations request x = Ok x' ->
  met request x'.
Proof.
  intros [Hl Hs] H. destruct x as [a|m|d]; cbn [dietaryAccommodations base] in *.
  - rewrite (appetizer_handlers request a Hl) in H.
    destruct (appetizer_returns request a); [|discriminate].
    injection H as <-. cbn [met appetizer Appetizer.vegetarian_ Appetizer.dish
                              Dish.setIngredients Dish.ingredients_].
    split.
    + intros Hv. rewrite Hv. split; [reflexivity|].
      apply without_free, substituted_clean, Hv.
    + intros ->. apply without_clean.
  - rewrite (main_course_handlers request m Hl Hs) in H.
    destruct (main_course_returns request m); [|discriminate].
    injection H as <-.
    cbn [met main_course MainCourse.protein_type_ MainCourse.dish
           MainCourse.gluten_free_ MainCourse.side_dishes_
           Dish.setIngredients Dish.ingredients_].
    split; [|split].
    + intros Hv. rewrite Hv. split; [reflexivity|].
      apply without_free, substituted_clean, Hv.
    + intros ->. rewrite orb_true_r. split; [reflexivity|].
      apply without_clean.
    + intros ->. split; [reflexivity|].
      apply (removal_clean MainCourse.side_dish_is).
  - rewrite (dessert_handlers request d Hl) in H.
    destruct (dessert_returns request d); [|discriminate].
    injection H as <-.
    cbn [met dessert Dessert.contains_nuts_ Dessert.dish
           Dish.setIngredients Dish.ingredients_].
    split.
    + intros ->. split; [reflexivity|].
      apply without_free, without_clean.
    + intros ->. apply without_clean.
Qed.

Lemma accommodations_meet_request_witness :
  exists x',
    dietaryAccommodations Sample.everything (MainCourseObj Sample.stew)
    = Ok x'
    /\ met Sample.everything x'.
Proof.
  destruct (dietaryAccommodations Sample.everything
              (MainCourseObj Sample.stew)) as [x'| |] eqn:E;
    [|vm_compute in E; discriminate..].
  exists x'. split; [reflexivity|].
  apply (accommodations_meet_request Sample.everything
           (MainCourseObj Sample.stew) x'); [|exact E].
  split; vm_compute; discriminate.
Defined.

(** A request without the two level flags is idempotent: accommodating the
    dish a first call returned changes nothing and cannot fail. *)
Theorem accommodations_idempotent
    (request : Dish.DietaryRequest) (x x' : AnyDish) :
  countable x ->
  Dish.low_sodium request = false ->
  Dish.low_sugar request = false ->
  dietaryAccommodations request x = Ok x' ->
  dietaryAccommodations request x' = Ok x'.
Proof.
  intros [Hl Hs] Hsodium Hsugar H.
  destruct x as [a|m|d]; cbn [dietaryAccommodations base] in *.
  - rewrite (appetizer_handlers request a Hl) in H.
    destruct (appetizer_returns request a); [|discriminate].
    injection H as <-.
    destruct a as [[name l prep price cuisine] style level veg].
    cbn [Appetizer.dish Dish.ingredients_] in Hl.
    set (l' := without (Dish.gluten_free request) gluten_ingredients
                 (substituted request l)).
    assert (Hl' : vec_size l' <= INT_MAX).
    { pose proof (without_length (Dish.gluten_free request)
                    gluten_ingredients (substituted request l)).
      pose proof (substituted_length request l).
      unfold l', vec_size in *. lia. }
    assert (Hsub : substituted request l' = l').
    { apply substituted_id. intros Hv.
      apply without_free, substituted_clean, Hv. }
    cbn [dietaryAccommodations].
    rewrite appetizer_handlers by exact Hl'.
    unfold appetizer_returns, appetizer.
    cbn [Appetizer.dish Appetizer.serving_style_ Appetizer.spiciness_level_
           Appetizer.vegetarian_ Dish.setIngredients Dish.ingredients_
           Dish.name_ Dish.prep_time_ Dish.price_ Dish.cuisine_type_].
    fold l'. rewrite Hsub, Hsodium. cbn [andb negb reduced].
    destruct (Dish.gluten_free request) eqn:Hg.
    + rewrite scan_stays_inside
        by (try discriminate; unfold l'; apply without_clean).
      cbn [andb negb].
      rewrite (without_id true gluten_ingredients l')
        by (unfold l'; apply without_clean).
      rewrite orb_assoc, orb_diag. reflexivity.
    + cbn [andb negb without]. rewrite orb_assoc, orb_diag. reflexivity.
  - rewrite (main_course_handlers request m Hl Hs) in H.
    destruct (main_course_returns request m); [|discriminate].
    injection H as <-.
    destruct m as [[name l prep price cuisine] method protein sides gf].
    cbn [MainCourse.dish Dish.ingredients_ MainCourse.side_dishes_] in Hl, Hs.
    set (l' := without (Dish.vegan request) dairy_egg_ingredients
                 (substituted request l)).
    set (sides' := if Dish.gluten_free request then
                     Policy.removal MainCourse.side_dish_is
                       MainCourse.gluten_side_dishes_category sides
                   else sides).
    assert (Hl' : vec_size l' <= INT_MAX).
    { pose proof (without_length (Dish.vegan request)
                    dairy_egg_ingredients (substituted request l)).
      pose proof (substituted_length request l).
      unfold l', vec_size in *. lia. }
    assert (Hs' : vec_size sides' <= INT_MAX).
    { unfold sides'. destruct (Dish.gluten_free request); [|exact Hs].
      apply removal_size, Hs. }
    assert (Hsub : substituted request l' = l').
    { apply substituted_id. intros Hv.
      apply without_free, substituted_clean, Hv. }
    cbn [dietaryAccommodations].
    rewrite main_course_handlers
      by (cbn [MainCourse.dish MainCourse.side_dishes_ main_course
                 Dish.setIngredients Dish.ingredients_]; assumption).
    unfold main_course_returns, main_course.
    cbn [MainCourse.dish MainCourse.cooking_method_ MainCourse.protein_type_
           MainCourse.side_dishes_ MainCourse.gluten_free_
           Dish.setIngredients Dish.ingredients_
           Dish.name_ Dish.prep_time_ Dish.price_ Dish.cuisine_type_].
    fold l'. fold sides'. rewrite Hsub.
    assert (Hdairy : (Dish.vegan request
                      && scan_reads_outside dairy_egg_ingredients l') = false).
    { destruct (Dish.vegan request) eqn:Hv; [|reflexivity].
      cbn [andb]. apply scan_stays_inside; [discriminate|].
      unfold l'. rewrite ?Hv. apply without_clean. }
    assert (Hsides : (Dish.gluten_free request
                      && removal_reads_outside MainCourse.side_dish_is
                           [MainCourse.GRAIN; MainCourse.PASTA;
                            MainCourse.BREAD] MainCourse.STARCHES sides')
                     = false).
    { destruct (Dish.gluten_free request) eqn:Hg; [|reflexivity].
      cbn [andb]. apply reads_outside_clean. unfold sides'.
      apply (removal_clean MainCourse.side_dish_is). }
    rewrite Hdairy, Hsides. cbn [andb negb].
    assert (Hl'' : without (Dish.vegan request) dairy_egg_ingredients l' = l').
    { unfold l'. destruct (Dish.vegan request) eqn:Hv; [|reflexivity].
      apply without_id, without_clean. }
    assert (Hsides'' : (if Dish.gluten_free request then
                          Policy.removal MainCourse.side_dish_is
                            MainCourse.gluten_side_dishes_category sides'
                        else sides') = sides').
    { unfold sides'. destruct (Dish.gluten_free request); [|reflexivity].
      apply removal_id, removal_clean. }
    rewrite Hl'', Hsides''.
    rewrite orb_assoc, orb_diag.
    destruct (Dish.vegetarian request || Dish.vegan request); reflexivity.
  - rewrite (dessert_handlers request d Hl) in H.
    destruct (dessert_returns request d); [|discriminate].
    injection H as <-.
    destruct d as [[name l prep price cuisine] flavor level nuts].
    cbn [Dessert.dish Dish.ingredients_] in Hl.
    set (l1 := without (Dish.nut_free request) nuts_ingredients l).
    set (l' := without (Dish.vegan request) dairy_egg_ingredients l1).
    assert (Hl' : vec_size l' <= INT_MAX).
    { pose proof (without_length (Dish.vegan request)
                    dairy_egg_ingredients l1).
      pose proof (without_length (Dish.nut_free request) nuts_ingredients l).
      unfold l', l1, vec_size in *. lia. }
    assert (Hnut : without (Dish.nut_free request) nuts_ingredients l' = l').
    { destruct (Dish.nut_free request) eqn:Hn; [|reflexivity].
      apply without_id. unfold l'. apply without_free.
      unfold l1. rewrite ?Hn. apply without_clean. }
    assert (Hdairy : without (Dish.vegan request) dairy_egg_ingredients l'
                     = l').
    { destruct (Dish.vegan request) eqn:Hv; [|reflexivity].
      apply without_id. unfold l'. rewrite ?Hv. apply without_clean. }
    cbn [dietaryAccommodations].
    rewrite dessert_handlers by exact Hl'.
    unfold dessert_returns, dessert.
    cbn [Dessert.dish Dessert.flavor_profile_ Dessert.sweetness_level_
           Dessert.contains_nuts_ Dish.setIngredients Dish.ingredients_
           Dish.name_ Dish.prep_time_ Dish.price_ Dish.cuisine_type_].
    fold l1. fold l'. rewrite Hnut, Hdairy, Hsugar. cbn [andb negb reduced].
    assert (Hn1 : (Dish.nut_free request
                   && scan_reads_outside nuts_ingredients l') = false).
    { destruct (Dish.nut_free request) eqn:Hn; [|reflexivity].
      cbn [andb]. apply scan_stays_inside; [discriminate|].
      unfold l'. apply without_free. unfold l1. rewrite ?Hn.
      apply without_clean. }
    assert (Hd1 : (Dish.vegan request
                   && scan_reads_outside dairy_egg_ingredients l') = false).
    { destruct (Dish.vegan request) eqn:Hv; [|reflexivity].
      cbn [andb]. apply scan_stays_inside; [discriminate|].
      unfold l'. rewrite ?Hv. apply without_clean. }
    rewrite Hn1, Hd1. cbn [andb negb].
    destruct (Dish.nut_free request); reflexivity.
Qed.

Lemma accommodations_idempotent_witness :
  exists x',
    dietaryAccommodations (Dish.mkRequest true true true true false false)
      (MainCourseObj Sample.stew) = Ok x'
    /\ dietaryAccommodations (Dish.mkRequest true true true true false false)
         x' = Ok x'.
Proof.
  destruct (dietaryAccommodations
              (Dish.mkRequest true true true true false false)
              (MainCourseObj Sample.stew)) as [x'| |] eqn:E;
    [|vm_compute in E; discriminate..].
  exists x'. split; [reflexivity|].
  apply (accommodations_idempotent _ (MainCourseObj Sample.stew) x');
    [split; vm_compute; discriminate | reflexivity | reflexivity | exact E].
Defined.

End DishProperties.

Module StringFacts.

Lemma string_app_nil_r (s : string) : (s ++ EmptyString)%string = s.
Proof.
  induction s as [|c s IH]; [reflexivity|].
  change (String c s ++ EmptyString)%string
    with (String c (s ++ EmptyString)%string).
  rewrite IH. reflexivity.
Qed.

Lemma string_app_assoc (s1 s2 s3 : string) :
  ((s1 ++ s2) ++ s3 = s1 ++ (s2 ++ s3))%string.
Proof.
  induction s1 as [|c s1 IH]; [reflexivity|].
  change (String c ((s1 ++ s2) ++ s3)%string
          = String c (s1 ++ (s2 ++ s3))%string).
  rewrite IH. reflexivity.
Qed.

End StringFacts.

Module DisplayProperties.
Import CxxFacts StringFacts Format.

(** The loop over the side dishes writes them separated by a comma and a
    space. *)
Lemma display_side_dishes_join (size : Z) :
  size < SIZE_MODULUS ->
  forall (rest : list MainCourse.SideDish) (i : Z),
    0 <= i ->
    i + vec_size rest = size ->
    MainCourse.display_side_dishes size i rest
    = String.concat ", " (map side_dish rest).
Proof.
  intros Hsize. induction rest as [|s rest IH]; intros i Hi Hlen;
    [reflexivity|].
  cbn [MainCourse.display_side_dishes map].
  unfold vec_size in Hlen. cbn [length] in Hlen.
  assert (Hdecr : size_decr size = size - 1).
  { unfold size_decr, size_wrap. apply Z.mod_small. lia. }
  assert (Hincr : size_incr i = i + 1).
  { unfold size_incr, size_wrap. apply Z.mod_small. lia. }
  rewrite Hdecr, Hincr.
  rewrite IH by (unfold vec_size; lia).
  assert (Hcat : forall tail : string,
             (MainCourse.name s
              ++ MainCourse.category_text s MainCourse.GRAIN
                   " (Category: Grain)"
              ++ MainCourse.category_text s MainCourse.PASTA
                   " (Category: Pasta)"
              ++ MainCourse.category_text s MainCourse.LEGUME
                   " (Category: Legume)"
              ++ MainCourse.category_text s MainCourse.BREAD
                   " (Category: Bread)"
              ++ MainCourse.category_text s MainCourse.SALAD
                   " (Category: Salad)"
              ++ MainCourse.category_text s MainCourse.SOUP
                   " (Category: Soup)"
              ++ MainCourse.category_text s MainCourse.STARCHES
                   " (Category: Starches)"
              ++ MainCourse.category_text s MainCourse.VEGETABLE
                   " (Category: Vegetable)"
              ++ tail)%string
             = (side_dish s ++ tail)%string).
  { intros tail. unfold side_dish, MainCourse.category_text.
    rewrite !string_app_assoc.
    destruct (MainCourse.category s); reflexivity. }
  rewrite Hcat.
  destruct rest as [|s' rest].
  - destruct (Z.ltb_spec i (size - 1)) as [Hlt|_];
      [cbn [length] in Hlen; lia|].
    cbn [map String.concat]. rewrite string_app_nil_r. reflexivity.
  - destruct (Z.ltb_spec i (size - 1)) as [_|Hge];
      [|cbn [length] in Hlen; lia].
    cbn [map String.concat]. reflexivity.
Qed.

(** [Appetizer::display] and [MainCourse::display] write, after the lines of
    [Dish::display], one line for each member, in this format:
    exactly one serving-style or cooking-method line with the label of the
    enumerator, and the side dishes, each with its category in brackets,
    separated by a comma and a space, none after the last, nothing for an
    empty vector. *)
Theorem displays_follow_format
    (Dish_display : Dish.t -> string) (show_int : Z -> string)
    (a : Appetizer.t) (m : MainCourse.t) :
  vec_size (MainCourse.side_dishes_ m) < SIZE_MODULUS ->
  Appetizer.display Dish_display show_int a
  = (Dish_display (Appetizer.dish a)
     ++ "Serving Style: " ++ serving_style_label (Appetizer.serving_style_ a)
     ++ endl
     ++ "Spiciness Level: " ++ show_int (Appetizer.spiciness_level_ a)
     ++ endl
     ++ "Vegetarian: " ++ yes_no (Appetizer.vegetarian_ a) ++ endl)%string
  /\ MainCourse.display Dish_display m
     = (Dish_display (MainCourse.dish m)
        ++ "Cooking Method: "
        ++ cooking_method_label (MainCourse.cooking_method_ m) ++ endl
        ++ "Protein Type: " ++ MainCourse.protein_type_ m ++ endl
        ++ "Side Dishes: "
        ++ String.concat ", " (map side_dish (MainCourse.side_dishes_ m))
        ++ endl
        ++ "Gluten-Free: " ++ yes_no (MainCourse.gluten_free_ m)
        ++ endl)%string.
Proof.
  intros Hsize. split.
  - unfold Appetizer.display, Appetizer.serving_style_line,
      Appetizer.getSpicinessLevel, Appetizer.isVegetarian.
    destruct (Appetizer.serving_style_ a), (Appetizer.vegetarian_ a);
      reflexivity.
  - unfold MainCourse.display, MainCourse.cooking_method_line,
      MainCourse.getProteinType, MainCourse.getSideDishes,
      MainCourse.isGlutenFree.
    rewrite (display_side_dishes_join (vec_size (MainCourse.side_dishes_ m))
               Hsize (MainCourse.side_dishes_ m) 0) by lia.
    destruct (MainCourse.cooking_method_ m), (MainCourse.gluten_free_ m);
      reflexivity.
Qed.

Lemma displays_follow_format_witness :
  MainCourse.display (fun _ => EmptyString) Sample.stew
  = ("Cooking Method: Boiled" ++ endl
     ++ "Protein Type: Beef" ++ endl
     ++ "Side Dishes: Green Salad (Category: Salad), "
     ++ "Bread Roll (Category: Bread)" ++ endl
     ++ "Gluten-Free: No" ++ endl)%string.
Proof.
  exact (proj2 (displays_follow_format (fun _ => EmptyString)
                  (fun _ => EmptyString) Sample.mixed_grill Sample.stew
                  ltac:(vm_compute; reflexivity))).
Defined.

End DisplayProperties.

Module GetlineFacts.
Import StringFacts Csv Encode.

Lemma lacks_cons (c a : Ascii.ascii) (s : string) :
  lacks c (String a s) = negb (Ascii.eqb a c) && lacks c s.
Proof. reflexivity. Qed.

Lemma lacks_app (c : Ascii.ascii) (s1 s2 : string) :
  lacks c (s1 ++ s2)%string = lacks c s1 && lacks c s2.
Proof.
  induction s1 as [|a s1 IH]; [reflexivity|].
  change (String a s1 ++ s2)%string with (String a (s1 ++ s2)%string).
  rewrite !lacks_cons, IH, andb_assoc. reflexivity.
Qed.

Lemma length_followed (x : string) (d : Ascii.ascii) (rest : string) :
  String.length (followed x d rest)
  = (String.length x + S (String.length rest))%nat.
Proof.
  unfold followed. induction x as [|a x IH]; [reflexivity|].
  change (String a x ++ String d rest)%string
    with (String a (x ++ String d rest)%string).
  cbn [String.length]. rewrite IH. reflexivity.
Qed.

(** Up to the delimiter that ends a field. *)
Lemma extract_followed (d : Ascii.ascii) (x rest : string) :
  lacks d x = true -> extract d (followed x d rest) = (x, Some rest).
Proof.
  unfold followed. induction x as [|a x IH]; intros H.
  - change (EmptyString ++ String d rest)%string with (String d rest).
    cbn [extract]. rewrite Ascii.eqb_refl. reflexivity.
  - rewrite lacks_cons in H. apply andb_true_iff in H as [Ha Hx].
    change (String a x ++ String d rest)%string
      with (String a (x ++ String d rest)%string).
    cbn [extract]. apply negb_true_iff in Ha. rewrite Ha, (IH Hx).
    reflexivity.
Qed.

(** Up to the end of the input. *)
Lemma extract_lacks (d : Ascii.ascii) (x : string) :
  lacks d x = true -> extract d x = (x, None).
Proof.
  induction x as [|a x IH]; intros H; [reflexivity|].
  rewrite lacks_cons in H. apply andb_true_iff in H as [Ha Hx].
  cbn [extract]. apply negb_true_iff in Ha. rewrite Ha, (IH Hx).
  reflexivity.
Qed.

Lemma getline_followed (d : Ascii.ascii) (x rest str : string) :
  lacks d x = true ->
  getline (Good (followed x d rest)) str d = (Good rest, x, true).
Proof.
  intros H. unfold getline. rewrite (extract_followed d x rest H).
  reflexivity.
Qed.

Lemma getline_last (d : Ascii.ascii) (x str : string) :
  lacks d x = true ->
  getline (Good x) str d = (NotGood, x, negb (String.eqb x EmptyString)).
Proof.
  intros H. unfold getline. rewrite (extract_lacks d x H). reflexivity.
Qed.

Lemma closed_cons (x : string) (l : list string) :
  l <> [] -> closed (x :: l) = closed l.
Proof.
  intros Hl. unfold closed. cbn [List.rev].
  destruct (List.rev l) as [|a r] eqn:E; [|reflexivity].
  exfalso. apply Hl. rewrite <- (List.rev_involutive l), E. reflexivity.
Qed.

(** The loop over [std::getline] gives back the fields that were joined. *)
Lemma getline_loop_join (d : Ascii.ascii) :
  forall (l : list string) (fuel : nat) (str : string) (v : list string),
    forallb (lacks d) l = true ->
    closed l = true ->
    (String.length (join d l) < fuel)%nat ->
    getline_loop fuel (Good (join d l)) str d v = Returns (v ++ l).
Proof.
  induction l as [|x l IH]; intros fuel str v Hl Hc Hfuel.
  - destruct fuel as [|fuel]; [lia|]. cbn [getline_loop join].
    rewrite getline_last by reflexivity. cbn. rewrite app_nil_r. reflexivity.
  - cbn [forallb] in Hl. apply andb_true_iff in Hl as [Hx Hl].
    destruct l as [|y l].
    + cbn [join] in *. unfold closed in Hc. cbn [List.rev app] in Hc.
      destruct fuel as [|[|fuel]];
        [lia | destruct x; [discriminate | cbn [String.length] in Hfuel; lia]
        |].
      cbn [getline_loop]. rewrite getline_last by exact Hx. rewrite Hc.
      cbn [getline_loop getline]. reflexivity.
    + rewrite closed_cons in Hc by discriminate.
      change (join d (x :: y :: l)) with (followed x d (join d (y :: l))) in *.
      rewrite length_followed in Hfuel.
      destruct fuel as [|fuel]; [lia|]. cbn [getline_loop].
      rewrite getline_followed by exact Hx.
      rewrite IH by (try assumption; lia).
      rewrite <- app_assoc. reflexivity.
Qed.

End GetlineFacts.

(** Evaluation of [digit] on a given character. *)
Ltac eval_digit :=
  match goal with
  | |- context [Csv.digit ?c] =>
      let v := eval vm_compute in (Csv.digit c) in
      change (Csv.digit c) with v; cbv iota
  end.

Module StoiFacts.
Import StringFacts Csv Encode GetlineFacts.

Lemma digits_value_stop (s : string) (acc : Z) :
  starts_with_digit s = false -> digits_value s acc = acc.
Proof.
  destruct s as [|c s]; [reflexivity|]. cbn [starts_with_digit digits_value].
  destruct (digit c); [discriminate | reflexivity].
Qed.

(** The digits of a decimal number, after digits that gave a positive
    number. *)
Lemma digits_value_uint_acc (tail : string) :
  starts_with_digit tail = false ->
  forall (d : Decimal.uint) (p : positive),
    digits_value (DecimalString.NilEmpty.string_of_uint d ++ tail)%string
      (Z.pos p)
    = Z.pos (Pos.of_uint_acc d p).
Proof.
  intros Htail. induction d as [|d IH|d IH|d IH|d IH|d IH|d IH|d IH|d IH|d IH|d IH];
    intros p; cbn [DecimalString.NilEmpty.string_of_uint Pos.of_uint_acc];
    [apply digits_value_stop, Htail|..];
    match goal with
    | |- digits_value (String ?c ?s ++ tail)%string _ = _ =>
        change (String c s ++ tail)%string with (String c (s ++ tail)%string)
    end;
    cbn [digits_value]; rewrite <- IH; eval_digit; f_equal; lia.
Qed.

(** The digits of a decimal number, leading zeros included. *)
Lemma digits_value_uint (tail : string) :
  starts_with_digit tail = false ->
  forall d : Decimal.uint,
    digits_value (DecimalString.NilEmpty.string_of_uint d ++ tail)%string 0
    = Z.of_N (Pos.of_uint d).
Proof.
  intros Htail. induction d as [|d IH|d IH|d IH|d IH|d IH|d IH|d IH|d IH|d IH|d IH];
    cbn [DecimalString.NilEmpty.string_of_uint Pos.of_uint];
    [apply digits_value_stop, Htail|..];
    match goal with
    | |- digits_value (String ?c ?s ++ tail)%string _ = _ =>
        change (String c s ++ tail)%string with (String c (s ++ tail)%string)
    end;
    cbn [digits_value]; eval_digit;
    [exact IH|..];
    cbn [Z.of_N]; rewrite <- (digits_value_uint_acc tail Htail);
    reflexivity.
Qed.

(** A decimal number that is not empty starts with a digit. *)
Lemma string_of_uint_head (d : Decimal.uint) :
  d <> Decimal.Nil ->
  exists c s,
    DecimalString.NilEmpty.string_of_uint d = String c s
    /\ is_Some (digit c)
    /\ isspace c = false
    /\ Ascii.eqb c minus = false
    /\ Ascii.eqb c plus = false.
Proof.
  intros Hd. destruct d; [contradiction|..];
    cbn [DecimalString.NilEmpty.string_of_uint];
    eexists _, _; (split; [reflexivity|]);
    (split; [vm_compute; eauto|]); repeat split; reflexivity.
Qed.

Lemma string_of_uint_nonnil (d : Decimal.uint) :
  d <> Decimal.Nil ->
  DecimalString.NilZero.string_of_uint d
  = DecimalString.NilEmpty.string_of_uint d.
Proof. destruct d; [contradiction|..]; reflexivity. Qed.

(** [std::stoi] on a decimal number without sign. *)
Lemma stoi_unsigned (d : Decimal.uint) (tail : string) :
  d <> Decimal.Nil ->
  starts_with_digit tail = false ->
  stoi (DecimalString.NilEmpty.string_of_uint d ++ tail)%string
  = if in_int (Z.of_N (Pos.of_uint d)) then Returns (Z.of_N (Pos.of_uint d))
    else Throws out_of_range.
Proof.
  intros Hd Htail.
  destruct (string_of_uint_head d Hd) as (c & s & E & [v Hv] & Hsp & Hm & Hp).
  pose proof (digits_value_uint tail Htail d) as Hval.
  unfold stoi. rewrite E in *.
  change (String c s ++ tail)%string with (String c (s ++ tail)%string) in *.
  cbn [skip_spaces]. rewrite Hsp. cbn [sign]. rewrite Hm, Hp.
  cbn [starts_with_digit]. rewrite Hv. rewrite Hval. reflexivity.
Qed.

(** [std::stoi] on a decimal number after a minus sign. *)
Lemma stoi_negative (d : Decimal.uint) (tail : string) :
  d <> Decimal.Nil ->
  starts_with_digit tail = false ->
  stoi (String minus
          (DecimalString.NilEmpty.string_of_uint d ++ tail)%string)
  = if in_int (- Z.of_N (Pos.of_uint d))
    then Returns (- Z.of_N (Pos.of_uint d))
    else Throws out_of_range.
Proof.
  intros Hd Htail.
  destruct (string_of_uint_head d Hd) as (c & s & E & [v Hv] & Hsp & Hm & Hp).
  pose proof (digits_value_uint tail Htail d) as Hval.
  unfold stoi. rewrite E in *.
  change (String c s ++ tail)%string with (String c (s ++ tail)%string) in *.
  cbn [skip_spaces]. change (isspace minus) with false. cbn iota.
  cbn [sign]. rewrite Ascii.eqb_refl.
  cbn [starts_with_digit]. rewrite Hv. rewrite Hval. reflexivity.
Qed.

(** [std::stoi] reads back the decimal numeral of every [int], whatever
    follows it, as long as that is no digit. *)
Lemma stoi_numeral_tail (z : Z) (tail : string) :
  in_int z = true ->
  starts_with_digit tail = false ->
  stoi (numeral z ++ tail)%string = Returns z.
Proof.
  intros Hz Htail. unfold numeral. destruct z as [|p|p]; cbn [Z.to_int].
  - change (stoi (DecimalString.NilEmpty.string_of_uint
                    (Decimal.D0 Decimal.Nil) ++ tail)%string = Returns 0).
    rewrite (stoi_unsigned (Decimal.D0 Decimal.Nil) tail)
      by (try discriminate; exact Htail).
    reflexivity.
  - cbn [DecimalString.NilZero.string_of_int].
    rewrite string_of_uint_nonnil
      by apply DecimalPos.Unsigned.to_uint_nonnil.
    rewrite stoi_unsigned
      by (try exact Htail; apply DecimalPos.Unsigned.to_uint_nonnil).
    rewrite DecimalPos.Unsigned.of_to. cbn [Z.of_N]. rewrite Hz.
    reflexivity.
  - assert (E : (DecimalString.NilZero.string_of_int
                   (Decimal.Neg (Pos.to_uint p)) ++ tail)%string
               = String minus
                   (DecimalString.NilEmpty.string_of_uint (Pos.to_uint p)
                    ++ tail)%string).
    { cbn [DecimalString.NilZero.string_of_int].
      rewrite string_of_uint_nonnil
        by apply DecimalPos.Unsigned.to_uint_nonnil.
      reflexivity. }
    rewrite E.
    rewrite stoi_negative
      by (try exact Htail; apply DecimalPos.Unsigned.to_uint_nonnil).
    rewrite DecimalPos.Unsigned.of_to.
    change (- Z.of_N (N.pos p)) with (Z.neg p). rewrite Hz.
    reflexivity.
Qed.

End StoiFacts.

Module EncodeFacts.
Import StringFacts Csv Encode GetlineFacts StoiFacts.

Lemma stoi_numeral (z : Z) : in_int z = true -> stoi (numeral z) = Returns z.
Proof.
  intros Hz. rewrite <- (string_app_nil_r (numeral z)).
  apply stoi_numeral_tail; [exact Hz | reflexivity].
Qed.

(** A numeral consists of digits and at most a minus sign. *)
Lemma lacks_uint (c : Ascii.ascii) (d : Decimal.uint) :
  digit c = None ->
  lacks c (DecimalString.NilEmpty.string_of_uint d) = true.
Proof.
  intros Hc.
  induction d as [|d IH|d IH|d IH|d IH|d IH|d IH|d IH|d IH|d IH|d IH];
    cbn [DecimalString.NilEmpty.string_of_uint]; [reflexivity|..];
    rewrite lacks_cons, IH, andb_true_r;
    apply negb_true_iff;
    match goal with
    | |- Ascii.eqb ?k c = false =>
        destruct (Ascii.eqb_spec k c) as [E|_]; [|reflexivity];
        rewrite <- E in Hc; vm_compute in Hc; discriminate
    end.
Qed.

Lemma lacks_numeral (c : Ascii.ascii) (z : Z) :
  digit c = None -> Ascii.eqb minus c = false ->
  lacks c (numeral z) = true.
Proof.
  intros Hc Hm. unfold numeral. destruct z as [|p|p]; cbn [Z.to_int].
  - change (lacks c (DecimalString.NilEmpty.string_of_uint
                       (Decimal.D0 Decimal.Nil)) = true).
    apply lacks_uint, Hc.
  - cbn [DecimalString.NilZero.string_of_int].
    rewrite string_of_uint_nonnil
      by apply DecimalPos.Unsigned.to_uint_nonnil.
    apply lacks_uint, Hc.
  - cbn [DecimalString.NilZero.string_of_int].
    rewrite string_of_uint_nonnil
      by apply DecimalPos.Unsigned.to_uint_nonnil.
    rewrite lacks_cons. change (Ascii.eqb _ c) with (Ascii.eqb minus c).
    rewrite Hm. apply lacks_uint, Hc.
Qed.

Lemma lacks_followed (c d : Ascii.ascii) (x rest : string) :
  lacks c (followed x d rest)
  = lacks c x && negb (Ascii.eqb d c) && lacks c rest.
Proof.
  unfold followed. rewrite lacks_app, lacks_cons, andb_assoc. reflexivity.
Qed.

Lemma lacks_join (c d : Ascii.ascii) (l : list string) :
  Ascii.eqb d c = false ->
  forallb (lacks c) l = true ->
  lacks c (join d l) = true.
Proof.
  intros Hd. induction l as [|x l IH]; intros Hl; [reflexivity|].
  cbn [forallb] in Hl. apply andb_true_iff in Hl as [Hx Hl].
  destruct l as [|y l]; [exact Hx|].
  change (join d (x :: y :: l)) with (followed x d (join d (y :: l))).
  rewrite lacks_followed, Hx, Hd, (IH Hl). reflexivity.
Qed.

Lemma lacks_truth (c : Ascii.ascii) (b : bool) :
  lacks c "true" = true -> lacks c "false" = true ->
  lacks c (truth b) = true.
Proof. destruct b; auto. Qed.

(** A list of fields none of which is empty is closed. *)
Lemma closed_nonempty (l : list string) :
  forallb (fun x => negb (String.eqb x EmptyString)) l = true ->
  closed l = true.
Proof.
  intros H. unfold closed.
  destruct (List.rev l) as [|x r] eqn:E; [reflexivity|].
  rewrite forallb_forall in H. apply H.
  apply List.in_rev. rewrite E. left. reflexivity.
Qed.

(** The enumerations are read back from their tokens. *)
Lemma cuisine_token_read (c : Dish.CuisineType) :
  Ingestion.cuisine_type_enum (cuisine_token c) = c.
Proof. destruct c; reflexivity. Qed.

Lemma serving_style_token_read (s : Appetizer.ServingStyle) :
  Ingestion.serving_style_enum (serving_style_token s) = s.
Proof. destruct s; reflexivity. Qed.

Lemma cooking_method_token_read (c : MainCourse.CookingMethod) :
  Ingestion.cooking_method_enum (cooking_method_token c) = c.
Proof. destruct c; reflexivity. Qed.

Lemma category_token_read (c : MainCourse.Category) :
  Ingestion.side_dishes_enum_category (category_token c) = c.
Proof. destruct c; reflexivity. Qed.

Lemma flavor_profile_token_read (f : Dessert.FlavorProfile) :
  Ingestion.flavor_profile_enum (flavor_profile_token f) = f.
Proof. destruct f; reflexivity. Qed.

Lemma truth_read (b : bool) : String.eqb (truth b) "true" = b.
Proof. destruct b; reflexivity. Qed.

(** A side dish is read back from its text. *)
Lemma side_dish_read (s : MainCourse.SideDish) :
  lacks colon (MainCourse.name s) = true ->
  Csv.side_dish (Encode.side_dish s) = s.
Proof.
  intros H. unfold Csv.side_dish, Encode.side_dish.
  rewrite getline_followed by exact H. cbv beta iota.
  rewrite getline_last by (destruct (MainCourse.category s); reflexivity).
  cbv beta iota. rewrite category_token_read. destruct s; reflexivity.
Qed.

Lemma side_dishes_read (l : list MainCourse.SideDish) :
  forallb (fun s => lacks colon (MainCourse.name s)) l = true ->
  map Csv.side_dish (map Encode.side_dish l) = l.
Proof.
  induction l as [|s l IH]; intros H; [reflexivity|].
  cbn [forallb] in H. apply andb_true_iff in H as [Hs Hl].
  cbn [map]. rewrite (side_dish_read s Hs), (IH Hl). reflexivity.
Qed.

(** The text of a side dish lacks every character that its name lacks and
    that is neither a colon nor a capital letter. *)
Lemma lacks_side_dish (c : Ascii.ascii) (s : MainCourse.SideDish) :
  lacks c (MainCourse.name s) = true ->
  Ascii.eqb colon c = false ->
  (forall k, lacks c (category_token k) = true) ->
  lacks c (Encode.side_dish s) = true.
Proof.
  intros Hn Hc Hk. unfold Encode.side_dish.
  rewrite lacks_followed, Hn, Hc, Hk. reflexivity.
Qed.

Lemma side_dish_nonempty (s : MainCourse.SideDish) :
  negb (String.eqb (Encode.side_dish s) EmptyString) = true.
Proof.
  unfold Encode.side_dish, followed.
  destruct (MainCourse.name s); reflexivity.
Qed.

End EncodeFacts.

Module RecordFacts.
Import StringFacts Csv Encode GetlineFacts StoiFacts EncodeFacts.

Lemma split_join (d : Ascii.ascii) (l : list string) :
  forallb (lacks d) l = true ->
  closed l = true ->
  split d (join d l) = Returns l.
Proof.
  intros Hl Hc. unfold split.
  rewrite getline_loop_join by (try assumption; lia). reflexivity.
Qed.

(** The seven fields of a record, lines 292-303. *)
Lemma record_common (stod : string -> outcome spec_float)
    (dishtype name : string) (ingredients : list string) (prep_time : Z)
    (price : string) (cuisine_type : Dish.CuisineType) (attributes : string)
    (value : spec_float) :
  lacks comma dishtype = true ->
  lacks comma name = true ->
  forallb (lacks comma) ingredients = true ->
  in_int prep_time = true ->
  lacks comma price = true ->
  stod price = Returns value ->
  lacks comma attributes = true ->
  record stod
    (common dishtype name ingredients prep_time price cuisine_type attributes)
  = dish_of_fields dishtype name (join semicolon ingredients) prep_time value
      (cuisine_token cuisine_type) attributes.
Proof.
  intros Hd Hn Hi Hp Hpr Hst Ha. unfold record, common. cbv zeta.
  rewrite getline_followed by exact Hd. cbv beta iota.
  rewrite getline_followed by exact Hn. cbv beta iota.
  rewrite getline_followed
    by (apply lacks_join; [reflexivity | exact Hi]).
  cbv beta iota.
  rewrite getline_followed
    by (apply lacks_numeral; reflexivity).
  cbv beta iota.
  rewrite (stoi_numeral prep_time Hp). cbn [bind].
  rewrite getline_followed by exact Hpr. cbv beta iota.
  rewrite Hst. cbn [bind].
  rewrite getline_followed by (destruct cuisine_type; reflexivity).
  cbv beta iota.
  rewrite getline_last by exact Ha. cbv beta iota.
  reflexivity.
Qed.

Lemma forallb_and {A : Type} (f g : A -> bool) (l : list A) :
  forallb (fun x => f x && g x) l = true ->
  forallb f l = true /\ forallb g l = true.
Proof.
  induction l as [|x l IH]; intros H; [split; reflexivity|].
  cbn [forallb] in *. apply andb_true_iff in H as [Hx Hl].
  apply andb_true_iff in Hx as [Hf Hg]. destruct (IH Hl) as [H1 H2].
  rewrite Hf, Hg, H1, H2. split; reflexivity.
Qed.

Lemma forallb_map {A B : Type} (f : B -> bool) (g : A -> B) (l : list A) :
  forallb f (map g l) = forallb (fun x => f (g x)) l.
Proof.
  induction l as [|x l IH]; [reflexivity|]. cbn [map forallb].
  rewrite IH. reflexivity.
Qed.

(** An appetizer is read back from its line. *)
Lemma appetizer_read (name : string) (ingredients : list string)
    (prep_time : Z) (price : spec_float) (cuisine_type : Dish.CuisineType)
    (serving_style : Appetizer.ServingStyle) (spiciness_level : Z)
    (vegetarian : bool) :
  forallb (lacks semicolon) ingredients = true ->
  closed ingredients = true ->
  in_int spiciness_level = true ->
  dish_of_fields "APPETIZER" name (join semicolon ingredients) prep_time price
    (cuisine_token cuisine_type)
    (followed (serving_style_token serving_style) semicolon
       (followed (numeral spiciness_level) semicolon (truth vegetarian)))
  = Returns
      (Some
         (NewAppetizer name ingredients prep_time price cuisine_type
            serving_style spiciness_level vegetarian)).
Proof.
  intros Hi Hc Hs. unfold dish_of_fields.
  change (String.eqb "APPETIZER" "APPETIZER") with true. cbv beta iota zeta.
  rewrite getline_followed by (destruct serving_style; reflexivity).
  cbv beta iota.
  rewrite getline_followed by (apply lacks_numeral; reflexivity).
  cbv beta iota.
  rewrite (stoi_numeral spiciness_level Hs). cbn [bind].
  rewrite getline_last by (destruct vegetarian; reflexivity).
  cbv beta iota.
  rewrite (split_join semicolon ingredients Hi Hc). cbn [bind].
  rewrite truth_read, cuisine_token_read, serving_style_token_read.
  reflexivity.
Qed.

(** A dessert is read back from its line. *)
Lemma dessert_read (name : string) (ingredients : list string)
    (prep_time : Z) (price : spec_float) (cuisine_type : Dish.CuisineType)
    (flavor_profile : Dessert.FlavorProfile) (sweetness_level : Z)
    (contains_nuts : bool) :
  forallb (lacks semicolon) ingredients = true ->
  closed ingredients = true ->
  in_int sweetness_level = true ->
  dish_of_fields "DESSERT" name (join semicolon ingredients) prep_time price
    (cuisine_token cuisine_type)
    (followed (flavor_profile_token flavor_profile) semicolon
       (followed (numeral sweetness_level) semicolon (truth contains_nuts)))
  = Returns
      (Some
         (NewDessert name ingredients prep_time price cuisine_type
            flavor_profile sweetness_level contains_nuts)).
Proof.
  intros Hi Hc Hs. unfold dish_of_fields.
  change (String.eqb "DESSERT" "APPETIZER") with false.
  change (String.eqb "DESSERT" "MAINCOURSE") with false.
  change (String.eqb "DESSERT" "DESSERT") with true. cbv beta iota zeta.
  rewrite getline_followed by (destruct flavor_profile; reflexivity).
  cbv beta iota.
  rewrite getline_followed by (apply lacks_numeral; reflexivity).
  cbv beta iota.
  rewrite (stoi_numeral sweetness_level Hs). cbn [bind].
  rewrite getline_last by (destruct contains_nuts; reflexivity).
  cbv beta iota.
  rewrite (split_join semicolon ingredients Hi Hc). cbn [bind].
  rewrite truth_read, cuisine_token_read, flavor_profile_token_read.
  reflexivity.
Qed.

(** A main course is read back from its line. *)
Lemma main_course_read (name : string) (ingredients : list string)
    (prep_time : Z) (price : spec_float) (cuisine_type : Dish.CuisineType)
    (cooking_method : MainCourse.CookingMethod) (protein_type : string)
    (side_dishes : list MainCourse.SideDish) (gluten_free : bool) :
  forallb (lacks semicolon) ingredients = true ->
  closed ingredients = true ->
  lacks semicolon protein_type = true ->
  forallb (fun s => lacks semicolon (MainCourse.name s)) side_dishes = true ->
  forallb (fun s => lacks bar (MainCourse.name s)) side_dishes = true ->
  forallb (fun s => lacks colon (MainCourse.name s)) side_dishes = true ->
  dish_of_fields "MAINCOURSE" name (join semicolon ingredients) prep_time
    price (cuisine_token cuisine_type)
    (followed (cooking_method_token cooking_method) semicolon
       (followed protein_type semicolon
          (followed (join bar (map Encode.side_dish side_dishes)) semicolon
             (truth gluten_free))))
  = Returns
      (Some
         (NewMainCourse name ingredients prep_time price cuisine_type
            cooking_method protein_type side_dishes gluten_free)).
Proof.
  intros Hi Hc Hp Hsemi Hbar Hcolon. unfold dish_of_fields.
  change (String.eqb "MAINCOURSE" "APPETIZER") with false.
  change (String.eqb "MAINCOURSE" "MAINCOURSE") with true.
  cbv beta iota zeta.
  rewrite getline_followed by (destruct cooking_method; reflexivity).
  cbv beta iota.
  rewrite getline_followed by exact Hp. cbv beta iota.
  rewrite getline_followed.
  2:{ apply lacks_join; [reflexivity|]. rewrite forallb_map.
      rewrite forallb_forall in Hsemi. apply forallb_forall. intros s Hs.
      apply lacks_side_dish; [apply Hsemi, Hs | reflexivity |].
      intros k. destruct k; reflexivity. }
  cbv beta iota.
  rewrite getline_last by (destruct gluten_free; reflexivity).
  cbv beta iota.
  rewrite (split_join semicolon ingredients Hi Hc). cbn [bind].
  rewrite split_join.
  - cbn [bind].
    rewrite (side_dishes_read side_dishes Hcolon).
    rewrite truth_read, cuisine_token_read, cooking_method_token_read.
    reflexivity.
  - rewrite forallb_map.
    rewrite forallb_forall in Hbar. apply forallb_forall. intros s Hs.
    apply lacks_side_dish; [apply Hbar, Hs | reflexivity |].
    intros k. destruct k; reflexivity.
  - apply closed_nonempty. rewrite forallb_map. apply forallb_forall.
    intros s _. apply side_dish_nonempty.
Qed.

(** The loop over the lines of a file whose last line has no end of
    line. *)
Lemma records_join (stod : string -> outcome spec_float) :
  forall (lines : list string) (fuel : nat) (line : string)
         (sofar : list new_dish),
    forallb (lacks newline) lines = true ->
    closed lines = true ->
    (String.length (join newline lines) < fuel)%nat ->
    records stod fuel (Good (join newline lines)) line sofar
    = Lines.dishes stod lines sofar.
Proof.
  induction lines as [|x lines IH]; intros fuel line sofar Hl Hc Hfuel.
  - destruct fuel as [|fuel]; [lia|]. cbn [records join].
    rewrite getline_last by reflexivity. reflexivity.
  - cbn [forallb] in Hl. apply andb_true_iff in Hl as [Hx Hl].
    destruct lines as [|y lines].
    + cbn [join] in *. unfold closed in Hc. cbn [List.rev app] in Hc.
      destruct fuel as [|[|fuel]];
        [lia | destruct x; [discriminate | cbn [String.length] in Hfuel; lia]
        |].
      cbn [records Lines.dishes]. rewrite getline_last by exact Hx.
      rewrite Hc. destruct (record stod x) as [dish| |]; reflexivity.
    + rewrite closed_cons in Hc by discriminate.
      change (join newline (x :: y :: lines))
        with (followed x newline (join newline (y :: lines))) in *.
      rewrite length_followed in Hfuel.
      destruct fuel as [|fuel]; [lia|]. cbn [records Lines.dishes].
      rewrite getline_followed by exact Hx.
      destruct (record stod x) as [dish| |]; cbn [bind]; try reflexivity.
      apply IH; [exact Hl | exact Hc | lia].
Qed.

(** The same for a file in which every line ends with an end of line. *)
Lemma records_terminated (stod : string -> outcome spec_float) :
  forall (lines : list string) (fuel : nat) (line : string)
         (sofar : list new_dish),
    forallb (lacks newline) lines = true ->
    (String.length (terminated newline lines) < fuel)%nat ->
    records stod fuel (Good (terminated newline lines)) line sofar
    = Lines.dishes stod lines sofar.
Proof.
  induction lines as [|x lines IH]; intros fuel line sofar Hl Hfuel.
  - destruct fuel as [|fuel]; [lia|]. cbn [records terminated].
    rewrite getline_last by reflexivity. reflexivity.
  - cbn [forallb] in Hl. apply andb_true_iff in Hl as [Hx Hl].
    cbn [terminated] in *. rewrite length_followed in Hfuel.
    destruct fuel as [|fuel]; [lia|]. cbn [records Lines.dishes].
    rewrite getline_followed by exact Hx.
    destruct (record stod x) as [dish| |]; cbn [bind]; try reflexivity.
    apply IH; [exact Hl | lia].
Qed.

(** What [extract] finds, counted. *)
Lemma extract_occurrences (d : Ascii.ascii) (s : string) :
  occurrences d s
  = match snd (extract d s) with
    | Some rest => S (occurrences d rest)
    | None => 0%nat
    end.
Proof.
  unfold occurrences. induction s as [|c s IH]; [reflexivity|].
  cbn [extract list_ascii_of_string List.filter].
  destruct (Ascii.eqb c d); [reflexivity|].
  destruct (extract d s) as [x rest]. exact IH.
Qed.

Lemma getline_occurrences (d : Ascii.ascii) (s str : string) :
  match getline (Good s) str d with
  | (Good rest, _, _) => occurrences d s = S (occurrences d rest)
  | (NotGood, _, _) => occurrences d s = 0%nat
  end.
Proof.
  unfold getline. pose proof (extract_occurrences d s) as H.
  destruct (extract d s) as [x [rest|]]; exact H.
Qed.

(** The loop over fields each of which ends with the delimiter. *)
Lemma getline_loop_terminated (d : Ascii.ascii) :
  forall (l : list string) (fuel : nat) (str : string) (v : list string),
    forallb (lacks d) l = true ->
    (String.length (terminated d l) < fuel)%nat ->
    getline_loop fuel (Good (terminated d l)) str d v = Returns (v ++ l).
Proof.
  induction l as [|x l IH]; intros fuel str v Hl Hfuel.
  - destruct fuel as [|fuel]; [lia|]. cbn [getline_loop terminated].
    rewrite getline_last by reflexivity. cbn. rewrite app_nil_r. reflexivity.
  - cbn [forallb] in Hl. apply andb_true_iff in Hl as [Hx Hl].
    cbn [terminated] in *. rewrite length_followed in Hfuel.
    destruct fuel as [|fuel]; [lia|]. cbn [getline_loop].
    rewrite getline_followed by exact Hx.
    rewrite IH by (try assumption; lia).
    rewrite <- app_assoc. reflexivity.
Qed.

(** A dish is read back from its line. *)
Lemma line_read (stod : string -> outcome spec_float) (price : string)
    (d : new_dish) :
  writable d = true ->
  lacks comma price = true ->
  stod price = Returns (price_of d) ->
  record stod (line price d) = Returns (Some d).
Proof.
  intros Hw Hprice Hstod. unfold writable in Hw.
  apply andb_true_iff in Hw as [Hw Hv].
  apply andb_true_iff in Hw as [Hw Hprep].
  apply andb_true_iff in Hw as [Hw Hclosed].
  apply andb_true_iff in Hw as [Hname Hing].
  apply forallb_and in Hing as [Hcomma Hsemi].
  destruct d as [name ingredients prep_time value cuisine_type serving_style
                   spiciness_level vegetarian
                |name ingredients prep_time value cuisine_type cooking_method
                   protein_type side_dishes gluten_free
                |name ingredients prep_time value cuisine_type flavor_profile
                   sweetness_level contains_nuts];
    cbn [name_of ingredients_of prep_time_of price_of] in *; cbn [line].
  - rewrite (record_common stod _ _ _ _ _ _ _ value);
      try assumption; try reflexivity.
    + apply appetizer_read; assumption.
    + rewrite !lacks_followed. rewrite lacks_numeral by reflexivity.
      destruct serving_style, vegetarian; reflexivity.
  - apply andb_true_iff in Hv as [Hv Hsides].
    apply andb_true_iff in Hv as [Hpc Hps].
    apply forallb_and in Hsides as [Hsides Hscolon].
    apply forallb_and in Hsides as [Hsides Hsbar].
    apply forallb_and in Hsides as [Hscomma Hssemi].
    rewrite (record_common stod _ _ _ _ _ _ _ value);
      try assumption; try reflexivity.
    + apply main_course_read; assumption.
    + rewrite !lacks_followed. rewrite Hpc.
      rewrite lacks_join;
        [destruct cooking_method, gluten_free; reflexivity | reflexivity |].
      rewrite forallb_map. rewrite forallb_forall in Hscomma.
      apply forallb_forall. intros s Hs.
      apply lacks_side_dish; [apply Hscomma, Hs | reflexivity |].
      intros k. destruct k; reflexivity.
  - rewrite (record_common stod _ _ _ _ _ _ _ value);
      try assumption; try reflexivity.
    + apply dessert_read; assumption.
    + rewrite !lacks_followed. rewrite lacks_numeral by reflexivity.
      destruct flavor_profile, contains_nuts; reflexivity.
Qed.

(** A line with fewer than three commas has no field for the preparation
    time. *)
Lemma short_record (stod : string -> outcome spec_float) (line : string) :
  (occurrences comma line < 3)%nat ->
  record stod line = Throws invalid_argument.
Proof.
  intros H. unfold record.
  pose proof (getline_occurrences comma line EmptyString) as H1.
  destruct (getline (Good line) EmptyString comma) as [[[rest1|] x1] ok1];
    [|reflexivity].
  pose proof (getline_occurrences comma rest1 EmptyString) as H2.
  destruct (getline (Good rest1) EmptyString comma) as [[[rest2|] x2] ok2];
    [|reflexivity].
  pose proof (getline_occurrences comma rest2 EmptyString) as H3.
  destruct (getline (Good rest2) EmptyString comma) as [[[rest3|] x3] ok3];
    [lia | reflexivity].
Qed.

(** The dishes of the lines of writable dishes. *)
Lemma dishes_return (stod : string -> outcome spec_float) :
  forall (entries : list (string * new_dish)) (sofar : list new_dish),
    Forall
      (fun e =>
         writable (snd e) = true /\ lacks comma (fst e) = true
         /\ stod (fst e) = Returns (price_of (snd e)))
      entries ->
    Lines.dishes stod (map entry_line entries) sofar
    = Returns (sofar ++ map snd entries).
Proof.
  induction entries as [|[price d] entries IH]; intros sofar H.
  - cbn. rewrite app_nil_r. reflexivity.
  - inversion H as [|e l [Hw [Hc Hs]] Hrest]; subst.
    cbn [fst snd] in Hw, Hc, Hs.
    change (map entry_line ((price, d) :: entries))
      with (line price d :: map entry_line entries).
    change (map snd ((price, d) :: entries)) with (d :: map snd entries).
    cbn [Lines.dishes].
    rewrite (line_read stod price d Hw Hc Hs). cbn [bind].
    rewrite (IH _ Hrest). rewrite <- app_assoc. reflexivity.
Qed.

(** The lines after a line that throws are not read. *)
Lemma dishes_throw (stod : string -> outcome spec_float) (e : exn)
    (bad : string) (after : list string) :
  record stod bad = Throws e ->
  forall (before : list string) (sofar : list new_dish),
    Forall (fun l => exists r, record stod l = Returns r) before ->
    Lines.dishes stod (before ++ bad :: after) sofar = Throws e.
Proof.
  intros Hbad. induction before as [|l before IH]; intros sofar H.
  - cbn [app Lines.dishes]. rewrite Hbad. reflexivity.
  - inversion H as [|l' before' [r Hr] Hrest]; subst.
    cbn [app Lines.dishes]. rewrite Hr. cbn [bind]. apply IH, Hrest.
Qed.

(** The constructor on a file: the first line is dropped and the others are
    read in order. *)
Lemma ingest_terminated (stod : string -> outcome spec_float)
    (header : string) (lines : list string) :
  lacks newline header = true ->
  forallb (lacks newline) lines = true ->
  ingest stod (Some (followed header newline (terminated newline lines)))
  = Lines.dishes stod lines [].
Proof.
  intros Hh Hl. unfold ingest. rewrite getline_followed by exact Hh.
  apply records_terminated; [exact Hl|]. rewrite length_followed. lia.
Qed.

Lemma ingest_join (stod : string -> outcome spec_float)
    (header : string) (lines : list string) :
  lacks newline header = true ->
  forallb (lacks newline) lines = true ->
  closed lines = true ->
  ingest stod (Some (followed header newline (join newline lines)))
  = Lines.dishes stod lines [].
Proof.
  intros Hh Hl Hc. unfold ingest. rewrite getline_followed by exact Hh.
  apply records_join; [exact Hl | exact Hc |]. rewrite length_followed. lia.
Qed.

(** The line of a dish is not empty. *)
Lemma entry_line_nonempty (e : string * new_dish) :
  negb (String.eqb (entry_line e) EmptyString) = true.
Proof. destruct e as [price []]; reflexivity. Qed.

End RecordFacts.

Module IngestionProperties.
Import StringFacts Csv Encode GetlineFacts StoiFacts EncodeFacts RecordFacts.

(** The loops [while (std::getline(stream, field, delim))
    v.push_back(field);] of the constructor give back the fields of a text:
    joined by the delimiter when the last field is not empty, and as well with
    the delimiter after every field, so that a delimiter at the end adds no
    empty field. *)
Theorem fields_read_back (d : Ascii.ascii) (l : list string) :
  forallb (lacks d) l = true ->
  (closed l = true -> split d (join d l) = Returns l)
  /\ split d (terminated d l) = Returns l.
Proof.
  intros Hl. split.
  - intros Hc. apply split_join; assumption.
  - unfold split. rewrite getline_loop_terminated by (try assumption; lia).
    reflexivity.
Qed.

Lemma fields_read_back_witness :
  split semicolon "Veal;Flour" = Returns ["Veal"; "Flour"]
  /\ split semicolon "Veal;Flour;" = Returns ["Veal"; "Flour"].
Proof.
  exact (conj
           (proj1 (fields_read_back semicolon ["Veal"; "Flour"] eq_refl)
              eq_refl)
           (proj2 (fields_read_back semicolon ["Veal"; "Flour"] eq_refl))).
Defined.

(** The constructor reads a file of dishes back: for dishes whose texts
    keep clear of the delimiters and whose numbers are [int]s, written one per
    line after a first line, it hands exactly these dishes to [newOrder], in
    order, whatever the first line is and whether or not the last line ends
    with an end of line. *)
Theorem file_reads_back (stod : string -> outcome spec_float)
    (header : string) (entries : list (string * new_dish)) :
  lacks newline header = true ->
  forallb (fun e => lacks newline (entry_line e)) entries = true ->
  Forall
    (fun e =>
       writable (snd e) = true /\ lacks comma (fst e) = true
       /\ stod (fst e) = Returns (price_of (snd e)))
    entries ->
  ingest stod
    (Some (followed header newline
             (terminated newline (map entry_line entries))))
  = Returns (map snd entries)
  /\ ingest stod
       (Some (followed header newline (join newline (map entry_line entries))))
     = Returns (map snd entries).
Proof.
  intros Hh Hl H. rewrite <- forallb_map in Hl. split.
  - rewrite ingest_terminated by assumption.
    rewrite dishes_return by exact H. reflexivity.
  - rewrite ingest_join; [| exact Hh | exact Hl |].
    + rewrite dishes_return by exact H. reflexivity.
    + apply closed_nonempty. rewrite forallb_map. apply forallb_forall.
      intros e _. apply entry_line_nonempty.
Qed.

Lemma file_reads_back_witness :
  ingest Menu.stod
    (Some (followed Menu.header newline
             (terminated newline (map entry_line Menu.entries))))
  = Returns [Menu.bruschetta; Menu.schnitzel]
  /\ ingest Menu.stod
       (Some (followed Menu.header newline
                (join newline (map entry_line Menu.entries))))
     = Returns [Menu.bruschetta; Menu.schnitzel].
Proof.
  apply (file_reads_back Menu.stod Menu.header Menu.entries);
    [reflexivity | reflexivity |].
  repeat constructor.
Defined.

(** A line with fewer than three commas, a blank line for one, makes the
    constructor throw [std::invalid_argument] out of [std::stoi], wherever it
    stands after the first line and whatever was read before it. *)
Theorem short_line_throws (stod : string -> outcome spec_float)
    (header bad : string) (before after : list string) :
  lacks newline header = true ->
  forallb (lacks newline) (before ++ bad :: after) = true ->
  Forall (fun l => exists r, record stod l = Returns r) before ->
  (occurrences comma bad < 3)%nat ->
  ingest stod
    (Some (followed header newline
             (terminated newline (before ++ bad :: after))))
  = Throws invalid_argument
  /\ (closed (before ++ bad :: after) = true ->
      ingest stod
        (Some (followed header newline
                 (join newline (before ++ bad :: after))))
      = Throws invalid_argument).
Proof.
  intros Hh Hl Hbefore Hbad. split; [|intros Hc].
  - rewrite ingest_terminated by assumption.
    apply dishes_throw; [apply short_record, Hbad | exact Hbefore].
  - rewrite ingest_join by assumption.
    apply dishes_throw; [apply short_record, Hbad | exact Hbefore].
Qed.

Lemma short_line_throws_witness :
  ingest Menu.stod
    (Some (followed Menu.header newline
             (terminated newline
                ([entry_line ("12", Menu.bruschetta)]
                 ++ EmptyString :: [entry_line ("12", Menu.schnitzel)]))))
  = Throws invalid_argument
  /\ ingest Menu.stod
       (Some (followed Menu.header newline
                (join newline
                   ([entry_line ("12", Menu.bruschetta)]
                    ++ EmptyString :: [entry_line ("12", Menu.schnitzel)]))))
     = Throws invalid_argument.
Proof.
  assert (Hbefore :
            Forall (fun l => exists r, record Menu.stod l = Returns r)
              [entry_line ("12", Menu.bruschetta)]).
  { constructor; [|constructor].
    exists (Some Menu.bruschetta). vm_compute. reflexivity. }
  assert (Hbad : (occurrences comma EmptyString < 3)%nat) by (cbn; lia).
  destruct (short_line_throws Menu.stod Menu.header EmptyString
              [entry_line ("12", Menu.bruschetta)]
              [entry_line ("12", Menu.schnitzel)]
              eq_refl eq_refl Hbefore Hbad) as [H1 H2].
  split; [exact H1 | exact (H2 eq_refl)].
Defined.

(** A MAINCOURSE line that ends after the preparation time is no
    error: the string that held the preparation time is converted a second
    time, as the price, and a main course with the cuisine OTHER, the method
    GRILLED, no protein and no side dish is made. *)
Theorem truncated_main_course (stod : string -> outcome spec_float)
    (name : string) (ingredients : list string) (prep_time : Z)
    (value : spec_float) :
  lacks comma name = true ->
  forallb (fun x => lacks comma x && lacks semicolon x) ingredients = true ->
  closed ingredients = true ->
  in_int prep_time = true ->
  stod (numeral prep_time) = Returns value ->
  record stod
    (followed "MAINCOURSE" comma
       (followed name comma
          (followed (join semicolon ingredients) comma (numeral prep_time))))
  = Returns
      (Some
         (NewMainCourse name ingredients prep_time value Dish.OTHER
            MainCourse.GRILLED EmptyString [] false)).
Proof.
  intros Hn Hi Hc Hp Hst. apply forallb_and in Hi as [Hcomma Hsemi].
  unfold record. cbv zeta.
  rewrite getline_followed by reflexivity. cbv beta iota.
  rewrite getline_followed by exact Hn. cbv beta iota.
  rewrite getline_followed by (apply lacks_join; [reflexivity | exact Hcomma]).
  cbv beta iota.
  rewrite getline_last by (apply lacks_numeral; reflexivity).
  cbv beta iota.
  rewrite (stoi_numeral prep_time Hp). cbn [bind getline].
  rewrite Hst. cbn [bind]. unfold dish_of_fields.
  change (String.eqb "MAINCOURSE" "APPETIZER") with false.
  change (String.eqb "MAINCOURSE" "MAINCOURSE") with true.
  cbv beta iota zeta. cbn [getline extract].
  rewrite (split_join semicolon ingredients Hsemi Hc). cbn [bind].
  reflexivity.
Qed.

Lemma truncated_main_course_witness :
  record Menu.stod "MAINCOURSE,Schnitzel,Veal;Flour,12"
  = Returns
      (Some
         (NewMainCourse "Schnitzel" ["Veal"; "Flour"] 12 (Double.of_int 12)
            Dish.OTHER MainCourse.GRILLED EmptyString [] false)).
Proof.
  exact (truncated_main_course Menu.stod "Schnitzel" ["Veal"; "Flour"] 12
           (Double.of_int 12) eq_refl eq_refl eq_refl eq_refl eq_refl).
Defined.

End IngestionProperties.
